(** * cursor-claude-connector: the Anthropic-to-OpenAI stream converter

    A shallow embedding of the converter of [src/server.ts]
    ([createConverterState], [convertNonStreamingResponse], [processChunk],
    [updateMetrics], [createUsageChunk], [transformToOpenAI]) and of the
    types it works on, followed by the properties of the translator.

    Conventions of the embedding.
    - A JavaScript string is a [string]: a finite sequence of code units.
      Equality, prefix tests, slicing, splitting and concatenation do not
      depend on the width of a unit; [trim] does, and is given for the
      white space that fits a unit of [string] (below U+0100).
    - Token counts and indices are JavaScript numbers holding integers; they
      are modelled in [Z], where the additions of the converter are exact.
    - An optional field ([f?: T], or a value that may be [null]) is an
      [option].
    - [Date.now()] is read from an explicit argument [now] (milliseconds).
    - [JSON.stringify] and [JSON.parse] belong to the runtime; they are
      Section variables.
    - [processChunk] takes the lines of a chunk as the frames they decode
      to, or as nothing when they are dropped; [chunk_lines] gives them
      from the text of the chunk, and [processChunk_text] is the call on a
      text. *)

From stdpp Require Import gmap strings list pretty.

Local Open Scope Z_scope.
Set Warnings "-register-all".

(** ** JavaScript primitives used by the converter *)

Module JS.

(** Truthiness of a string: every string but the empty one. *)
Definition truthy (s : string) : bool :=
  match s with
  | EmptyString => false
  | String _ _ => true
  end.

(** Truthiness of an optional string ([undefined], [null] and the empty
    string are falsy). *)
Definition truthy_opt (o : option string) : bool :=
  match o with
  | Some s => truthy s
  | None => false
  end.

(** [s.startsWith(p)]. *)
Fixpoint startsWith (s p : string) {struct p} : bool :=
  match p, s with
  | EmptyString, _ => true
  | String _ _, EmptyString => false
  | String c p', String d s' => if Ascii.eqb c d then startsWith s' p' else false
  end.

(** [s.substring(n)]: [s] without its first [n] units. *)
Fixpoint substring (s : string) (n : nat) {struct n} : string :=
  match n, s with
  | O, _ => s
  | S _, EmptyString => EmptyString
  | S n', String _ s' => substring s' n'
  end.

(** [s.replace(pat, rep)] with a string pattern: the first occurrence only. *)
Fixpoint replace (s pat rep : string) : string :=
  if startsWith s pat then rep +:+ substring s (String.length pat)
  else
    match s with
    | EmptyString => EmptyString
    | String c s' => String c (replace s' pat rep)
    end.

(** [s || d] on strings. *)
Definition str_or (s d : string) : string := if truthy s then s else d.

(** [o || d] on an optional string. *)
Definition opt_or (o : option string) (d : string) : string :=
  match o with
  | Some s => str_or s d
  | None => d
  end.

(** [n || 0] on an optional number. *)
Definition num_or0 (o : option Z) : Z := default 0 o.

(** [n ?? 0] on an optional number. *)
Definition nullish0 (o : option Z) : Z := default 0 o.

(** A decoded JSON value. *)
Inductive json :=
| JNull
| JBool (b : bool)
| JNum (n : Z)
| JStr (s : string)
| JArr (xs : list json)
| JObj (fields : list (string * json)).

(** Truthiness of a decoded value: [null], [false], [0] and the empty
    string are falsy; arrays and objects are always truthy. *)
Definition json_truthy (v : json) : bool :=
  match v with
  | JNull => false
  | JBool b => b
  | JNum n => negb (n =? 0)
  | JStr s => truthy s
  | JArr _ | JObj _ => true
  end.

(** [v || {}] on an optional decoded value. *)
Definition json_or_empty (o : option json) : json :=
  match o with
  | Some v => if json_truthy v then v else JObj []
  | None => JObj []
  end.

(** [s.includes(p)]. *)
Fixpoint includes (s p : string) : bool :=
  startsWith s p
  || match s with
     | EmptyString => false
     | String _ s' => includes s' p
     end.

(** [s.split(sep)] for a separator [sep] of one unit. *)
Fixpoint split (s : string) (sep : Ascii.ascii) : list string :=
  match s with
  | EmptyString => [EmptyString]
  | String c s' =>
      if Ascii.eqb c sep then EmptyString :: split s' sep
      else
        match split s' sep with
        | piece :: pieces => String c piece :: pieces
        | [] => [String c EmptyString]
        end
  end.

(** [v || d] on an optional decoded value. *)
Definition json_or (o : option json) (d : json) : json :=
  match o with
  | Some v => if json_truthy v then v else d
  | None => d
  end.

(** [v.key] on a decoded value, for a key that no primitive and no array
    has: [None] when the access throws ([v] is [null]), [Some None] when
    it gives [undefined].  The keys of a decoded object are distinct. *)
Definition get (v : json) (key : string) : option (option json) :=
  match v with
  | JNull => None
  | JObj fields => Some (snd <$> List.find (λ kv, String.eqb (fst kv) key) fields)
  | JBool _ | JNum _ | JStr _ | JArr _ => Some None
  end.

(** [v === s] for a value that may be [undefined] and a string [s]. *)
Definition is_string (v : option json) (s : string) : bool :=
  match v with
  | Some (JStr t) => String.eqb t s
  | _ => false
  end.

(** [v === true] for a value that may be [undefined]. *)
Definition is_true (v : option json) : bool :=
  match v with
  | Some (JBool true) => true
  | _ => false
  end.

(** The white space and line terminators [trim] removes, among the units
    of [string]: TAB, LF, VT, FF, CR, space and the no-break space (the
    others lie at U+1680 and above). *)
Definition is_space (c : Ascii.ascii) : bool :=
  let n := Ascii.N_of_ascii c in
  ((9 <=? n) && (n <=? 13) || (n =? 32) || (n =? 160))%N.

Fixpoint trimStart (s : string) : string :=
  match s with
  | EmptyString => EmptyString
  | String c s' => if is_space c then trimStart s' else s
  end.

Fixpoint trimEnd (s : string) : string :=
  match s with
  | EmptyString => EmptyString
  | String c s' =>
      match trimEnd s' with
      | EmptyString => if is_space c then EmptyString else String c EmptyString
      | String d rest => String c (String d rest)
      end
  end.

(** [s.trim()]. *)
Definition trim (s : string) : string := trimEnd (trimStart s).

(** [s.replace(/^pat/, rep)] for a pattern [pat] of plain characters: the
    occurrence at the start, if there is one. *)
Definition replace_prefix (s pat rep : string) : string :=
  if startsWith s pat then rep +:+ substring s (String.length pat) else s.

End JS.

(** ** Upstream (Anthropic) types *)

Record AnthropicUsage := mkUsage {
  u_input_tokens : option Z;
  u_output_tokens : option Z;
  u_cache_creation_input_tokens : option Z;
  u_cache_read_input_tokens : option Z
}.

Record AnthropicMessage := mkMessage {
  msg_id : string;
  msg_model : string;
  msg_usage : option AnthropicUsage;
  msg_stop_reason : option string
}.

Record AnthropicContentBlock := mkBlock {
  cb_type : string;
  cb_id : option string;
  cb_name : option string;
  cb_text : option string;
  cb_input : option JS.json
}.

Record AnthropicDelta := mkDelta {
  d_text : option string;
  d_partial_json : option string;
  d_stop_reason : option string
}.

Record AnthropicStreamEvent := mkEvent {
  ev_type : string;
  ev_message : option AnthropicMessage;
  ev_content_block : option AnthropicContentBlock;
  ev_delta : option AnthropicDelta;
  ev_index : option Z;
  ev_model : option string;
  ev_stop_reason : option string;
  ev_usage : option AnthropicUsage
}.

Record AnthropicResponse := mkResponse {
  r_id : option string;
  r_model : option string;
  r_stop_reason : option string;
  r_content : option (list AnthropicContentBlock);
  r_usage : option AnthropicUsage
}.

(** ** Client (OpenAI) types *)

Record OpenAIUsage := mkOpenAIUsage {
  prompt_tokens : Z;
  completion_tokens : Z;
  total_tokens : Z
}.

Record FunctionDelta := mkFunctionDelta {
  fd_name : option string;
  fd_arguments : option string
}.

Record ToolCallDelta := mkToolCallDelta {
  tcd_index : Z;
  tcd_id : option string;
  tcd_type : option string;
  tcd_function : option FunctionDelta
}.

Record ChunkDelta := mkChunkDelta {
  cd_role : option string;
  cd_content : option string;
  cd_tool_calls : option (list ToolCallDelta)
}.

Record StreamChoice := mkStreamChoice {
  sc_index : Z;
  sc_delta : ChunkDelta;
  sc_finish_reason : option string
}.

Record OpenAIStreamChunk := mkChunk {
  ch_id : string;
  ch_object : string;
  ch_created : Z;
  ch_model : string;
  ch_choices : list StreamChoice;
  ch_usage : option OpenAIUsage
}.

Record ToolCallFunction := mkToolCallFunction {
  tf_name : string;
  tf_arguments : string
}.

Record ToolCall := mkToolCall {
  tc_id : string;
  tc_type : string;
  tc_function : ToolCallFunction
}.

Record ResponseMessage := mkResponseMessage {
  rm_role : string;
  rm_content : option string;
  rm_tool_calls : list ToolCall
}.

Record ResponseChoice := mkResponseChoice {
  rc_index : Z;
  rc_message : ResponseMessage;
  rc_finish_reason : option string
}.

Record OpenAIResponse := mkOpenAIResponse {
  or_id : string;
  or_object : string;
  or_created : Z;
  or_model : string;
  or_choices : list ResponseChoice;
  or_usage : OpenAIUsage
}.

(** ** Internal types of the converter *)

Record ToolCallTracker := mkTracker {
  tr_id : string;
  tr_name : string;
  tr_arguments : string
}.

Record MetricsData := mkMetrics {
  model : string;
  stop_reason : option string;
  input_tokens : Z;
  cache_creation_input_tokens : Z;
  cache_read_input_tokens : Z;
  output_tokens : Z;
  messageId : option string;
  openAIId : option string
}.

Inductive ProcessResult :=
| chunk (data : OpenAIStreamChunk)
| done.

Record ConverterState := mkState {
  toolCallsTracker : gmap Z ToolCallTracker;
  metricsData : MetricsData
}.

(** Field updates of [MetricsData] and [ConverterState] (assignments in the
    source). *)

Definition set_model (m : MetricsData) (v : string) : MetricsData :=
  mkMetrics v (stop_reason m) (input_tokens m) (cache_creation_input_tokens m)
    (cache_read_input_tokens m) (output_tokens m) (messageId m) (openAIId m).

Definition set_stop_reason (m : MetricsData) (v : string) : MetricsData :=
  mkMetrics (model m) (Some v) (input_tokens m) (cache_creation_input_tokens m)
    (cache_read_input_tokens m) (output_tokens m) (messageId m) (openAIId m).

Definition set_messageId (m : MetricsData) (v : string) : MetricsData :=
  mkMetrics (model m) (stop_reason m) (input_tokens m) (cache_creation_input_tokens m)
    (cache_read_input_tokens m) (output_tokens m) (Some v) (openAIId m).

Definition set_openAIId (m : MetricsData) (v : string) : MetricsData :=
  mkMetrics (model m) (stop_reason m) (input_tokens m) (cache_creation_input_tokens m)
    (cache_read_input_tokens m) (output_tokens m) (messageId m) (Some v).

(** The four [+=] of one usage object. *)
Definition add_usage (m : MetricsData) (u : AnthropicUsage) : MetricsData :=
  mkMetrics (model m) (stop_reason m)
    (input_tokens m + JS.num_or0 (u_input_tokens u))
    (cache_creation_input_tokens m + JS.num_or0 (u_cache_creation_input_tokens u))
    (cache_read_input_tokens m + JS.num_or0 (u_cache_read_input_tokens u))
    (output_tokens m + JS.num_or0 (u_output_tokens u))
    (messageId m) (openAIId m).

Definition set_metricsData (st : ConverterState) (m : MetricsData) : ConverterState :=
  mkState (toolCallsTracker st) m.

Definition set_toolCallsTracker (st : ConverterState)
    (t : gmap Z ToolCallTracker) : ConverterState :=
  mkState t (metricsData st).

(** ** The converter *)

Definition createConverterState : ConverterState :=
  mkState ∅ (mkMetrics "" None 0 0 0 0 None None).

(** The seven statements of [updateMetrics], in the order of the source. *)

(** [if (data.type === 'message_start' && data.message) { ... }] *)
Definition absorb_message_start (m : MetricsData)
    (data : AnthropicStreamEvent) : MetricsData :=
  match ev_message data with
  | Some message =>
      if String.eqb (ev_type data) "message_start" then
        let m := set_messageId m (msg_id message) in
        if JS.truthy (msg_model message) then set_model m (msg_model message)
        else m
      else m
  | None => m
  end.

(** [if (data.model) { ... }] *)
Definition absorb_model (m : MetricsData)
    (data : AnthropicStreamEvent) : MetricsData :=
  match ev_model data with
  | Some s => if JS.truthy s then set_model m s else m
  | None => m
  end.

(** [if (data.stop_reason) { ... }] *)
Definition absorb_stop_reason (m : MetricsData)
    (data : AnthropicStreamEvent) : MetricsData :=
  match ev_stop_reason data with
  | Some s => if JS.truthy s then set_stop_reason m s else m
  | None => m
  end.

(** [if (data.type === 'message_delta' && data?.delta?.stop_reason) { ... }] *)
Definition absorb_delta_stop_reason (m : MetricsData)
    (data : AnthropicStreamEvent) : MetricsData :=
  if String.eqb (ev_type data) "message_delta" then
    match ev_delta data ≫= d_stop_reason with
    | Some s => if JS.truthy s then set_stop_reason m s else m
    | None => m
    end
  else m.

(** [if (data.usage) { ... }] *)
Definition absorb_usage (m : MetricsData)
    (data : AnthropicStreamEvent) : MetricsData :=
  match ev_usage data with
  | Some usage => add_usage m usage
  | None => m
  end.

(** [if (data?.message?.usage) { ... }] *)
Definition absorb_message_usage (m : MetricsData)
    (data : AnthropicStreamEvent) : MetricsData :=
  match ev_message data with
  | Some message =>
      match msg_usage message with
      | Some usage =>
          let m :=
            if JS.truthy (msg_model message) then set_model m (msg_model message)
            else m in
          add_usage m usage
      | None => m
      end
  | None => m
  end.

(** [if (data?.message?.stop_reason) { ... }] *)
Definition absorb_message_stop_reason (m : MetricsData)
    (data : AnthropicStreamEvent) : MetricsData :=
  match ev_message data ≫= msg_stop_reason with
  | Some s => if JS.truthy s then set_stop_reason m s else m
  | None => m
  end.

(** [updateMetrics]. *)
Definition updateMetrics (metricsData : MetricsData)
    (data : AnthropicStreamEvent) : MetricsData :=
  let m := absorb_message_start metricsData data in
  let m := absorb_model m data in
  let m := absorb_stop_reason m data in
  let m := absorb_delta_stop_reason m data in
  let m := absorb_usage m data in
  let m := absorb_message_usage m data in
  let m := absorb_message_stop_reason m data in
  m.

(** The id and model every chunk but the role announcement carries:
    [state.metricsData.openAIId || 'chatcmpl-' + Date.now()] and
    [state.metricsData.model || 'claude-unknown']. *)
Definition chunk_id (now : Z) (state : ConverterState) : string :=
  JS.opt_or (openAIId (metricsData state)) ("chatcmpl-" +:+ pretty now).

Definition chunk_model (state : ConverterState) : string :=
  JS.str_or (model (metricsData state)) "claude-unknown".

(** A chunk with one choice of index 0, as every branch builds it. *)
Definition stream_chunk (now : Z) (state : ConverterState)
    (delta : ChunkDelta) (finish_reason : option string)
    (usage : option OpenAIUsage) : OpenAIStreamChunk :=
  mkChunk (chunk_id now state) "chat.completion.chunk" (now / 1000)
    (chunk_model state) [mkStreamChoice 0 delta finish_reason] usage.

Definition empty_delta : ChunkDelta := mkChunkDelta None None None.

(** [createUsageChunk]. *)
Definition createUsageChunk (now : Z) (state : ConverterState)
    : option OpenAIStreamChunk :=
  let m := metricsData state in
  if (input_tokens m =? 0) && (output_tokens m =? 0) then None
  else
    Some (stream_chunk now state empty_delta None
            (Some (mkOpenAIUsage (input_tokens m) (output_tokens m)
                     (input_tokens m + output_tokens m)))).

(** The argument-delta computation of [transformToOpenAI] (the [if]/[else]
    on [toolCall.arguments] and [data.delta.partial_json]): from the
    tracked arguments and the incoming [partial_json] to the pair
    ([newPart], new [toolCall.arguments]). *)
Definition resolve_partial_json (arguments partial_json : string)
    : string * string :=
  if JS.truthy arguments && JS.startsWith partial_json arguments then
    (JS.substring partial_json (String.length arguments), partial_json)
  else
    (partial_json, arguments +:+ partial_json).

(** The finish reason of the [message_delta] branch. *)
Definition stream_finish_reason (stop_reason : string) : string :=
  if String.eqb stop_reason "end_turn" then "stop"
  else if String.eqb stop_reason "tool_use" then "tool_calls"
  else stop_reason.

(** The conditions of the [if]/[else if] chain of [transformToOpenAI], each
    giving the value its branch works on. *)

(** [data.type === 'message_start' && data.message] *)
Definition message_start_of (data : AnthropicStreamEvent)
    : option AnthropicMessage :=
  if String.eqb (ev_type data) "message_start" then ev_message data else None.

(** [data.type === 'content_block_start' &&
     data.content_block?.type === 'tool_use'] *)
Definition tool_start_of (data : AnthropicStreamEvent)
    : option AnthropicContentBlock :=
  if String.eqb (ev_type data) "content_block_start" then
    match ev_content_block data with
    | Some cb => if String.eqb (cb_type cb) "tool_use" then Some cb else None
    | None => None
    end
  else None.

(** [data.type === 'content_block_delta' && data.delta?.partial_json] *)
Definition partial_json_of (data : AnthropicStreamEvent) : option string :=
  if String.eqb (ev_type data) "content_block_delta" then
    match ev_delta data ≫= d_partial_json with
    | Some f => if JS.truthy f then Some f else None
    | None => None
    end
  else None.

(** [data.type === 'content_block_delta' && data.delta?.text] *)
Definition text_of (data : AnthropicStreamEvent) : option string :=
  if String.eqb (ev_type data) "content_block_delta" then
    match ev_delta data ≫= d_text with
    | Some t => if JS.truthy t then Some t else None
    | None => None
    end
  else None.

(** [data.type === 'message_delta' && data.delta?.stop_reason] *)
Definition delta_stop_reason_of (data : AnthropicStreamEvent) : option string :=
  if String.eqb (ev_type data) "message_delta" then
    match ev_delta data ≫= d_stop_reason with
    | Some s => if JS.truthy s then Some s else None
    | None => None
    end
  else None.

(** [transformToOpenAI]: the state after the call and the chunk returned
    ([None] for [null]). *)
Definition transformToOpenAI (now : Z) (state : ConverterState)
    (data : AnthropicStreamEvent)
    : ConverterState * option OpenAIStreamChunk :=
  match message_start_of data, tool_start_of data, partial_json_of data,
        text_of data, delta_stop_reason_of data with
  | Some message, _, _, _, _ =>
      let openAIId := "chatcmpl-" +:+ JS.replace (msg_id message) "msg_" "" in
      (set_metricsData state (set_openAIId (metricsData state) openAIId),
       Some (mkChunk openAIId "chat.completion.chunk" (now / 1000)
               (msg_model message)
               [mkStreamChoice 0
                  (mkChunkDelta (Some "assistant") (Some "") None) None]
               None))
  | None, Some content_block, _, _, _ =>
      let index := JS.nullish0 (ev_index data) in
      let state' :=
        set_toolCallsTracker state
          (<[index := mkTracker (default "" (cb_id content_block))
                        (default "" (cb_name content_block)) ""]>
             (toolCallsTracker state)) in
      (state',
       Some (stream_chunk now state'
               (mkChunkDelta None None
                  (Some [mkToolCallDelta index (cb_id content_block)
                           (Some "function")
                           (Some (mkFunctionDelta (cb_name content_block)
                                    (Some "")))]))
               None None))
  | None, None, Some partial_json, _, _ =>
      let index := JS.nullish0 (ev_index data) in
      match toolCallsTracker state !! index with
      | Some toolCall =>
          let '(newPart, arguments) :=
            resolve_partial_json (tr_arguments toolCall) partial_json in
          let state' :=
            set_toolCallsTracker state
              (<[index := mkTracker (tr_id toolCall) (tr_name toolCall)
                            arguments]> (toolCallsTracker state)) in
          (state',
           Some (stream_chunk now state'
                   (mkChunkDelta None None
                      (Some [mkToolCallDelta index None None
                               (Some (mkFunctionDelta None (Some newPart)))]))
                   None None))
      | None => (state, None)
      end
  | None, None, None, Some text, _ =>
      (state,
       Some (stream_chunk now state (mkChunkDelta None (Some text) None)
               None None))
  | None, None, None, None, Some stop_reason =>
      (state,
       Some (stream_chunk now state empty_delta
               (Some (stream_finish_reason stop_reason)) None))
  | None, None, None, None, None => (state, None)
  end.

(** The kinds [processChunk] drops before anything else: [ping],
    [content_block_stop], and [content_block_start] of a text block. *)
Definition skipped (data : AnthropicStreamEvent) : bool :=
  String.eqb (ev_type data) "ping"
  || String.eqb (ev_type data) "content_block_stop"
  || (String.eqb (ev_type data) "content_block_start"
      && match ev_content_block data with
         | Some cb => String.eqb (cb_type cb) "text"
         | None => false
         end).

Definition result_of (c : option OpenAIStreamChunk) : list ProcessResult :=
  match c with
  | Some data => [chunk data]
  | None => []
  end.

(** The body of the loop of [processChunk] for one decoded frame: the state
    after it and the results pushed, in order. *)
Definition processFrame (now : Z) (state : ConverterState)
    (data : AnthropicStreamEvent) : ConverterState * list ProcessResult :=
  if skipped data then (state, [])
  else
    let state := set_metricsData state (updateMetrics (metricsData state) data) in
    let '(state, openAIChunk) := transformToOpenAI now state data in
    let results := result_of openAIChunk in
    if String.eqb (ev_type data) "message_stop" then
      (state, results ++ result_of (createUsageChunk now state) ++ [done])
    else (state, results).

(** [processChunk] on the lines of one chunk of upstream text, each given as
    the frame it decodes to; [None] is a line the loop passes over (blank,
    an [event:] line, not a [data: ] line, or one [JSON.parse] rejects). *)
Fixpoint processChunk (now : Z) (state : ConverterState)
    (lines : list (option AnthropicStreamEvent))
    : ConverterState * list ProcessResult :=
  match lines with
  | [] => (state, [])
  | None :: lines' => processChunk now state lines'
  | Some data :: lines' =>
      let '(state, results) := processFrame now state data in
      let '(state, results') := processChunk now state lines' in
      (state, results ++ results')
  end.

(** The streaming loop of the request handler: one state per exchange,
    [processChunk] on each chunk read from upstream (with the clock at that
    time), every result forwarded in order. *)
Fixpoint processChunks (state : ConverterState)
    (reads : list (Z * list (option AnthropicStreamEvent)))
    : ConverterState * list ProcessResult :=
  match reads with
  | [] => (state, [])
  | (now, lines) :: reads' =>
      let '(state, results) := processChunk now state lines in
      let '(state, results') := processChunks state reads' in
      (state, results ++ results')
  end.

Definition streamExchange (reads : list (Z * list (option AnthropicStreamEvent)))
    : ConverterState * list ProcessResult :=
  processChunks createConverterState reads.

(** ** The non-streaming conversion *)

(** The [finish_reason] of [convertNonStreamingResponse]:
    [r === 'end_turn' ? 'stop' : r === 'tool_use' ? 'tool_calls' : r || null]. *)
Definition response_finish_reason (stop_reason : option string) : option string :=
  match stop_reason with
  | Some s =>
      if String.eqb s "end_turn" then Some "stop"
      else if String.eqb s "tool_use" then Some "tool_calls"
      else if JS.truthy s then Some s else None
  | None => None
  end.

(** [usage?.f || 0] *)
Definition usage_field (usage : option AnthropicUsage)
    (f : AnthropicUsage → option Z) : Z :=
  JS.num_or0 (usage ≫= f).

(** What [textContent += block.text] appends: an absent [text] is
    [undefined], which string concatenation spells out. *)
Definition text_appended (block : AnthropicContentBlock) : string :=
  match cb_text block with
  | Some t => t
  | None => "undefined"
  end.

(** Assignments to [openAIResponse.choices[0].message]. *)
Definition update_first_message (f : ResponseMessage → ResponseMessage)
    (resp : OpenAIResponse) : OpenAIResponse :=
  match or_choices resp with
  | c :: rest =>
      mkOpenAIResponse (or_id resp) (or_object resp) (or_created resp)
        (or_model resp)
        (mkResponseChoice (rc_index c) (f (rc_message c)) (rc_finish_reason c)
           :: rest)
        (or_usage resp)
  | [] => resp
  end.

Definition push_tool_call (call : ToolCall) : OpenAIResponse → OpenAIResponse :=
  update_first_message
    (λ m, mkResponseMessage (rm_role m) (rm_content m) (rm_tool_calls m ++ [call])).

Definition set_content (text : string) : OpenAIResponse → OpenAIResponse :=
  update_first_message
    (λ m, mkResponseMessage (rm_role m) (Some text) (rm_tool_calls m)).

Section NonStreaming.

(** The runtime's [JSON.stringify] on decoded values. *)
Variable JSON_stringify : JS.json → string.

(** The response object as first built, before the content blocks are read. *)
Definition initial_response (now : Z) (anthropicResponse : AnthropicResponse)
    : OpenAIResponse :=
  let usage := r_usage anthropicResponse in
  mkOpenAIResponse
    ("chatcmpl-" +:+
       JS.replace (JS.opt_or (r_id anthropicResponse) (pretty now)) "msg_" "")
    "chat.completion"
    (now / 1000)
    (JS.opt_or (r_model anthropicResponse) "claude-unknown")
    [mkResponseChoice 0 (mkResponseMessage "assistant" None [])
       (response_finish_reason (r_stop_reason anthropicResponse))]
    (mkOpenAIUsage
       (usage_field usage u_input_tokens)
       (usage_field usage u_output_tokens)
       (usage_field usage u_input_tokens + usage_field usage u_output_tokens)).

(** The tool call pushed for a [tool_use] block with truthy [id] and [name]. *)
Definition tool_call_of (id name : string) (block : AnthropicContentBlock)
    : ToolCall :=
  mkToolCall id "function"
    (mkToolCallFunction name
       (JSON_stringify (JS.json_or_empty (cb_input block)))).

(** One turn of the loop over the content blocks, on the pair
    ([textContent], [openAIResponse]). *)
Definition process_block (acc : string * OpenAIResponse)
    (block : AnthropicContentBlock) : string * OpenAIResponse :=
  let '(textContent, openAIResponse) := acc in
  if String.eqb (cb_type block) "text" then
    (textContent +:+ text_appended block, openAIResponse)
  else if String.eqb (cb_type block) "tool_use" then
    match cb_id block, cb_name block with
    | Some id, Some name =>
        if JS.truthy id && JS.truthy name then
          (textContent, push_tool_call (tool_call_of id name block) openAIResponse)
        else acc
    | _, _ => acc
    end
  else acc.

(** The tool call made of a collectable block. *)
Definition to_call (block : AnthropicContentBlock) : ToolCall :=
  tool_call_of (default "" (cb_id block)) (default "" (cb_name block)) block.

(** [convertNonStreamingResponse]. *)
Definition convertNonStreamingResponse (now : Z)
    (anthropicResponse : AnthropicResponse) : OpenAIResponse :=
  let '(textContent, openAIResponse) :=
    fold_left process_block (default [] (r_content anthropicResponse))
      ("", initial_response now anthropicResponse) in
  if JS.truthy textContent then set_content textContent openAIResponse
  else openAIResponse.

End NonStreaming.

(** ** Definitions used to state the properties *)

(** The argument texts carried for tool-call slot [index] by one chunk, and
    by a list of results, in order of emission. *)
Definition chunk_tool_arguments (index : Z) (c : OpenAIStreamChunk) : list string :=
  choice ← ch_choices c;
  call ← default [] (cd_tool_calls (sc_delta choice));
  if bool_decide (tcd_index call = index) then
    match tcd_function call ≫= fd_arguments with
    | Some a => [a]
    | None => []
    end
  else [].

Definition tool_arguments_emitted (index : Z) (results : list ProcessResult)
    : list string :=
  r ← results;
  match r with
  | chunk c => chunk_tool_arguments index c
  | done => []
  end.

(** What a client rebuilds for slot [index]: the emitted texts, joined. *)
Definition client_arguments (index : Z) (results : list ProcessResult) : string :=
  foldr String.app "" (tool_arguments_emitted index results).

(** A [content_block_delta] frame carrying [partial_json] for block [index]. *)
Definition json_delta_frame (index : Z) (partial_json : string)
    : AnthropicStreamEvent :=
  mkEvent "content_block_delta" None None
    (Some (mkDelta None (Some partial_json) None)) (Some index) None None None.

(** A [content_block_start] frame opening a [tool_use] block. *)
Definition tool_start_frame (index : Z) (id name : string)
    : AnthropicStreamEvent :=
  mkEvent "content_block_start" None
    (Some (mkBlock "tool_use" (Some id) (Some name) None None))
    None (Some index) None None None.

(** The token counts one frame carries: its [usage] and its
    [message.usage], each absent field counting for 0. *)
Definition frame_count (f : AnthropicUsage → option Z)
    (data : AnthropicStreamEvent) : Z :=
  JS.num_or0 (ev_usage data ≫= f)
  + JS.num_or0 ((ev_message data ≫= msg_usage) ≫= f).

Definition frame_input_tokens := frame_count u_input_tokens.
Definition frame_output_tokens := frame_count u_output_tokens.
Definition frame_cache_creation_input_tokens :=
  frame_count u_cache_creation_input_tokens.
Definition frame_cache_read_input_tokens :=
  frame_count u_cache_read_input_tokens.

(** The stop reason one frame carries, if any: [message.stop_reason], else
    [delta.stop_reason] of a [message_delta], else [stop_reason]; an empty
    string is no stop reason. *)
Definition frame_stop_reason (data : AnthropicStreamEvent) : option string :=
  if JS.truthy_opt (ev_message data ≫= msg_stop_reason) then
    ev_message data ≫= msg_stop_reason
  else if String.eqb (ev_type data) "message_delta"
          && JS.truthy_opt (ev_delta data ≫= d_stop_reason) then
    ev_delta data ≫= d_stop_reason
  else if JS.truthy_opt (ev_stop_reason data) then ev_stop_reason data
  else None.

(** The metrics after a sequence of frames has been absorbed. *)
Definition absorb_all (m : MetricsData) (frames : list AnthropicStreamEvent)
    : MetricsData :=
  fold_left updateMetrics frames m.

Definition sum_of (f : AnthropicStreamEvent → Z)
    (frames : list AnthropicStreamEvent) : Z :=
  foldr (λ data total, f data + total) 0 frames.

(** Every counter present in a usage object is a count. *)
Definition count_nonneg (o : option Z) : Prop :=
  match o with
  | Some n => 0 ≤ n
  | None => True
  end.

Definition usage_nonneg (u : option AnthropicUsage) : Prop :=
  match u with
  | Some u =>
      count_nonneg (u_input_tokens u) ∧ count_nonneg (u_output_tokens u)
      ∧ count_nonneg (u_cache_creation_input_tokens u)
      ∧ count_nonneg (u_cache_read_input_tokens u)
  | None => True
  end.

Definition frame_nonneg (data : AnthropicStreamEvent) : Prop :=
  usage_nonneg (ev_usage data) ∧ usage_nonneg (ev_message data ≫= msg_usage).

(** A [message_delta] frame reporting 3 input and 4 output tokens. *)
Definition usage_frame : AnthropicStreamEvent :=
  mkEvent "message_delta" None None None None None None
    (Some (mkUsage (Some 3) (Some 4) None None)).

(** The frames of an exchange with the clock of the read that brought
    them, dropped lines left out. *)
Definition frames_read (reads : list (Z * list (option AnthropicStreamEvent)))
    : list (Z * AnthropicStreamEvent) :=
  '(now, lines) ← reads; (λ data, (now, data)) <$> omap id lines.

Fixpoint processFrames (state : ConverterState)
    (frames : list (Z * AnthropicStreamEvent))
    : ConverterState * list ProcessResult :=
  match frames with
  | [] => (state, [])
  | (now, data) :: frames' =>
      let '(state, results) := processFrame now state data in
      let '(state, results') := processFrames state frames' in
      (state, results ++ results')
  end.

Definition is_done (r : ProcessResult) : bool :=
  match r with
  | done => true
  | chunk _ => false
  end.

Definition is_message_stop (frame : Z * AnthropicStreamEvent) : bool :=
  String.eqb (ev_type (snd frame)) "message_stop".

Definition count_done (results : list ProcessResult) : nat :=
  length (List.filter is_done results).

Definition count_message_stop (frames : list (Z * AnthropicStreamEvent)) : nat :=
  length (List.filter is_message_stop frames).

(** A [ping] frame that carries usage and a stop reason. *)
Definition ping_with_usage : AnthropicStreamEvent :=
  mkEvent "ping" None None None None None (Some "end_turn")
    (Some (mkUsage (Some 5) (Some 7) None None)).

(** A frame whose usage has a cache counter only, and a bare
    [message_stop]. *)
Definition cache_only_frame : AnthropicStreamEvent :=
  mkEvent "message_delta" None None None None None None
    (Some (mkUsage None None None (Some 5))).

Definition message_stop_frame : AnthropicStreamEvent :=
  mkEvent "message_stop" None None None None None None None.

(** The stop-reason table in the words of the specification: [end_turn]
    gives [stop], [tool_use] gives [tool_calls], any other value passes
    through, and an absent one stays absent. *)
Definition spec_finish_reason (stop_reason : option string) : option string :=
  match stop_reason with
  | Some s =>
      if String.eqb s "end_turn" then Some "stop"
      else if String.eqb s "tool_use" then Some "tool_calls"
      else Some s
  | None => None
  end.

(** A [message_delta] frame carrying a stop reason. *)
Definition stop_frame (stop_reason : string) : AnthropicStreamEvent :=
  mkEvent "message_delta" None None (Some (mkDelta None None (Some stop_reason)))
    None None None None.

(** Content blocks of a response, as the properties speak of them. *)
Definition is_text_block (block : AnthropicContentBlock) : bool :=
  String.eqb (cb_type block) "text".

(** A [tool_use] block whose [id] and [name] are both truthy. *)
Definition collectable (block : AnthropicContentBlock) : bool :=
  String.eqb (cb_type block) "tool_use"
  && JS.truthy_opt (cb_id block) && JS.truthy_opt (cb_name block).

(** The texts of the text blocks, joined in array order. *)
Definition joined_text (blocks : list AnthropicContentBlock) : string :=
  foldr String.app "" (text_appended <$> List.filter is_text_block blocks).

(** A serializer for running the conversion on responses in which no value
    gets serialized. *)
Definition no_stringify : JS.json → string := λ _, "".


Definition empty_id_response : AnthropicResponse :=
  mkResponse (Some "msg_1") (Some "claude") (Some "tool_use")
    (Some [mkBlock "tool_use" (Some "") (Some "lookup") None
             (Some (JS.JObj [("q", JS.JStr "x")]))])
    None.

Definition empty_stop_response : AnthropicResponse :=
  mkResponse (Some "msg_1") (Some "claude") (Some "") (Some []) None.

(** The response of the tool-call example: one [tool_use] block with id t1,
    name lookup and input [{q: x}]. *)
Definition lookup_input : JS.json := JS.JObj [("q", JS.JStr "x")].

Definition lookup_response : AnthropicResponse :=
  mkResponse (Some "msg_1") (Some "claude") (Some "tool_use")
    (Some [mkBlock "tool_use" (Some "t1") (Some "lookup") None (Some lookup_input)])
    None.

(** One choice, of index 0. *)
Definition single_choice_chunk (c : OpenAIStreamChunk) : Prop :=
  ∃ choice, ch_choices c = [choice] ∧ sc_index choice = 0.

Definition single_choice_result (r : ProcessResult) : Prop :=
  match r with
  | chunk c => single_choice_chunk c
  | done => True
  end.

Definition single_choice_response (resp : OpenAIResponse) : Prop :=
  ∃ choice, or_choices resp = [choice] ∧ rc_index choice = 0.

(** The message of the first choice of a response. *)
Definition first_message (resp : OpenAIResponse) : option ResponseMessage :=
  rc_message <$> head (or_choices resp).

(** The arguments tracked for slot [index]; nothing tracked reads as the
    empty text. *)
Definition tracked (state : ConverterState) (index : Z) : string :=
  from_option tr_arguments "" (toolCallsTracker state !! index).

(** The block index a frame opens a tool call at, if it does. *)
Definition tool_start_index (data : AnthropicStreamEvent) : option Z :=
  (λ _, JS.nullish0 (ev_index data)) <$> tool_start_of data.

(** The indices at which the frames open a tool call, in order. *)
Definition started_indices (frames : list (Z * AnthropicStreamEvent)) : list Z :=
  omap (λ frame, tool_start_index (snd frame)) frames.

(** An exchange read in two chunks: a tool call opened at index 0, then its
    arguments as a fragment, a cumulative snapshot and a fragment. *)
Definition sample_reads : list (Z * list (option AnthropicStreamEvent)) :=
  [(0, [Some (tool_start_frame 0 "t1" "lookup"); Some (json_delta_frame 0 "ab")]);
   (1, [Some (json_delta_frame 0 "abcd"); None; Some (json_delta_frame 0 "ef")])].

(** The same with index 0 opened a second time at the end. *)
Definition restarted_reads : list (Z * list (option AnthropicStreamEvent)) :=
  sample_reads ++ [(2, [Some (tool_start_frame 0 "t2" "lookup")])].

(** The frames of an exchange that [processChunk] does not drop. *)
Definition absorbed_frames (reads : list (Z * list (option AnthropicStreamEvent)))
    : list AnthropicStreamEvent :=
  List.filter (λ data, negb (skipped data)) (snd <$> frames_read reads).

(** The counters of [m'] are those of [m] plus [a], [b], [c], [d]. *)
Definition counters_plus (m m' : MetricsData) (a b c d : Z) : Prop :=
  input_tokens m' = input_tokens m + a
  ∧ output_tokens m' = output_tokens m + b
  ∧ cache_creation_input_tokens m' = cache_creation_input_tokens m + c
  ∧ cache_read_input_tokens m' = cache_read_input_tokens m + d.

(** What a step that may record a stop reason does to [stop_reason]. *)
Definition records (o : option string) (m m' : MetricsData) : Prop :=
  stop_reason m' = if JS.truthy_opt o then o else stop_reason m.

(** ** Definitions used to state further properties of the converter *)

(** The content text carried by one chunk, and what a client rebuilds from
    a list of results: the content texts, joined in order. *)
Definition chunk_content (c : OpenAIStreamChunk) : string :=
  foldr String.app ""
    ((λ choice, default "" (cd_content (sc_delta choice))) <$> ch_choices c).

Definition client_content (results : list ProcessResult) : string :=
  foldr String.app ""
    ((λ r, match r with
           | chunk c => chunk_content c
           | done => ""
           end) <$> results).

(** The text a frame brings to the client: the [text] of a
    [content_block_delta] whose [partial_json] is absent or empty. *)
Definition frame_text (data : AnthropicStreamEvent) : string :=
  if String.eqb (ev_type data) "content_block_delta" then
    match ev_delta data with
    | Some d => if JS.truthy_opt (d_partial_json d) then "" else default "" (d_text d)
    | None => ""
    end
  else "".

(** Every chunk of a list of results carries the id [id]. *)
Definition result_has_id (id : string) (r : ProcessResult) : Prop :=
  match r with
  | chunk c => ch_id c = id
  | done => True
  end.

(** Successive cumulative snapshots: [s], then [s] extended by each of
    [es] in turn. *)
Fixpoint snapshots (s : string) (es : list string) : list string :=
  match es with
  | [] => []
  | e :: es' => (s +:+ e) :: snapshots (s +:+ e) es'
  end.

(** The event kinds [transformToOpenAI] and [processChunk] react to. *)
Definition known_kind (type : string) : bool :=
  String.eqb type "message_start" || String.eqb type "content_block_start"
  || String.eqb type "content_block_delta" || String.eqb type "message_delta"
  || String.eqb type "message_stop".

(** A text delta frame and a [message_start] frame. *)
Definition text_delta_frame (text : string) : AnthropicStreamEvent :=
  mkEvent "content_block_delta" None None (Some (mkDelta (Some text) None None))
    (Some 0) None None None.

Definition message_start_frame (id model : string) : AnthropicStreamEvent :=
  mkEvent "message_start" (Some (mkMessage id model None None)) None None None
    None None None.

(** ** The request handler: [messagesFn] and the key-check bypass *)

(** A block of the [system] array: its [type], its [text] (a string by
    its type; the handler itself may store any value there) and any
    further fields. *)
Record SystemBlock := mkSystemBlock {
  sb_type : string;
  sb_text : JS.json;
  sb_other : list (string * JS.json)
}.

(** [AnthropicRequestBody]: the fields the interface names, and the other
    keys of the object ([[key: string]: unknown]) as a map.  The elements
    of [messages] are of type [any]: decoded values. *)
Record AnthropicRequestBody := mkBody {
  b_system : option (list SystemBlock);
  b_messages : option (list JS.json);
  b_metadata : option JS.json;
  b_stream : option JS.json;
  b_model : option string;
  b_other : gmap string JS.json
}.

Definition set_other (body : AnthropicRequestBody) (other : gmap string JS.json)
    : AnthropicRequestBody :=
  mkBody (b_system body) (b_messages body) (b_metadata body) (b_stream body)
    (b_model body) other.

Definition set_metadata (body : AnthropicRequestBody) (metadata : JS.json)
    : AnthropicRequestBody :=
  mkBody (b_system body) (b_messages body) (Some metadata) (b_stream body)
    (b_model body) (b_other body).

Definition set_system (body : AnthropicRequestBody) (system : list SystemBlock)
    : AnthropicRequestBody :=
  mkBody (Some system) (b_messages body) (b_metadata body) (b_stream body)
    (b_model body) (b_other body).

Definition set_messages (body : AnthropicRequestBody) (messages : list JS.json)
    : AnthropicRequestBody :=
  mkBody (b_system body) (Some messages) (b_metadata body) (b_stream body)
    (b_model body) (b_other body).

(** [isCursorKeyCheck]: [None] when it throws (a [null] message is
    reached).  [some] stops at the first message that passes the test. *)
Definition key_check_prompt : string := "Test prompt using gpt-3.5-turbo".

Fixpoint some_content_is (messages : list JS.json) (s : string) : option bool :=
  match messages with
  | [] => Some false
  | m :: messages' =>
      match JS.get m "content" with
      | None => None
      | Some content =>
          if JS.is_string content s then Some true
          else some_content_is messages' s
      end
  end.

Definition isCursorKeyCheck (body : AnthropicRequestBody) : option bool :=
  if match b_model body with
     | Some model => JS.includes model "gpt-4o"
     | None => false
     end
  then Some true
  else
    match b_messages body with
    | Some messages => some_content_is messages key_check_prompt
    | None => Some false
    end.

(** The eleven [delete body.<key>] of [messagesFn]. *)
Definition openai_params : list string :=
  ["stream_options"; "frequency_penalty"; "presence_penalty"; "logprobs";
   "top_logprobs"; "logit_bias"; "n"; "seed"; "user"; "service_tier";
   "parallel_tool_calls"].

Definition stripOpenAIParams (body : AnthropicRequestBody) : AnthropicRequestBody :=
  set_other body (foldl (λ other key, delete key other) (b_other body) openai_params).

(** [c.req.header('authorization')?.split(' ')?.[1]] *)
Definition apiKey (authorization : option string) : option string :=
  authorization ≫= (λ header, JS.split header Ascii.Space !! 1%nat).

(** [apiKey && apiKey !== process.env.API_KEY]: the request is answered
    with 401. *)
Definition apiKeyRejected (authorization : option string)
    (API_KEY : option string) : bool :=
  match apiKey authorization with
  | Some key => JS.truthy key && negb (bool_decide (Some key = API_KEY))
  | None => false
  end.

Definition claude_code_prompt : string :=
  "You are Claude Code, Anthropic's official CLI for Claude.".

(** [!body.system?.[0]?.text?.includes(prompt)]: [None] when the call
    throws (the text is neither a string, an array nor [null]). *)
Definition lacks_prompt (system : option (list SystemBlock)) : option bool :=
  match system with
  | Some (block :: _) =>
      match sb_text block with
      | JS.JNull => Some true
      | JS.JStr text => Some (negb (JS.includes text claude_code_prompt))
      | JS.JArr items =>
          Some (negb (existsb (λ item, JS.is_string (Some item) claude_code_prompt)
                        items))
      | JS.JBool _ | JS.JNum _ | JS.JObj _ => None
      end
  | Some [] | None => Some true
  end.

(** [msg.role === 'system'] on each message: [None] when a message is
    [null]. *)
Fixpoint system_roles (messages : list JS.json) : option (list bool) :=
  match messages with
  | [] => Some []
  | msg :: messages' =>
      match JS.get msg "role" with
      | None => None
      | Some role =>
          match system_roles messages' with
          | Some flags => Some (JS.is_string role "system" :: flags)
          | None => None
          end
      end
  end.

(** The elements of [l] whose flag is [keep]. *)
Fixpoint select {A : Type} (keep : bool) (flags : list bool) (l : list A) : list A :=
  match flags, l with
  | flag :: flags', x :: l' =>
      if Bool.eqb flag keep then x :: select keep flags' l'
      else select keep flags' l'
  | _, _ => []
  end.

(** The block pushed for a system message: [{ type: 'text', text:
    sysMsg.content || '' }]. *)
Definition system_block_of (sysMsg : JS.json) : SystemBlock :=
  mkSystemBlock "text"
    (JS.json_or (default None (JS.get sysMsg "content")) (JS.JStr "")) [].

Definition prompt_block : SystemBlock :=
  mkSystemBlock "text" (JS.JStr claude_code_prompt) [].

(** [body.max_tokens = n] *)
Definition set_max_tokens (body : AnthropicRequestBody) (n : Z)
    : AnthropicRequestBody :=
  set_other body (<["max_tokens" := JS.JNum n]> (b_other body)).

(** The first block of the [try] of [messagesFn]: the body after it and
    [transformToOpenAIFormat]; [None] when it throws. *)
Definition injectSystemPrompt (body : AnthropicRequestBody)
    : option (AnthropicRequestBody * bool) :=
  match lacks_prompt (b_system body) with
  | None => None
  | Some false => Some (body, false)
  | Some true =>
      match b_messages body with
      | None => Some (body, false)
      | Some messages =>
          match system_roles messages with
          | None => None
          | Some flags =>
              let systemMessages := select true flags messages in
              let body := set_messages body (select false flags messages) in
              let body :=
                set_system body
                  (prompt_block :: default [] (b_system body)
                   ++ (system_block_of <$> systemMessages)) in
              match b_model body with
              | None => None
              | Some model =>
                  let body :=
                    if JS.includes model "opus" then set_max_tokens body 32000
                    else body in
                  let body :=
                    if JS.includes model "sonnet" then set_max_tokens body 64000
                    else body in
                  Some (body, true)
              end
          end
      end
  end.

(** The defaults set before the upstream call when the request is
    transformed: [if (!body.metadata) body.metadata = {}] (and the same
    for [system], which is an array by then). *)
Definition withDefaults (transformToOpenAIFormat : bool)
    (body : AnthropicRequestBody) : AnthropicRequestBody :=
  if transformToOpenAIFormat then
    let body :=
      match b_metadata body with
      | Some metadata =>
          if JS.json_truthy metadata then body else set_metadata body (JS.JObj [])
      | None => set_metadata body (JS.JObj [])
      end in
    match b_system body with
    | Some _ => body
    | None => set_system body []
    end
  else body.

(** What [messagesFn] does with a request, up to the upstream call. *)
Inductive Preflight :=
| rejected_api_key
| key_check_bypass
| proxy_error
| rejected_no_token
| upstream (body : AnthropicRequestBody) (isStreaming transformToOpenAIFormat : bool).

(** [messagesFn] up to the upstream call, from the [authorization] header,
    the decoded body, [process.env.API_KEY] and the token
    [getAccessToken] gives when it is reached; [None] when an exception
    leaves the handler. *)
Definition messagesFn_preflight (authorization : option string)
    (body : AnthropicRequestBody) (API_KEY : option string)
    (oauthToken : option string) : option Preflight :=
  let isStreaming := JS.is_true (b_stream body) in
  let body := stripOpenAIParams body in
  if apiKeyRejected authorization API_KEY then Some rejected_api_key
  else
    match isCursorKeyCheck body with
    | None => None
    | Some true => Some key_check_bypass
    | Some false =>
        match injectSystemPrompt body with
        | None => Some proxy_error
        | Some (body, transformToOpenAIFormat) =>
            if JS.truthy_opt oauthToken then
              Some (upstream (withDefaults transformToOpenAIFormat body)
                      isStreaming transformToOpenAIFormat)
            else Some rejected_no_token
        end
    end.

(** A message whose [role] is the string [system]. *)
Definition is_system (msg : JS.json) : bool :=
  match JS.get msg "role" with
  | Some role => JS.is_string role "system"
  | None => false
  end.

(** Sample requests: a chat request with a system message, the header of
    a bearer key, a body with OpenAI-only parameters. *)
Definition user_message (text : string) : JS.json :=
  JS.JObj [("role", JS.JStr "user"); ("content", JS.JStr text)].

Definition system_message (text : string) : JS.json :=
  JS.JObj [("role", JS.JStr "system"); ("content", JS.JStr text)].

Definition sample_body : AnthropicRequestBody :=
  mkBody None
    (Some [system_message "Be brief."; user_message "Hello"])
    None (Some (JS.JBool true)) (Some "claude-sonnet-4")
    (<["seed" := JS.JNum 7]> (<["temperature" := JS.JNum 1]> ∅)).

(** A response with its content blocks replaced. *)
Definition with_content (r : AnthropicResponse)
    (blocks : list AnthropicContentBlock) : AnthropicResponse :=
  mkResponse (r_id r) (r_model r) (r_stop_reason r) (Some blocks) (r_usage r).

(** A response with a block of a kind the conversion does not know between
    a text block and a tool block. *)
Definition mixed_response : AnthropicResponse :=
  mkResponse (Some "msg_1") (Some "claude") (Some "tool_use")
    (Some [mkBlock "text" None None (Some "Looking up.") None;
           mkBlock "thinking" None None (Some "hidden") None;
           mkBlock "tool_use" (Some "t1") (Some "lookup") None (Some lookup_input)])
    None.

(** ** The OAuth token manager and the OAuth callback *)

Record OAuthCredentials := mkCredentials {
  oc_type : string;
  oc_refresh : string;
  oc_access : string;
  oc_expires : Z
}.

Record TokenResponse := mkTokenResponse {
  access_token : string;
  refresh_token : string;
  expires_in : Z
}.

(** What the world answers during one call of [getAccessToken]: whether
    [redis.get] and [redis.set] fail, what the token endpoint returns
    ([None] when the request fails or is not ok), and [Date.now()] at the
    expiry test and when the new credentials are made. *)
Record AuthEnv := mkAuthEnv {
  get_fails : bool;
  set_fails : bool;
  token_endpoint : option TokenResponse;
  now_checked : Z;
  now_refreshed : Z
}.

(** The value under the Redis key of the credentials. *)
Definition AuthStore := option OAuthCredentials.

(** [get]: a failure of Redis is caught and gives [null]. *)
Definition auth_get (env : AuthEnv) (store : AuthStore) : option OAuthCredentials :=
  if get_fails env then None else store.

(** [refreshToken]: the store after the call and the token returned; every
    failure is caught and gives [null]. *)
Definition refreshToken (env : AuthEnv) (store : AuthStore)
    (credentials : OAuthCredentials) : AuthStore * option string :=
  match token_endpoint env with
  | None => (store, None)
  | Some data =>
      let newCredentials :=
        mkCredentials "oauth" (refresh_token data) (access_token data)
          (now_refreshed env + expires_in data * 1000) in
      if set_fails env then (store, None)
      else (Some newCredentials, Some (access_token data))
  end.

(** [getAccessToken]. *)
Definition getAccessToken (env : AuthEnv) (store : AuthStore)
    : AuthStore * option string :=
  match auth_get env store with
  | None => (store, None)
  | Some credentials =>
      if negb (String.eqb (oc_type credentials) "oauth") then (store, None)
      else if negb (oc_expires credentials =? 0)
              && (now_checked env <? oc_expires credentials) then
        (store, Some (oc_access credentials))
      else if JS.truthy (oc_refresh credentials) then
        refreshToken env store credentials
      else (store, None)
  end.

(** The body of the token request of [exchangeCodeForTokens]. *)
Record TokenRequest := mkTokenRequest {
  tq_code : string;
  tq_state : string;
  tq_grant_type : string;
  tq_client_id : string;
  tq_redirect_uri : string;
  tq_code_verifier : string
}.

(** The unit [#]. *)
Definition hash : Ascii.ascii :=
  match "#" with
  | String c _ => c
  | EmptyString => Ascii.Space
  end.

(** [process.env.ANTHROPIC_OAUTH_CLIENT_ID || '9d1c...'] *)
Definition CLIENT_ID (env_client_id : option string) : string :=
  JS.opt_or env_client_id "9d1c250a-e61b-44d9-88ed-5944d1962f5e".

Definition REDIRECT_URI : string :=
  "https://console.anthropic.com/oauth/code/callback".

(** [exchangeCodeForTokens], up to the request it sends. *)
Definition exchangeCodeForTokens_request (env_client_id : option string)
    (code verifier : string) : TokenRequest :=
  let splits := JS.split code hash in
  mkTokenRequest (default "" (splits !! 0%nat))
    (JS.opt_or (splits !! 1%nat) verifier)
    "authorization_code" (CLIENT_ID env_client_id) REDIRECT_URI verifier.

(** The route [/auth/oauth/callback], up to the token request: [None]
    when the code is missing (answered with 400). *)
Definition oauth_callback_request (env_client_id : option string)
    (code : option string) : option TokenRequest :=
  match code with
  | Some code =>
      if JS.truthy code then
        let splits := JS.split code hash in
        let verifier := JS.opt_or (splits !! 1%nat) "" in
        Some (exchangeCodeForTokens_request env_client_id code verifier)
      else None
  | None => None
  end.

(** An exchange in which a [ping] frame carries usage (5 input and 7 output
    tokens) before a [message_delta] frame carrying 3 and 4. *)
Definition dropped_usage_reads : list (Z * list (option AnthropicStreamEvent)) :=
  [(0, [Some ping_with_usage; Some usage_frame])].

(** A [message_delta] frame whose usage holds a negative number. *)
Definition negative_usage_frame : AnthropicStreamEvent :=
  mkEvent "message_delta" None None None None None None
    (Some (mkUsage (Some (-2)) None None None)).

(** The exchange of [restarted_reads] followed by one more fragment for
    index 0. *)
Definition reopened_reads : list (Z * list (option AnthropicStreamEvent)) :=
  restarted_reads ++ [(3, [Some (json_delta_frame 0 "gh")])].

(** ** The lines of a chunk of upstream text *)

(** The line feed, at which [processChunk] cuts a chunk into lines. *)
Definition line_feed : Ascii.ascii := Ascii.ascii_of_nat 10.

Section Lines.

(** [JSON.parse], to a frame: nothing when it throws. *)
Variable JSON_parse : string → option AnthropicStreamEvent.

(** What the loop of [processChunk] does with one line before it looks at
    the frame: lines that are blank once trimmed, [event:] lines and lines
    that are no [data: ] line holding a brace are passed over; so is a line
    whose text [JSON.parse] rejects (the [catch] is silent). *)
Definition decode_line (line : string) : option AnthropicStreamEvent :=
  let trimmedLine := JS.trim line in
  if String.eqb trimmedLine "" then None
  else if JS.startsWith trimmedLine "event:" then None
  else if JS.startsWith trimmedLine "data: " && JS.includes trimmedLine "{" then
    JSON_parse (JS.replace_prefix trimmedLine "data: " "")
  else None.

(** [chunk.split('\n')], each line decoded. *)
Definition chunk_lines (chunk : string) : list (option AnthropicStreamEvent) :=
  decode_line <$> JS.split chunk line_feed.

(** [processChunk] on the text of a chunk. *)
Definition processChunk_text (now : Z) (state : ConverterState) (chunk : string)
    : ConverterState * list ProcessResult :=
  processChunk now state (chunk_lines chunk).

(** One read of the streaming loop: the clock and the text decoded from
    the bytes read, which goes to [processChunk] as it is. *)
Definition read_lines (read : Z * string)
    : Z * list (option AnthropicStreamEvent) :=
  (fst read, chunk_lines (snd read)).

(** The streaming loop on the texts read from upstream. *)
Definition streamExchange_text (reads : list (Z * string))
    : ConverterState * list ProcessResult :=
  streamExchange (read_lines <$> reads).

(** Texts that each end on a line feed, read one after the other, and the
    same texts in one piece. *)
Definition line_reads (now : Z) (texts : list string) : list (Z * string) :=
  (λ text, (now, text +:+ String line_feed "")) <$> texts.

Definition joined_lines (texts : list string) : string :=
  foldr (λ text rest, text +:+ String line_feed rest) "" texts.

End Lines.

(** The text of a bare [message_stop] frame: an object whose [type] is
    [message_stop], written with the double quote as a unit. *)
Definition double_quote : Ascii.ascii := Ascii.ascii_of_nat 34.

Definition message_stop_text : string :=
  "{" +:+ String double_quote
    ("type" +:+ String double_quote
       (":" +:+ String double_quote
          ("message_stop" +:+ String double_quote "}"))).

(** The [data: ] line of that frame, cut in two inside the record. *)
Definition record_head : string := "data: {" +:+ String double_quote "type".

Definition record_tail : string :=
  String double_quote
    (":" +:+ String double_quote ("message_stop" +:+ String double_quote "}")).

(** A decoder for running the examples: it agrees with [JSON.parse] on the
    text of the bare [message_stop] and on the texts that are no JSON, the
    only ones the examples give it. *)
Definition parse_message_stop (text : string) : option AnthropicStreamEvent :=
  if String.eqb text message_stop_text then Some message_stop_frame else None.

(** ** Strings *)

Lemma truthy_true (s : string) : JS.truthy s = true ↔ s ≠ "".
Proof. destruct s; simpl; split; intros; congruence. Qed.

Lemma truthy_false (s : string) : JS.truthy s = false ↔ s = "".
Proof. destruct s; simpl; split; intros; congruence. Qed.

Lemma string_cons_app (c : Ascii.ascii) (s t : string) :
  String c s +:+ t = String c (s +:+ t).
Proof. reflexivity. Qed.

Lemma string_nil_app (t : string) : "" +:+ t = t.
Proof. reflexivity. Qed.

Lemma truthy_opt_true (o : option string) :
  JS.truthy_opt o = true ↔ ∃ s, o = Some s ∧ s ≠ "".
Proof.
  destruct o as [s|]; simpl.
  - rewrite truthy_true. split; [by eauto|]. by intros (? & [= <-] & ?).
  - split; [done|]. by intros (? & ? & ?).
Qed.

Lemma startsWith_app (p e : string) : JS.startsWith (p +:+ e) p = true.
Proof.
  induction p as [|c p IH]; [done|].
  rewrite string_cons_app. simpl. by rewrite Ascii.eqb_refl.
Qed.

Lemma startsWith_inv (s p : string) :
  JS.startsWith s p = true → s = p +:+ JS.substring s (String.length p).
Proof.
  revert s. induction p as [|c p IH]; intros s H; [done|].
  destruct s as [|d s]; [done|]. simpl in H.
  destruct (Ascii.eqb c d) eqn:E; [|done].
  apply Ascii.eqb_eq in E as ->.
  rewrite string_cons_app. simpl. f_equal. by apply IH.
Qed.

Lemma substring_app (p e : string) : JS.substring (p +:+ e) (String.length p) = e.
Proof.
  induction p as [|c p IH]; [done|]. by rewrite string_cons_app.
Qed.

Lemma startsWith_iff (s p : string) :
  JS.startsWith s p = true ↔ ∃ e, s = p +:+ e.
Proof.
  split.
  - intros H. eexists. by apply startsWith_inv.
  - intros [e ->]. apply startsWith_app.
Qed.

Lemma string_app_nil_r (s : string) : s +:+ "" = s.
Proof.
  induction s as [|c s IH]; [done|]. by rewrite string_cons_app, IH.
Qed.

Lemma string_app_assoc (a b c : string) : (a +:+ b) +:+ c = a +:+ (b +:+ c).
Proof.
  induction a as [|x a IH]; [done|]. by rewrite !string_cons_app, IH.
Qed.

(** ** The argument-delta computation *)

(** Both branches extend the tracked text by exactly what is emitted. *)
Lemma resolve_partial_json_extends (b f : string) :
  snd (resolve_partial_json b f) = b +:+ fst (resolve_partial_json b f).
Proof.
  unfold resolve_partial_json.
  destruct (JS.truthy b && JS.startsWith f b) eqn:E; simpl; [|done].
  apply andb_true_iff in E as [_ E]. by apply startsWith_inv.
Qed.

Lemma resolve_partial_json_cumulative (b e : string) :
  b ≠ "" → resolve_partial_json b (b +:+ e) = (e, b +:+ e).
Proof.
  intros Hb. unfold resolve_partial_json.
  apply truthy_true in Hb. rewrite Hb, startsWith_app, substring_app. done.
Qed.

Lemma resolve_partial_json_fragment (b f : string) :
  b = "" ∨ (∀ e, f ≠ b +:+ e) → resolve_partial_json b f = (f, b +:+ f).
Proof.
  intros H. unfold resolve_partial_json.
  destruct (JS.truthy b && JS.startsWith f b) eqn:E; [|done].
  apply andb_true_iff in E as [Hb Hp].
  apply truthy_true in Hb. apply startsWith_iff in Hp as [e He].
  destruct H as [H|H]; [done|]. by destruct (H e).
Qed.

(** ** The branches of [transformToOpenAI] *)

Lemma partial_json_of_Some (data : AnthropicStreamEvent) (d : AnthropicDelta)
    (f : string) :
  ev_type data = "content_block_delta" → ev_delta data = Some d →
  d_partial_json d = Some f → f ≠ "" →
  partial_json_of data = Some f.
Proof.
  intros Ht Hd Hf Hne. unfold partial_json_of. rewrite Ht, Hd. simpl.
  rewrite Hf. apply truthy_true in Hne. by rewrite Hne.
Qed.

Lemma content_block_delta_guards (data : AnthropicStreamEvent) :
  ev_type data = "content_block_delta" →
  message_start_of data = None ∧ tool_start_of data = None
  ∧ delta_stop_reason_of data = None ∧ skipped data = false.
Proof.
  intros Ht. unfold message_start_of, tool_start_of, delta_stop_reason_of, skipped.
  by rewrite Ht.
Qed.

(** A fragment for a block with an accumulator: one chunk with the resolved
    text, and the accumulator updated. *)
Lemma transform_partial_json (now : Z) (state : ConverterState)
    (data : AnthropicStreamEvent) (f : string) (toolCall : ToolCallTracker) :
  ev_type data = "content_block_delta" → partial_json_of data = Some f →
  toolCallsTracker state !! JS.nullish0 (ev_index data) = Some toolCall →
  let index := JS.nullish0 (ev_index data) in
  let r := resolve_partial_json (tr_arguments toolCall) f in
  let state' :=
    set_toolCallsTracker state
      (<[index := mkTracker (tr_id toolCall) (tr_name toolCall) (snd r)]>
         (toolCallsTracker state)) in
  transformToOpenAI now state data =
    (state',
     Some (stream_chunk now state'
             (mkChunkDelta None None
                (Some [mkToolCallDelta index None None
                         (Some (mkFunctionDelta None (Some (fst r))))]))
             None None)).
Proof.
  intros Ht Hf Hl. simpl.
  destruct (content_block_delta_guards data Ht) as (H1 & H2 & _).
  unfold transformToOpenAI. rewrite H1, H2, Hf, Hl.
  by destruct (resolve_partial_json _ _).
Qed.

(** A fragment for a block without accumulator: nothing. *)
Lemma transform_partial_json_unknown (now : Z) (state : ConverterState)
    (data : AnthropicStreamEvent) (f : string) :
  ev_type data = "content_block_delta" → partial_json_of data = Some f →
  toolCallsTracker state !! JS.nullish0 (ev_index data) = None →
  transformToOpenAI now state data = (state, None).
Proof.
  intros Ht Hf Hl.
  destruct (content_block_delta_guards data Ht) as (H1 & H2 & _).
  unfold transformToOpenAI. by rewrite H1, H2, Hf, Hl.
Qed.

Lemma processFrame_content_block_delta (now : Z) (state : ConverterState)
    (data : AnthropicStreamEvent) :
  ev_type data = "content_block_delta" →
  processFrame now state data =
    let state1 := set_metricsData state (updateMetrics (metricsData state) data) in
    (fst (transformToOpenAI now state1 data),
     result_of (snd (transformToOpenAI now state1 data))).
Proof.
  intros Ht. destruct (content_block_delta_guards data Ht) as (_ & _ & _ & Hs).
  unfold processFrame. rewrite Hs, Ht. simpl.
  by destruct (transformToOpenAI _ _ _).
Qed.

(** C2: delta resolution.  For tracked arguments [b] and a fragment [f]:
    when [b] is not empty and [f] starts with [b], what is emitted is [f]
    without that prefix and [f] replaces [b]; otherwise [f] is emitted
    unchanged and appended to [b].  A [content_block_delta] frame carrying
    [f] for a block with an accumulator emits one chunk with exactly that
    text and stores the new arguments.  Fragments ab, cd, ef for one slot
    are emitted as ab, cd, ef and leave abcdef in the accumulator. *)
Theorem delta_resolution (b f : string) :
  (∀ e, b ≠ "" → f = b +:+ e → resolve_partial_json b f = (e, f))
  ∧ (b = "" ∨ (∀ e, f ≠ b +:+ e) → resolve_partial_json b f = (f, b +:+ f))
  ∧ (∀ now state data d toolCall,
       ev_type data = "content_block_delta" → ev_delta data = Some d →
       d_partial_json d = Some f → f ≠ "" →
       toolCallsTracker state !! JS.nullish0 (ev_index data) = Some toolCall →
       tr_arguments toolCall = b →
       let index := JS.nullish0 (ev_index data) in
       let state' :=
         mkState
           (<[index := mkTracker (tr_id toolCall) (tr_name toolCall)
                         (snd (resolve_partial_json b f))]>
              (toolCallsTracker state))
           (updateMetrics (metricsData state) data) in
       processFrame now state data =
         (state',
          [chunk (stream_chunk now state'
                    (mkChunkDelta None None
                       (Some [mkToolCallDelta index None None
                                (Some (mkFunctionDelta None
                                         (Some (fst (resolve_partial_json b f)))))]))
                    None None)]))
  ∧ (∀ now id name,
       let state0 :=
         fst (processFrame now createConverterState (tool_start_frame 0 id name)) in
       let run :=
         processChunk now state0
           [Some (json_delta_frame 0 "ab"); Some (json_delta_frame 0 "cd");
            Some (json_delta_frame 0 "ef")] in
       tool_arguments_emitted 0 (snd run) = ["ab"; "cd"; "ef"]
       ∧ tr_arguments <$> toolCallsTracker (fst run) !! 0 = Some "abcdef").
Proof.
  split; [|split; [|split]].
  - intros e Hb ->. by apply resolve_partial_json_cumulative.
  - apply resolve_partial_json_fragment.
  - intros now state data d toolCall Ht Hd Hf Hne Hl <-. simpl.
    rewrite processFrame_content_block_delta by done. simpl.
    pose proof (partial_json_of_Some data d f Ht Hd Hf Hne) as Hp.
    rewrite (transform_partial_json now _ data f toolCall Ht Hp) by done.
    done.
  - intros now id name. vm_compute. done.
Qed.

Lemma delta_resolution_witness :
  resolve_partial_json "ab" "abcd" = ("cd", "abcd")
  ∧ resolve_partial_json "ab" "cd" = ("cd", "abcd")
  ∧ snd (processFrame 0
           (mkState {[ 0 := mkTracker "t1" "lookup" "ab" ]}
              (metricsData createConverterState))
           (json_delta_frame 0 "abcd"))
    = [chunk (mkChunk "chatcmpl-0" "chat.completion.chunk" 0 "claude-unknown"
                [mkStreamChoice 0
                   (mkChunkDelta None None
                      (Some [mkToolCallDelta 0 None None
                               (Some (mkFunctionDelta None (Some "cd")))]))
                   None]
                None)].
Proof.
  split; [|split].
  - apply (proj1 (delta_resolution "ab" "abcd") "cd"); [done|reflexivity].
  - apply (proj1 (proj2 (delta_resolution "ab" "cd"))).
    right. intros e. vm_compute. discriminate.
  - rewrite (proj1 (proj2 (proj2 (delta_resolution "ab" "abcd"))) 0
               (mkState {[ 0 := mkTracker "t1" "lookup" "ab" ]}
                  (metricsData createConverterState))
               (json_delta_frame 0 "abcd")
               (mkDelta None (Some "abcd") None)
               (mkTracker "t1" "lookup" "ab"));
      [reflexivity|reflexivity|reflexivity|reflexivity|discriminate
      |reflexivity|reflexivity].
Defined.

(** C8: a [content_block_delta] frame carrying a tool-argument fragment for
    a block index without accumulator is skipped silently: the call
    returns, nothing is emitted and the accumulator table is unchanged.
    (A frame whose fragment is empty and that also carries text is a text
    delta, hence the side condition.) *)
Theorem unknown_block_delta_skipped (now : Z) (state : ConverterState)
    (data : AnthropicStreamEvent) (d : AnthropicDelta) (f : string) :
  ev_type data = "content_block_delta" → ev_delta data = Some d →
  d_partial_json d = Some f → f ≠ "" ∨ d_text d = None →
  toolCallsTracker state !! JS.nullish0 (ev_index data) = None →
  processFrame now state data =
    (set_metricsData state (updateMetrics (metricsData state) data), [])
  ∧ toolCallsTracker (fst (processFrame now state data)) = toolCallsTracker state.
Proof.
  intros Ht Hd Hf Hside Hl.
  assert (processFrame now state data =
    (set_metricsData state (updateMetrics (metricsData state) data), [])) as E.
  { rewrite processFrame_content_block_delta by done. simpl.
    destruct (decide (f = "")) as [->|Hne].
    - destruct Hside as [|Ht']; [done|].
      destruct (content_block_delta_guards data Ht) as (H1 & H2 & H3 & _).
      unfold transformToOpenAI, partial_json_of, text_of.
      rewrite H1, H2, H3, Ht, Hd. simpl. by rewrite Hf, Ht'.
    - pose proof (partial_json_of_Some data d f Ht Hd Hf Hne) as Hp.
      by rewrite (transform_partial_json_unknown now _ data f Ht Hp). }
  by rewrite E.
Qed.

Lemma unknown_block_delta_skipped_witness :
  processFrame 7 createConverterState (json_delta_frame 3 "{")
  = (createConverterState, [])
  ∧ toolCallsTracker
      (fst (processFrame 7 createConverterState (json_delta_frame 3 "{")))
    = toolCallsTracker createConverterState.
Proof.
  apply (unknown_block_delta_skipped 7 createConverterState
           (json_delta_frame 3 "{") (mkDelta None (Some "{") None) "{");
    [reflexivity|reflexivity|reflexivity|left; discriminate|reflexivity].
Defined.

(** ** Metrics *)

Lemma counters_plus_trans (m1 m2 m3 : MetricsData) (a b c d a' b' c' d' : Z) :
  counters_plus m1 m2 a b c d → counters_plus m2 m3 a' b' c' d' →
  counters_plus m1 m3 (a + a') (b + b') (c + c') (d + d').
Proof. unfold counters_plus. intros (?&?&?&?) (?&?&?&?). lia. Qed.

Lemma counters_plus_0 (m m' : MetricsData) :
  input_tokens m' = input_tokens m → output_tokens m' = output_tokens m →
  cache_creation_input_tokens m' = cache_creation_input_tokens m →
  cache_read_input_tokens m' = cache_read_input_tokens m →
  counters_plus m m' 0 0 0 0.
Proof. unfold counters_plus. lia. Qed.

Lemma absorb_message_start_counters m data :
  counters_plus m (absorb_message_start m data) 0 0 0 0.
Proof.
  unfold absorb_message_start. repeat case_match; by apply counters_plus_0.
Qed.

Lemma absorb_model_counters m data :
  counters_plus m (absorb_model m data) 0 0 0 0.
Proof. unfold absorb_model. repeat case_match; by apply counters_plus_0. Qed.

Lemma absorb_stop_reason_counters m data :
  counters_plus m (absorb_stop_reason m data) 0 0 0 0.
Proof. unfold absorb_stop_reason. repeat case_match; by apply counters_plus_0. Qed.

Lemma absorb_delta_stop_reason_counters m data :
  counters_plus m (absorb_delta_stop_reason m data) 0 0 0 0.
Proof.
  unfold absorb_delta_stop_reason. repeat case_match; by apply counters_plus_0.
Qed.

Lemma absorb_message_stop_reason_counters m data :
  counters_plus m (absorb_message_stop_reason m data) 0 0 0 0.
Proof.
  unfold absorb_message_stop_reason. repeat case_match; by apply counters_plus_0.
Qed.

Lemma absorb_usage_counters m data :
  counters_plus m (absorb_usage m data)
    (JS.num_or0 (ev_usage data ≫= u_input_tokens))
    (JS.num_or0 (ev_usage data ≫= u_output_tokens))
    (JS.num_or0 (ev_usage data ≫= u_cache_creation_input_tokens))
    (JS.num_or0 (ev_usage data ≫= u_cache_read_input_tokens)).
Proof.
  unfold absorb_usage, counters_plus.
  destruct (ev_usage data); simpl; unfold JS.num_or0; simpl; lia.
Qed.

Lemma absorb_message_usage_counters m data :
  counters_plus m (absorb_message_usage m data)
    (JS.num_or0 ((ev_message data ≫= msg_usage) ≫= u_input_tokens))
    (JS.num_or0 ((ev_message data ≫= msg_usage) ≫= u_output_tokens))
    (JS.num_or0 ((ev_message data ≫= msg_usage) ≫= u_cache_creation_input_tokens))
    (JS.num_or0 ((ev_message data ≫= msg_usage) ≫= u_cache_read_input_tokens)).
Proof.
  unfold absorb_message_usage, counters_plus.
  destruct (ev_message data) as [message|]; simpl;
    [destruct (msg_usage message); simpl; [destruct (JS.truthy _)|]|];
    simpl; unfold JS.num_or0; simpl; lia.
Qed.

Lemma updateMetrics_counters (m : MetricsData) (data : AnthropicStreamEvent) :
  input_tokens (updateMetrics m data) = input_tokens m + frame_input_tokens data
  ∧ output_tokens (updateMetrics m data)
    = output_tokens m + frame_output_tokens data
  ∧ cache_creation_input_tokens (updateMetrics m data)
    = cache_creation_input_tokens m + frame_cache_creation_input_tokens data
  ∧ cache_read_input_tokens (updateMetrics m data)
    = cache_read_input_tokens m + frame_cache_read_input_tokens data.
Proof.
  unfold updateMetrics, frame_input_tokens, frame_output_tokens,
    frame_cache_creation_input_tokens, frame_cache_read_input_tokens, frame_count.
  cbv zeta.
  pose proof (absorb_message_start_counters m data) as H1.
  pose proof (absorb_model_counters (absorb_message_start m data) data) as H2.
  pose proof (absorb_stop_reason_counters _ data
    : counters_plus (absorb_model (absorb_message_start m data) data) _ 0 0 0 0) as H3.
  set (m3 := absorb_stop_reason _ data) in *.
  pose proof (absorb_delta_stop_reason_counters m3 data) as H4.
  set (m4 := absorb_delta_stop_reason _ data) in *.
  pose proof (absorb_usage_counters m4 data) as H5.
  set (m5 := absorb_usage _ data) in *.
  pose proof (absorb_message_usage_counters m5 data) as H6.
  set (m6 := absorb_message_usage _ data) in *.
  pose proof (absorb_message_stop_reason_counters m6 data) as H7.
  unfold counters_plus in *. lia.
Qed.

Lemma absorb_stop_reason_records m data :
  records (ev_stop_reason data) m (absorb_stop_reason m data).
Proof.
  unfold records, absorb_stop_reason.
  destruct (ev_stop_reason data) as [s|]; simpl; [|done].
  by destruct (JS.truthy s).
Qed.

Lemma absorb_delta_stop_reason_records m data :
  records
    (if String.eqb (ev_type data) "message_delta"
     then ev_delta data ≫= d_stop_reason else None)
    m (absorb_delta_stop_reason m data).
Proof.
  unfold records, absorb_delta_stop_reason.
  destruct (String.eqb _ _); [|done].
  destruct (ev_delta data ≫= d_stop_reason) as [s|]; simpl; [|done].
  by destruct (JS.truthy s).
Qed.

Lemma absorb_message_stop_reason_records m data :
  records (ev_message data ≫= msg_stop_reason) m
    (absorb_message_stop_reason m data).
Proof.
  unfold records, absorb_message_stop_reason.
  destruct (ev_message data ≫= msg_stop_reason) as [s|]; simpl; [|done].
  by destruct (JS.truthy s).
Qed.

Lemma absorb_message_start_stop m data :
  stop_reason (absorb_message_start m data) = stop_reason m.
Proof. unfold absorb_message_start. by repeat case_match. Qed.

Lemma absorb_model_stop m data :
  stop_reason (absorb_model m data) = stop_reason m.
Proof. unfold absorb_model. by repeat case_match. Qed.

Lemma absorb_usage_stop m data :
  stop_reason (absorb_usage m data) = stop_reason m.
Proof. unfold absorb_usage. by repeat case_match. Qed.

Lemma absorb_message_usage_stop m data :
  stop_reason (absorb_message_usage m data) = stop_reason m.
Proof. unfold absorb_message_usage. by repeat case_match. Qed.

Lemma updateMetrics_stop_reason (m : MetricsData) (data : AnthropicStreamEvent) :
  stop_reason (updateMetrics m data)
  = match frame_stop_reason data with
    | Some s => Some s
    | None => stop_reason m
    end.
Proof.
  unfold updateMetrics. cbv zeta.
  rewrite absorb_message_stop_reason_records, absorb_message_usage_stop,
    absorb_usage_stop, absorb_delta_stop_reason_records,
    absorb_stop_reason_records, absorb_model_stop, absorb_message_start_stop.
  unfold frame_stop_reason.
  destruct (ev_message data ≫= msg_stop_reason) as [s1|]; simpl;
    [destruct (JS.truthy s1); [done|]|];
    (destruct (String.eqb (ev_type data) "message_delta"); simpl;
     [destruct (ev_delta data ≫= d_stop_reason) as [s2|]; simpl;
      [destruct (JS.truthy s2); [done|]|]|]);
    (destruct (ev_stop_reason data) as [s3|]; simpl;
     [by destruct (JS.truthy s3)|done]).
Qed.

(** [transformToOpenAI] touches no metric but [openAIId]. *)
Lemma transformToOpenAI_metrics (now : Z) (state : ConverterState)
    (data : AnthropicStreamEvent) :
  metricsData (fst (transformToOpenAI now state data)) = metricsData state
  ∨ ∃ id, metricsData (fst (transformToOpenAI now state data))
          = set_openAIId (metricsData state) id.
Proof.
  unfold transformToOpenAI. repeat case_match; simpl; eauto.
Qed.

Lemma transformToOpenAI_counters (now : Z) (state : ConverterState)
    (data : AnthropicStreamEvent) :
  let m := metricsData state in
  let m' := metricsData (fst (transformToOpenAI now state data)) in
  input_tokens m' = input_tokens m ∧ output_tokens m' = output_tokens m
  ∧ cache_creation_input_tokens m' = cache_creation_input_tokens m
  ∧ cache_read_input_tokens m' = cache_read_input_tokens m
  ∧ stop_reason m' = stop_reason m.
Proof.
  simpl. by destruct (transformToOpenAI_metrics now state data) as [->|[id ->]].
Qed.

(** A frame of a kind that is not dropped: metrics first, then the chunk of
    [transformToOpenAI], then the end of a [message_stop]. *)
Lemma processFrame_unfold (now : Z) (state : ConverterState)
    (data : AnthropicStreamEvent) :
  skipped data = false →
  let state1 := set_metricsData state (updateMetrics (metricsData state) data) in
  let t := transformToOpenAI now state1 data in
  processFrame now state data =
    (fst t,
     result_of (snd t) ++
     (if String.eqb (ev_type data) "message_stop"
      then result_of (createUsageChunk now (fst t)) ++ [done] else [])).
Proof.
  intros Hs. simpl. unfold processFrame. rewrite Hs.
  destruct (transformToOpenAI _ _ _) as [state2 c]. simpl.
  destruct (String.eqb _ _); [done|]. by rewrite app_nil_r.
Qed.

Lemma transformToOpenAI_message_stop (now : Z) (state : ConverterState)
    (data : AnthropicStreamEvent) :
  ev_type data = "message_stop" → skipped data = false
  ∧ transformToOpenAI now state data = (state, None).
Proof.
  intros Ht.
  unfold skipped, transformToOpenAI, message_start_of, tool_start_of,
    partial_json_of, text_of, delta_stop_reason_of.
  by rewrite Ht.
Qed.

(** ** Exchanges as sequences of frames *)

Lemma processFrames_app (state : ConverterState)
    (l1 l2 : list (Z * AnthropicStreamEvent)) :
  processFrames state (l1 ++ l2) =
    (fst (processFrames (fst (processFrames state l1)) l2),
     snd (processFrames state l1)
     ++ snd (processFrames (fst (processFrames state l1)) l2)).
Proof.
  revert state. induction l1 as [|[now data] l1 IH]; intros state; simpl.
  - by destruct (processFrames state l2).
  - destruct (processFrame now state data) as [state1 r1]. rewrite IH.
    destruct (processFrames state1 l1) as [state2 r2]. simpl.
    by rewrite app_assoc.
Qed.

Lemma processChunk_frames (now : Z) (state : ConverterState)
    (lines : list (option AnthropicStreamEvent)) :
  processChunk now state lines
  = processFrames state ((λ data, (now, data)) <$> omap id lines).
Proof.
  revert state. induction lines as [|[data|] lines IH]; intros state; simpl;
    [done| |by rewrite IH].
  destruct (processFrame now state data) as [state1 r1]. by rewrite IH.
Qed.

Lemma processChunks_frames (state : ConverterState)
    (reads : list (Z * list (option AnthropicStreamEvent))) :
  processChunks state reads = processFrames state (frames_read reads).
Proof.
  revert state. induction reads as [|[now lines] reads IH]; intros state;
    [done|].
  unfold frames_read in *. simpl. rewrite processFrames_app.
  rewrite processChunk_frames.
  destruct (processFrames state _) as [state1 r1]. simpl.
  rewrite IH. by destruct (processFrames state1 _).
Qed.

Lemma frames_read_app (r1 r2 : list (Z * list (option AnthropicStreamEvent))) :
  frames_read (r1 ++ r2) = frames_read r1 ++ frames_read r2.
Proof. unfold frames_read. by rewrite bind_app. Qed.

(** ** Metrics and emission in [processChunk] *)

(** A frame that is not dropped has its usage added and its stop reason
    recorded. *)
Lemma processFrame_absorbs (now : Z) (state : ConverterState)
    (data : AnthropicStreamEvent) :
  skipped data = false →
  let m := metricsData state in
  let m' := metricsData (fst (processFrame now state data)) in
  input_tokens m' = input_tokens m + frame_input_tokens data
  ∧ output_tokens m' = output_tokens m + frame_output_tokens data
  ∧ cache_creation_input_tokens m'
    = cache_creation_input_tokens m + frame_cache_creation_input_tokens data
  ∧ cache_read_input_tokens m'
    = cache_read_input_tokens m + frame_cache_read_input_tokens data
  ∧ stop_reason m'
    = match frame_stop_reason data with
      | Some s => Some s
      | None => stop_reason m
      end.
Proof.
  intros Hs. simpl. rewrite (processFrame_unfold now state data Hs). simpl.
  destruct (transformToOpenAI_counters now
              (set_metricsData state (updateMetrics (metricsData state) data))
              data) as (E1 & E2 & E3 & E4 & E5).
  simpl in *. rewrite E1, E2, E3, E4, E5.
  destruct (updateMetrics_counters (metricsData state) data)
    as (C1 & C2 & C3 & C4).
  rewrite C1, C2, C3, C4, updateMetrics_stop_reason. done.
Qed.

(** C1, as the code has it: a frame of a dropped kind ([ping],
    [content_block_stop], [content_block_start] of a text block) changes
    nothing and emits nothing, whatever it carries.  Every other frame has
    its usage added to the four counters and its stop reason recorded, and
    what is emitted for it is built from the state holding the updated
    metrics. *)
Theorem metrics_updated_before_emission (now : Z) (state : ConverterState)
    (data : AnthropicStreamEvent) :
  (skipped data = true → processFrame now state data = (state, []))
  ∧ (skipped data = false →
     let m := metricsData state in
     let state1 := set_metricsData state (updateMetrics m data) in
     let m' := metricsData (fst (processFrame now state data)) in
     input_tokens m' = input_tokens m + frame_input_tokens data
     ∧ output_tokens m' = output_tokens m + frame_output_tokens data
     ∧ cache_creation_input_tokens m'
       = cache_creation_input_tokens m + frame_cache_creation_input_tokens data
     ∧ cache_read_input_tokens m'
       = cache_read_input_tokens m + frame_cache_read_input_tokens data
     ∧ stop_reason m'
       = match frame_stop_reason data with
         | Some s => Some s
         | None => stop_reason m
         end
     ∧ snd (processFrame now state data)
       = result_of (snd (transformToOpenAI now state1 data))
         ++ (if String.eqb (ev_type data) "message_stop"
             then result_of
                    (createUsageChunk now (fst (transformToOpenAI now state1 data)))
                  ++ [done]
             else [])).
Proof.
  split.
  - intros Hs. unfold processFrame. by rewrite Hs.
  - intros Hs. cbv zeta.
    destruct (processFrame_absorbs now state data Hs) as (H1 & H2 & H3 & H4 & H5).
    rewrite (processFrame_unfold now state data Hs) in *. by simpl in *.
Qed.

Lemma metrics_updated_before_emission_witness :
  input_tokens
    (metricsData (fst (processFrame 0 createConverterState cache_only_frame))) = 0
  ∧ cache_read_input_tokens
      (metricsData (fst (processFrame 0 createConverterState cache_only_frame))) = 5.
Proof.
  pose proof (proj2 (metrics_updated_before_emission 0 createConverterState
                       cache_only_frame) eq_refl) as H.
  simpl in H. destruct H as (H1 & _ & _ & H4 & _).
  split; [exact H1|exact H4].
Defined.

(** C1 as stated fails on a dropped kind: a [ping] frame carrying usage and
    a stop reason leaves the metrics as they were. *)
Lemma ping_with_usage_not_absorbed :
  frame_input_tokens ping_with_usage = 5
  ∧ frame_stop_reason ping_with_usage = Some "end_turn"
  ∧ processFrame 0 createConverterState ping_with_usage
    = (createConverterState, [])
  ∧ input_tokens (metricsData createConverterState) = 0
  ∧ stop_reason (metricsData createConverterState) = None.
Proof. repeat split. Qed.

Lemma result_of_no_done (c : option OpenAIStreamChunk) :
  count_done (result_of c) = 0%nat.
Proof. by destruct c. Qed.

Lemma count_done_app (r1 r2 : list ProcessResult) :
  count_done (r1 ++ r2) = (count_done r1 + count_done r2)%nat.
Proof. unfold count_done. by rewrite List.filter_app, length_app. Qed.

Lemma skipped_not_message_stop (data : AnthropicStreamEvent) :
  skipped data = true → String.eqb (ev_type data) "message_stop" = false.
Proof.
  unfold skipped. intros H.
  destruct (String.eqb (ev_type data) "message_stop") eqn:E; [|done].
  apply String.eqb_eq in E. by rewrite E in H.
Qed.

(** One [done] for a [message_stop] frame, none for any other. *)
Lemma processFrame_count_done (now : Z) (state : ConverterState)
    (data : AnthropicStreamEvent) :
  count_done (snd (processFrame now state data))
  = if String.eqb (ev_type data) "message_stop" then 1%nat else 0%nat.
Proof.
  destruct (skipped data) eqn:Hs.
  - rewrite (skipped_not_message_stop data Hs).
    unfold processFrame. by rewrite Hs.
  - rewrite (processFrame_unfold now state data Hs). simpl.
    rewrite count_done_app, result_of_no_done.
    destruct (String.eqb _ _); [|done].
    by rewrite count_done_app, result_of_no_done.
Qed.

Lemma processFrames_count_done (state : ConverterState)
    (frames : list (Z * AnthropicStreamEvent)) :
  count_done (snd (processFrames state frames)) = count_message_stop frames.
Proof.
  revert state. induction frames as [|[now data] frames IH]; intros state;
    [done|].
  simpl. pose proof (processFrame_count_done now state data) as H.
  destruct (processFrame now state data) as [state1 r1].
  specialize (IH state1). destruct (processFrames state1 frames) as [state2 r2].
  simpl in *. rewrite count_done_app, H, IH.
  unfold count_message_stop, is_message_stop. simpl.
  by destruct (String.eqb _ _).
Qed.

(** C3, as the code has it: on a [message_stop] frame the results are the
    usage chunk followed by [done] when the accumulated [input_tokens] or
    [output_tokens] (this frame included) is not zero, and [done] alone
    when both are zero, whatever the cache counters hold.  The usage chunk
    has an empty delta, no finish reason, and a usage of
    [prompt_tokens = input_tokens], [completion_tokens = output_tokens],
    [total_tokens] their sum.  An exchange emits as many [done] as it has
    [message_stop] frames: exactly one when it has one. *)
Theorem message_stop_results :
  (∀ now state data,
     ev_type data = "message_stop" →
     let m := updateMetrics (metricsData state) data in
     let state' := set_metricsData state m in
     (input_tokens m = 0 ∧ output_tokens m = 0 →
      processFrame now state data = (state', [done]))
     ∧ (input_tokens m ≠ 0 ∨ output_tokens m ≠ 0 →
        processFrame now state data =
          (state',
           [chunk (mkChunk (chunk_id now state') "chat.completion.chunk"
                     (now / 1000) (chunk_model state')
                     [mkStreamChoice 0 (mkChunkDelta None None None) None]
                     (Some (mkOpenAIUsage (input_tokens m) (output_tokens m)
                              (input_tokens m + output_tokens m))));
            done])))
  ∧ (∀ reads,
       count_done (snd (streamExchange reads))
       = count_message_stop (frames_read reads)).
Proof.
  split.
  - intros now state data Ht. simpl.
    destruct (transformToOpenAI_message_stop now
                (set_metricsData state (updateMetrics (metricsData state) data))
                data Ht) as [Hs Htr].
    rewrite (processFrame_unfold now state data Hs). simpl.
    rewrite Htr, Ht. simpl. unfold createUsageChunk. simpl.
    split.
    + intros [-> ->]. done.
    + intros H.
      destruct ((input_tokens _ =? 0) && (output_tokens _ =? 0)) eqn:E; [|done].
      apply andb_true_iff in E as [E1%Z.eqb_eq E2%Z.eqb_eq]. exfalso. lia.
  - intros reads. unfold streamExchange.
    rewrite processChunks_frames. apply processFrames_count_done.
Qed.

Lemma message_stop_results_witness :
  processFrame 0 createConverterState message_stop_frame
  = (createConverterState, [done]).
Proof.
  apply (proj1 (proj1 message_stop_results 0 createConverterState
                  message_stop_frame eq_refl)).
  split; reflexivity.
Defined.

(** C3 as stated fails on the cache counters: with 5 tokens counted in
    [cache_read_input_tokens] and none in [input_tokens] and
    [output_tokens], a [message_stop] emits [done] and no usage chunk. *)
Lemma cache_tokens_emit_no_usage_chunk :
  cache_read_input_tokens
    (metricsData
       (fst (streamExchange
               [(0, [Some cache_only_frame]); (0, [Some message_stop_frame])])))
  = 5
  ∧ snd (streamExchange
           [(0, [Some cache_only_frame]); (0, [Some message_stop_frame])])
    = [done].
Proof. split; reflexivity. Qed.

(** ** Additivity of the counters *)

Lemma absorb_all_app (m : MetricsData) (l1 l2 : list AnthropicStreamEvent) :
  absorb_all m (l1 ++ l2) = absorb_all (absorb_all m l1) l2.
Proof. unfold absorb_all. by rewrite fold_left_app. Qed.

Lemma absorb_all_counters (m : MetricsData) (frames : list AnthropicStreamEvent) :
  input_tokens (absorb_all m frames)
  = input_tokens m + sum_of frame_input_tokens frames
  ∧ output_tokens (absorb_all m frames)
    = output_tokens m + sum_of frame_output_tokens frames
  ∧ cache_creation_input_tokens (absorb_all m frames)
    = cache_creation_input_tokens m
      + sum_of frame_cache_creation_input_tokens frames
  ∧ cache_read_input_tokens (absorb_all m frames)
    = cache_read_input_tokens m + sum_of frame_cache_read_input_tokens frames.
Proof.
  revert m. unfold absorb_all, sum_of.
  induction frames as [|data frames IH]; intros m; simpl; [lia|].
  destruct (IH (updateMetrics m data)) as (-> & -> & -> & ->).
  destruct (updateMetrics_counters m data) as (-> & -> & -> & ->). lia.
Qed.

Lemma num_or0_nonneg (u : option AnthropicUsage) (f : AnthropicUsage → option Z) :
  (∀ u', u = Some u' → count_nonneg (f u')) → 0 ≤ JS.num_or0 (u ≫= f).
Proof.
  intros H. destruct u as [u'|]; simpl; [|done].
  specialize (H u' eq_refl). by destruct (f u').
Qed.

Lemma frame_count_nonneg (data : AnthropicStreamEvent) :
  frame_nonneg data →
  0 ≤ frame_input_tokens data ∧ 0 ≤ frame_output_tokens data
  ∧ 0 ≤ frame_cache_creation_input_tokens data
  ∧ 0 ≤ frame_cache_read_input_tokens data.
Proof.
  intros [H1 H2].
  unfold frame_input_tokens, frame_output_tokens,
    frame_cache_creation_input_tokens, frame_cache_read_input_tokens, frame_count.
  unfold usage_nonneg in *.
  repeat split; apply Z.add_nonneg_nonneg; apply num_or0_nonneg;
    intros u' E; rewrite E in *; tauto.
Qed.

Lemma sum_of_nonneg (frames : list AnthropicStreamEvent) :
  Forall frame_nonneg frames →
  0 ≤ sum_of frame_input_tokens frames ∧ 0 ≤ sum_of frame_output_tokens frames
  ∧ 0 ≤ sum_of frame_cache_creation_input_tokens frames
  ∧ 0 ≤ sum_of frame_cache_read_input_tokens frames.
Proof.
  unfold sum_of. induction 1 as [|data frames H _ IH]; simpl; [done|].
  pose proof (frame_count_nonneg data H). lia.
Qed.

(** ** The non-streaming conversion *)

Section NonStreamingFacts.

Variable JSON_stringify : JS.json → string.

Local Abbreviation block_step := (process_block JSON_stringify).
Local Abbreviation call_of := (to_call JSON_stringify).
Local Abbreviation convert := (convertNonStreamingResponse JSON_stringify).

Lemma tool_use_not_text (block : AnthropicContentBlock) :
  String.eqb (cb_type block) "tool_use" = true → is_text_block block = false.
Proof. unfold is_text_block. intros ->%String.eqb_eq. done. Qed.

(** One turn of the loop, by the kind of the block. *)
Lemma process_block_cases (text : string) (resp : OpenAIResponse)
    (block : AnthropicContentBlock) :
  block_step (text, resp) block =
    if is_text_block block then (text +:+ text_appended block, resp)
    else if collectable block then (text, push_tool_call (call_of block) resp)
    else (text, resp).
Proof.
  unfold process_block, is_text_block, collectable, to_call.
  destruct (String.eqb (cb_type block) "text"); [done|].
  destruct (String.eqb (cb_type block) "tool_use"); [|done]. simpl.
  destruct (cb_id block) as [id|]; [|done].
  destruct (cb_name block) as [name|]; simpl;
    [by destruct (JS.truthy id), (JS.truthy name)|by destruct (JS.truthy id)].
Qed.

Lemma push_tool_call_single (resp : OpenAIResponse) (c : ResponseChoice)
    (call : ToolCall) :
  or_choices resp = [c] →
  push_tool_call call resp =
    mkOpenAIResponse (or_id resp) (or_object resp) (or_created resp)
      (or_model resp)
      [mkResponseChoice (rc_index c)
         (mkResponseMessage (rm_role (rc_message c)) (rm_content (rc_message c))
            (rm_tool_calls (rc_message c) ++ [call]))
         (rc_finish_reason c)]
      (or_usage resp).
Proof. intros H. unfold push_tool_call, update_first_message. by rewrite H. Qed.

(** The loop over the blocks: the texts of the text blocks are appended in
    order, the calls of the collectable blocks are pushed in order. *)
Lemma fold_process_block (blocks : list AnthropicContentBlock) (text : string)
    (id object model role : string) (created index : Z)
    (content finish : option string) (calls : list ToolCall) (usage : OpenAIUsage) :
  fold_left block_step blocks
    (text,
     mkOpenAIResponse id object created model
       [mkResponseChoice index (mkResponseMessage role content calls) finish]
       usage)
  = (text +:+ joined_text blocks,
     mkOpenAIResponse id object created model
       [mkResponseChoice index
          (mkResponseMessage role content
             (calls ++ (call_of <$> List.filter collectable blocks)))
          finish]
       usage).
Proof.
  revert text calls. unfold joined_text.
  induction blocks as [|block blocks IH]; intros text calls.
  - simpl. by rewrite string_app_nil_r, app_nil_r.
  - cbn [fold_left]. rewrite process_block_cases.
    destruct (is_text_block block) eqn:Et.
    + rewrite IH. cbn [List.filter]. rewrite Et.
      assert (collectable block = false) as ->.
      { unfold collectable. unfold is_text_block in Et.
        apply String.eqb_eq in Et as ->. done. }
      rewrite fmap_cons. cbn [foldr]. by rewrite string_app_assoc.
    + cbn [List.filter]. rewrite Et.
      destruct (collectable block) eqn:Ec.
      * erewrite push_tool_call_single by reflexivity. simpl.
        rewrite IH. by rewrite <- app_assoc.
      * by rewrite IH.
Qed.

(** [convertNonStreamingResponse] in closed form. *)
Lemma convertNonStreamingResponse_eq (now : Z) (r : AnthropicResponse) :
  let blocks := default [] (r_content r) in
  let initial := initial_response now r in
  convert now r =
    mkOpenAIResponse (or_id initial) "chat.completion" (now / 1000)
      (or_model initial)
      [mkResponseChoice 0
         (mkResponseMessage "assistant"
            (if JS.truthy (joined_text blocks) then Some (joined_text blocks)
             else None)
            (call_of <$> List.filter collectable blocks))
         (response_finish_reason (r_stop_reason r))]
      (or_usage initial).
Proof.
  simpl. unfold convertNonStreamingResponse, initial_response.
  rewrite fold_process_block. rewrite string_nil_app. simpl.
  by destruct (JS.truthy _).
Qed.

End NonStreamingFacts.

(** ** Finish reasons *)

Lemma message_delta_guards (data : AnthropicStreamEvent) :
  ev_type data = "message_delta" →
  message_start_of data = None ∧ tool_start_of data = None
  ∧ partial_json_of data = None ∧ text_of data = None ∧ skipped data = false.
Proof.
  intros Ht.
  unfold message_start_of, tool_start_of, partial_json_of, text_of, skipped.
  by rewrite Ht.
Qed.

Lemma processFrame_message_delta (now : Z) (state : ConverterState)
    (data : AnthropicStreamEvent) :
  ev_type data = "message_delta" →
  let state1 := set_metricsData state (updateMetrics (metricsData state) data) in
  processFrame now state data =
    (state1,
     match delta_stop_reason_of data with
     | Some s =>
         [chunk (stream_chunk now state1 empty_delta
                   (Some (stream_finish_reason s)) None)]
     | None => []
     end).
Proof.
  intros Ht. simpl.
  destruct (message_delta_guards data Ht) as (H1 & H2 & H3 & H4 & Hs).
  rewrite (processFrame_unfold now state data Hs). simpl.
  unfold transformToOpenAI. rewrite H1, H2, H3, H4, Ht. simpl.
  by destruct (delta_stop_reason_of data).
Qed.

(** C5, as the code has it: on every stop reason that is not the empty
    string the two translators compute the same finish reason, the one of
    the table ([end_turn] to [stop], [tool_use] to [tool_calls], any other
    value unchanged).  An absent or empty stop reason gives a null finish
    reason in the non-streaming response, and no finish chunk at all in
    the stream. *)
Theorem finish_reason_mappings_agree :
  (∀ s, s ≠ "" →
     response_finish_reason (Some s) = Some (stream_finish_reason s)
     ∧ spec_finish_reason (Some s) = Some (stream_finish_reason s))
  ∧ response_finish_reason None = None
  ∧ response_finish_reason (Some "") = None
  ∧ (∀ now state data d s,
       ev_type data = "message_delta" → ev_delta data = Some d →
       d_stop_reason d = Some s → s ≠ "" →
       let state1 :=
         set_metricsData state (updateMetrics (metricsData state) data) in
       processFrame now state data =
         (state1,
          [chunk (mkChunk (chunk_id now state1) "chat.completion.chunk"
                    (now / 1000) (chunk_model state1)
                    [mkStreamChoice 0 (mkChunkDelta None None None)
                       (Some (stream_finish_reason s))]
                    None)]))
  ∧ (∀ now state data,
       ev_type data = "message_delta" →
       JS.truthy_opt (ev_delta data ≫= d_stop_reason) = false →
       snd (processFrame now state data) = [])
  ∧ (∀ JSON_stringify now r,
       rc_finish_reason <$>
         or_choices (convertNonStreamingResponse JSON_stringify now r)
       = [response_finish_reason (r_stop_reason r)]).
Proof.
  split; [|split; [done|split; [done|split; [|split]]]].
  - intros s Hs%truthy_true. unfold response_finish_reason, spec_finish_reason,
      stream_finish_reason.
    rewrite Hs. by repeat case_match.
  - intros now state data d s Ht Hd Hs Hne. simpl.
    rewrite (processFrame_message_delta now state data Ht). simpl.
    unfold delta_stop_reason_of. rewrite Ht, Hd. simpl. rewrite Hs.
    apply truthy_true in Hne. by rewrite Hne.
  - intros now state data Ht Hf.
    rewrite (processFrame_message_delta now state data Ht). simpl.
    unfold delta_stop_reason_of. rewrite Ht. simpl.
    destruct (ev_delta data ≫= d_stop_reason) as [s|]; [|done].
    simpl in Hf. by rewrite Hf.
  - intros S now r. by rewrite convertNonStreamingResponse_eq.
Qed.

Lemma finish_reason_mappings_agree_witness :
  response_finish_reason (Some "max_tokens")
  = Some (stream_finish_reason "max_tokens")
  ∧ snd (processFrame 0 createConverterState (stop_frame "end_turn"))
    = [chunk (mkChunk "chatcmpl-0" "chat.completion.chunk" 0 "claude-unknown"
                [mkStreamChoice 0 (mkChunkDelta None None None) (Some "stop")]
                None)].
Proof.
  split.
  - apply (proj1 finish_reason_mappings_agree "max_tokens"). discriminate.
  - rewrite (proj1 (proj2 (proj2 (proj2 finish_reason_mappings_agree))) 0
               createConverterState (stop_frame "end_turn")
               (mkDelta None None (Some "end_turn")) "end_turn");
      [reflexivity|reflexivity|reflexivity|reflexivity|discriminate].
Defined.

(** C5 as stated fails on the empty string: the table passes it through,
    the non-streaming response has a null finish reason and the stream
    emits no finish chunk. *)
Lemma empty_stop_reason_not_verbatim :
  spec_finish_reason (r_stop_reason empty_stop_response) = Some ""
  ∧ rc_finish_reason <$>
      or_choices (convertNonStreamingResponse no_stringify 0 empty_stop_response)
    = [None]
  ∧ snd (processFrame 0 createConverterState (stop_frame "")) = [].
Proof. repeat split. Qed.

(** ** Content and tool calls of the non-streaming response *)




(** C7, as the code has it: the tool calls of the message are, in array
    order, those of the [tool_use] blocks whose [id] and [name] are both
    present and not empty, each with that id, that name, type [function]
    and the serialization of the block's input, or of the empty object
    when the input is absent or falsy; every other block gives no call.
    The response with one tool block of id t1, name lookup and input
    [{q: x}] has exactly one call, with these and the serialized input. *)
Theorem response_tool_calls (JSON_stringify : JS.json → string) (now : Z)
    (r : AnthropicResponse) :
  let blocks := default [] (r_content r) in
  let resp := convertNonStreamingResponse JSON_stringify now r in
  (rm_tool_calls <$> first_message resp
   = Some ((λ block,
              mkToolCall (default "" (cb_id block)) "function"
                (mkToolCallFunction (default "" (cb_name block))
                   (JSON_stringify (JS.json_or_empty (cb_input block)))))
             <$> List.filter collectable blocks))
  ∧ (∀ block, collectable block = true ↔
       cb_type block = "tool_use"
       ∧ (∃ id, cb_id block = Some id ∧ id ≠ "")
       ∧ (∃ name, cb_name block = Some name ∧ name ≠ ""))
  ∧ (∀ v, JS.json_truthy v = true → JS.json_or_empty (Some v) = v)
  ∧ rm_tool_calls <$>
      first_message (convertNonStreamingResponse JSON_stringify now lookup_response)
    = Some [mkToolCall "t1" "function"
              (mkToolCallFunction "lookup" (JSON_stringify lookup_input))].
Proof.
  simpl. rewrite !convertNonStreamingResponse_eq. unfold first_message. simpl.
  split; [done|split; [|split; [|done]]].
  - intros block. unfold collectable.
    rewrite !andb_true_iff, String.eqb_eq, !truthy_opt_true. tauto.
  - intros v Hv. unfold JS.json_or_empty. by rewrite Hv.
Qed.

Lemma response_tool_calls_witness :
  JS.json_or_empty (Some lookup_input) = lookup_input.
Proof.
  apply (proj1 (proj2 (proj2 (response_tool_calls no_stringify 0
                                lookup_response)))).
  reflexivity.
Defined.

(** C7 as stated fails on an empty id: the block has both [id] and [name],
    and it is not collected. *)
Lemma empty_id_tool_block_skipped :
  (cb_type <$> default [] (r_content empty_id_response)) = ["tool_use"]
  ∧ (cb_id <$> default [] (r_content empty_id_response)) = [Some ""]
  ∧ (cb_name <$> default [] (r_content empty_id_response)) = [Some "lookup"]
  ∧ rm_tool_calls <$>
      first_message (convertNonStreamingResponse no_stringify 0 empty_id_response)
    = Some [].
Proof. repeat split. Qed.

(** ** One choice per chunk *)

Lemma transformToOpenAI_single_choice (now : Z) (state : ConverterState)
    (data : AnthropicStreamEvent) :
  Forall single_choice_result (result_of (snd (transformToOpenAI now state data))).
Proof.
  unfold transformToOpenAI, single_choice_result, single_choice_chunk.
  repeat case_match; simpl; repeat constructor; simpl; eauto.
Qed.

Lemma createUsageChunk_single_choice (now : Z) (state : ConverterState) :
  Forall single_choice_result (result_of (createUsageChunk now state)).
Proof.
  unfold createUsageChunk, single_choice_result, single_choice_chunk.
  case_match; simpl; repeat constructor; simpl; eauto.
Qed.

Lemma processFrame_single_choice (now : Z) (state : ConverterState)
    (data : AnthropicStreamEvent) :
  Forall single_choice_result (snd (processFrame now state data)).
Proof.
  destruct (skipped data) eqn:Hs.
  - unfold processFrame. rewrite Hs. constructor.
  - rewrite (processFrame_unfold now state data Hs). simpl.
    apply Forall_app. split; [apply transformToOpenAI_single_choice|].
    destruct (String.eqb _ _); [|constructor].
    apply Forall_app. split; [apply createUsageChunk_single_choice|].
    by repeat constructor.
Qed.

Lemma processFrames_single_choice (state : ConverterState)
    (frames : list (Z * AnthropicStreamEvent)) :
  Forall single_choice_result (snd (processFrames state frames)).
Proof.
  revert state. induction frames as [|[now data] frames IH]; intros state;
    [constructor|].
  simpl. pose proof (processFrame_single_choice now state data) as H.
  destruct (processFrame now state data) as [state1 r1].
  specialize (IH state1). destruct (processFrames state1 frames) as [state2 r2].
  apply Forall_app. by split.
Qed.

(** C10: every chunk emitted in streaming mode, by one frame, by one call
    of [processChunk] or over a whole exchange, and every non-streaming
    response, has exactly one choice, and its index is 0. *)
Theorem single_choice :
  (∀ now state data, Forall single_choice_result (snd (processFrame now state data)))
  ∧ (∀ now state lines,
       Forall single_choice_result (snd (processChunk now state lines)))
  ∧ (∀ reads, Forall single_choice_result (snd (streamExchange reads)))
  ∧ (∀ JSON_stringify now r,
       single_choice_response (convertNonStreamingResponse JSON_stringify now r)).
Proof.
  split; [|split; [|split]].
  - apply processFrame_single_choice.
  - intros now state lines. rewrite processChunk_frames.
    apply processFrames_single_choice.
  - intros reads. unfold streamExchange. rewrite processChunks_frames.
    apply processFrames_single_choice.
  - intros S now r. rewrite convertNonStreamingResponse_eq.
    unfold single_choice_response. simpl. eauto.
Qed.

(** ** Tracked arguments and emitted arguments *)

Lemma client_arguments_app (index : Z) (r1 r2 : list ProcessResult) :
  client_arguments index (r1 ++ r2)
  = client_arguments index r1 +:+ client_arguments index r2.
Proof.
  unfold client_arguments, tool_arguments_emitted. rewrite bind_app.
  induction (r1 ≫= _) as [|a l IH]; [done|].
  simpl. by rewrite IH, string_app_assoc.
Qed.

Lemma client_arguments_nil (index : Z) : client_arguments index [] = "".
Proof. done. Qed.

Lemma client_arguments_usage (now : Z) (state : ConverterState) (index : Z) :
  client_arguments index (result_of (createUsageChunk now state)) = "".
Proof. unfold createUsageChunk. by case_match. Qed.

Lemma client_arguments_tool_chunk (now : Z) (state : ConverterState)
    (index j : Z) (id type name : option string) (a : string) :
  client_arguments index
    [chunk (stream_chunk now state
              (mkChunkDelta None None
                 (Some [mkToolCallDelta j id type
                          (Some (mkFunctionDelta name (Some a)))]))
              None None)]
  = if bool_decide (j = index) then a else "".
Proof.
  unfold client_arguments, tool_arguments_emitted, chunk_tool_arguments,
    stream_chunk.
  cbn. case_bool_decide; cbn; [|done]. by rewrite string_app_nil_r.
Qed.

Lemma tracked_set_metricsData (state : ConverterState) (m : MetricsData)
    (index : Z) :
  tracked (set_metricsData state m) index = tracked state index.
Proof. done. Qed.

(** What [transformToOpenAI] emits for a slot is what it appends to the
    arguments tracked for it, unless it opens that slot while it is
    tracked. *)
Lemma transformToOpenAI_tracked_at (now : Z) (state : ConverterState)
    (data : AnthropicStreamEvent) (index : Z) :
  (tool_start_index data = Some index → toolCallsTracker state !! index = None) →
  tracked (fst (transformToOpenAI now state data)) index
  = tracked state index
    +:+ client_arguments index (result_of (snd (transformToOpenAI now state data))).
Proof.
  intros Hfresh. unfold transformToOpenAI, tool_start_index in *.
  destruct (message_start_of data) as [message|];
    [simpl; by rewrite string_app_nil_r|].
  destruct (tool_start_of data) as [content_block|].
  { cbn [fst snd result_of].
    rewrite client_arguments_tool_chunk. unfold tracked. simpl.
    destruct (decide (JS.nullish0 (ev_index data) = index)) as [<-|Hne].
    - rewrite lookup_insert_eq, (Hfresh eq_refl). simpl.
      by rewrite bool_decide_eq_true_2.
    - rewrite lookup_insert_ne by done.
      rewrite bool_decide_eq_false_2 by done.
      by rewrite string_app_nil_r. }
  destruct (partial_json_of data) as [partial_json|].
  { destruct (toolCallsTracker state !! JS.nullish0 (ev_index data))
      as [toolCall|] eqn:Hl; [|simpl; by rewrite string_app_nil_r].
    pose proof (resolve_partial_json_extends (tr_arguments toolCall) partial_json)
      as Hext.
    destruct (resolve_partial_json _ _) as [newPart arguments]. simpl in Hext.
    cbn [fst snd result_of].
    rewrite client_arguments_tool_chunk. unfold tracked. simpl.
    destruct (decide (JS.nullish0 (ev_index data) = index)) as [<-|Hne].
    - rewrite lookup_insert_eq, Hl. simpl.
      by rewrite bool_decide_eq_true_2.
    - rewrite lookup_insert_ne by done.
      rewrite bool_decide_eq_false_2 by done.
      by rewrite string_app_nil_r. }
  destruct (text_of data); [simpl; by rewrite string_app_nil_r|].
  destruct (delta_stop_reason_of data); simpl; by rewrite string_app_nil_r.
Qed.

Lemma transformToOpenAI_tracked (now : Z) (state : ConverterState)
    (data : AnthropicStreamEvent) (index : Z) :
  (∀ j, tool_start_index data = Some j → toolCallsTracker state !! j = None) →
  tracked (fst (transformToOpenAI now state data)) index
  = tracked state index
    +:+ client_arguments index (result_of (snd (transformToOpenAI now state data))).
Proof. intros H. apply transformToOpenAI_tracked_at, H. Qed.

(** Slots are opened by tool starts only. *)
Lemma transformToOpenAI_untracked (now : Z) (state : ConverterState)
    (data : AnthropicStreamEvent) (index : Z) :
  toolCallsTracker state !! index = None →
  tool_start_index data ≠ Some index →
  toolCallsTracker (fst (transformToOpenAI now state data)) !! index = None.
Proof.
  intros Hl Hne. unfold transformToOpenAI, tool_start_index in *.
  destruct (message_start_of data); [done|].
  destruct (tool_start_of data).
  { simpl. rewrite lookup_insert_ne; [done|]. simpl in Hne. congruence. }
  destruct (partial_json_of data).
  { destruct (toolCallsTracker state !! JS.nullish0 (ev_index data)) eqn:Hl';
      [|done].
    destruct (resolve_partial_json _ _). simpl.
    rewrite lookup_insert_ne; [done|]. congruence. }
  destruct (text_of data); [done|].
  by destruct (delta_stop_reason_of data).
Qed.

Lemma skipped_no_tool_start (data : AnthropicStreamEvent) :
  skipped data = true → tool_start_index data = None.
Proof.
  unfold skipped, tool_start_index, tool_start_of. intros H.
  destruct (String.eqb (ev_type data) "content_block_start") eqn:E; [|done].
  apply String.eqb_eq in E. rewrite E in H. simpl in H.
  destruct (ev_content_block data) as [cb|]; [|done].
  apply String.eqb_eq in H. by rewrite H.
Qed.

Lemma processFrame_tracked_at (now : Z) (state : ConverterState)
    (data : AnthropicStreamEvent) (index : Z) :
  (tool_start_index data = Some index → toolCallsTracker state !! index = None) →
  tracked (fst (processFrame now state data)) index
  = tracked state index
    +:+ client_arguments index (snd (processFrame now state data)).
Proof.
  intros Hfresh. destruct (skipped data) eqn:Hs.
  - unfold processFrame. rewrite Hs. simpl. by rewrite string_app_nil_r.
  - rewrite (processFrame_unfold now state data Hs). simpl.
    rewrite transformToOpenAI_tracked_at by done.
    rewrite tracked_set_metricsData, client_arguments_app. f_equal.
    destruct (String.eqb _ _); [|by rewrite string_app_nil_r].
    by rewrite client_arguments_app, client_arguments_usage, string_app_nil_r.
Qed.

Lemma processFrame_tracked (now : Z) (state : ConverterState)
    (data : AnthropicStreamEvent) (index : Z) :
  (∀ j, tool_start_index data = Some j → toolCallsTracker state !! j = None) →
  tracked (fst (processFrame now state data)) index
  = tracked state index
    +:+ client_arguments index (snd (processFrame now state data)).
Proof. intros H. apply processFrame_tracked_at, H. Qed.

Lemma tool_start_not_message_start (data : AnthropicStreamEvent)
    (content_block : AnthropicContentBlock) :
  tool_start_of data = Some content_block →
  message_start_of data = None
  ∧ String.eqb (ev_type data) "message_stop" = false.
Proof.
  unfold tool_start_of, message_start_of.
  destruct (String.eqb (ev_type data) "content_block_start") eqn:E; [|done].
  apply String.eqb_eq in E. by rewrite E.
Qed.

(** An accumulator, once there, stays. *)
Lemma transformToOpenAI_keeps_tracker (now : Z) (state : ConverterState)
    (data : AnthropicStreamEvent) (index : Z) (t : ToolCallTracker) :
  toolCallsTracker state !! index = Some t →
  ∃ t', toolCallsTracker (fst (transformToOpenAI now state data)) !! index
        = Some t'
        ∧ (tool_start_index data ≠ Some index →
           tr_id t' = tr_id t ∧ tr_name t' = tr_name t).
Proof.
  intros Hl. unfold transformToOpenAI, tool_start_index.
  destruct (message_start_of data); [by eauto|].
  destruct (tool_start_of data) as [cb|].
  { simpl. destruct (decide (JS.nullish0 (ev_index data) = index)) as [<-|Hne].
    - rewrite lookup_insert_eq. eexists. split; [done|]. by intros [].
    - rewrite lookup_insert_ne by done. by eauto. }
  destruct (partial_json_of data).
  { destruct (toolCallsTracker state !! JS.nullish0 (ev_index data))
      as [toolCall|] eqn:Hl'; [|by eauto].
    destruct (resolve_partial_json _ _). simpl.
    destruct (decide (JS.nullish0 (ev_index data) = index)) as [<-|Hne].
    - rewrite lookup_insert_eq. eexists. split; [done|]. simpl.
      by simplify_eq.
    - rewrite lookup_insert_ne by done. by eauto. }
  destruct (text_of data); [by eauto|].
  destruct (delta_stop_reason_of data); by eauto.
Qed.

Lemma processFrame_keeps_tracker (now : Z) (state : ConverterState)
    (data : AnthropicStreamEvent) (index : Z) (t : ToolCallTracker) :
  toolCallsTracker state !! index = Some t →
  ∃ t', toolCallsTracker (fst (processFrame now state data)) !! index = Some t'
        ∧ (tool_start_index data ≠ Some index →
           tr_id t' = tr_id t ∧ tr_name t' = tr_name t).
Proof.
  intros Hl. destruct (skipped data) eqn:Hs.
  - unfold processFrame. rewrite Hs. by eauto.
  - rewrite (processFrame_unfold now state data Hs). simpl.
    by apply transformToOpenAI_keeps_tracker.
Qed.

Lemma processFrames_keeps_tracker (frames : list (Z * AnthropicStreamEvent))
    (state : ConverterState) (index : Z) (t : ToolCallTracker) :
  toolCallsTracker state !! index = Some t →
  ∃ t', toolCallsTracker (fst (processFrames state frames)) !! index = Some t'
        ∧ (index ∉ started_indices frames →
           tr_id t' = tr_id t ∧ tr_name t' = tr_name t).
Proof.
  revert state t. induction frames as [|[now data] frames IH]; intros state t Hl.
  - simpl. by eauto.
  - simpl. destruct (processFrame_keeps_tracker now state data index t Hl)
      as (t1 & Hl1 & Hsame1).
    destruct (processFrame now state data) as [state1 r1]. simpl in *.
    destruct (IH state1 t1 Hl1) as (t2 & Hl2 & Hsame2).
    destruct (processFrames state1 frames) as [state2 r2]. simpl in *.
    exists t2. split; [done|]. intros Hnotin.
    unfold started_indices in *. simpl in Hnotin.
    destruct (tool_start_index data) as [j|] eqn:Ej.
    + apply not_elem_of_cons in Hnotin as [Hne Hnotin].
      destruct Hsame1 as [<- <-]; [congruence|]. by apply Hsame2.
    + destruct Hsame1 as [<- <-]; [done|]. by apply Hsame2.
Qed.

(** A tool start for a slot leaves it with empty arguments, whatever was
    tracked for it, and emits the empty text for it. *)
Lemma processFrame_opens (now : Z) (state : ConverterState)
    (data : AnthropicStreamEvent) (index : Z) :
  tool_start_index data = Some index →
  tr_arguments <$> toolCallsTracker (fst (processFrame now state data)) !! index
  = Some ""
  ∧ client_arguments index (snd (processFrame now state data)) = "".
Proof.
  intros H.
  assert (skipped data = false) as Hs.
  { destruct (skipped data) eqn:Hs; [|done].
    apply skipped_no_tool_start in Hs. congruence. }
  rewrite (processFrame_unfold now state data Hs).
  unfold tool_start_index in H.
  destruct (tool_start_of data) as [content_block|] eqn:Et; [|done].
  simpl in H. injection H as <-.
  destruct (tool_start_not_message_start data content_block Et) as [Em Ems].
  unfold transformToOpenAI. rewrite Em, Et, Ems. cbn [fst snd result_of].
  rewrite app_nil_r, client_arguments_tool_chunk.
  rewrite bool_decide_eq_true_2 by done. simpl.
  by rewrite lookup_insert_eq.
Qed.

(** Over a run of frames that does not open a slot, what is emitted for
    the slot is what gets appended to the arguments tracked for it. *)
Lemma processFrames_tracked_since (frames : list (Z * AnthropicStreamEvent))
    (state : ConverterState) (index : Z) :
  index ∉ started_indices frames →
  tracked (fst (processFrames state frames)) index
  = tracked state index
    +:+ client_arguments index (snd (processFrames state frames)).
Proof.
  revert state. induction frames as [|[now data] frames IH]; intros state Hnot.
  - simpl. by rewrite string_app_nil_r.
  - simpl. unfold started_indices in *. simpl in Hnot.
    assert (tool_start_index data ≠ Some index
            ∧ index ∉ omap (λ frame, tool_start_index (snd frame)) frames)
      as [Hne Hnot'].
    { destruct (tool_start_index data) as [j|]; [|done].
      apply not_elem_of_cons in Hnot as [Hne Hnot]. split; [congruence|done]. }
    pose proof (processFrame_tracked_at now state data index
                  (λ E, False_ind _ (Hne E))) as H1.
    destruct (processFrame now state data) as [state1 r1]. simpl in *.
    specialize (IH state1 Hnot'). rewrite H1 in IH.
    destruct (processFrames state1 frames) as [state2 r2]. simpl in *.
    by rewrite client_arguments_app, <- string_app_assoc.
Qed.

Lemma processFrame_untracked (now : Z) (state : ConverterState)
    (data : AnthropicStreamEvent) (index : Z) :
  toolCallsTracker state !! index = None →
  tool_start_index data ≠ Some index →
  toolCallsTracker (fst (processFrame now state data)) !! index = None.
Proof.
  intros Hl Hne. destruct (skipped data) eqn:Hs.
  - unfold processFrame. by rewrite Hs.
  - rewrite (processFrame_unfold now state data Hs). simpl.
    by apply transformToOpenAI_untracked.
Qed.

(** Over a run of frames that opens no slot twice, and none that is
    already tracked, what is emitted for a slot is what gets appended to
    the arguments tracked for it. *)
Lemma processFrames_tracked (frames : list (Z * AnthropicStreamEvent))
    (state : ConverterState) (index : Z) :
  NoDup (started_indices frames) →
  (∀ j, j ∈ started_indices frames → toolCallsTracker state !! j = None) →
  tracked (fst (processFrames state frames)) index
  = tracked state index
    +:+ client_arguments index (snd (processFrames state frames)).
Proof.
  revert state. induction frames as [|[now data] frames IH];
    intros state Hnd Hfresh.
  - simpl. by rewrite string_app_nil_r.
  - simpl. unfold started_indices in *. simpl in Hnd, Hfresh.
    pose proof (processFrame_tracked now state data index) as H1.
    pose proof (λ j, processFrame_untracked now state data j) as H2.
    destruct (processFrame now state data) as [state1 r1]. simpl in *.
    specialize (IH state1).
    destruct (tool_start_index data) as [j0|] eqn:Ej.
    + apply NoDup_cons in Hnd as [Hnotin Hnd].
      rewrite H1 in IH by (intros j [= <-]; apply Hfresh; left).
      destruct (processFrames state1 frames) as [state2 r2]. simpl in *.
      rewrite client_arguments_app, <- string_app_assoc. apply IH; [done|].
      intros j Hj. apply H2; [apply Hfresh; by right|].
      intros [= ->]. done.
    + rewrite H1 in IH by done.
      destruct (processFrames state1 frames) as [state2 r2]. simpl in *.
      rewrite client_arguments_app, <- string_app_assoc. apply IH; [done|].
      intros j Hj. apply H2; [by apply Hfresh|done].
Qed.

(** C9: every frame that does not open a tool-call index appends to the
    arguments stored for it exactly what it emits for it, in the cumulative
    branch and in the fragment branch alike; a [content_block_start] of a
    tool block at the index sets the stored arguments to the empty text,
    whatever they were, and emits the empty text.  So the arguments stored
    for an index are, at every point of an exchange, the texts emitted for
    it since it was last opened, joined in order of emission; and in an
    exchange that opens no index twice they are all the texts emitted for
    it: what the client has received (nothing was emitted for an index
    without accumulator). *)
Theorem tracked_arguments_are_emitted :
  (∀ b f, snd (resolve_partial_json b f) = b +:+ fst (resolve_partial_json b f))
  ∧ (∀ now state data index,
       (∀ j, tool_start_index data = Some j →
             toolCallsTracker state !! j = None) →
       tracked (fst (processFrame now state data)) index
       = tracked state index
         +:+ client_arguments index (snd (processFrame now state data)))
  ∧ (∀ reads index,
       NoDup (started_indices (frames_read reads)) →
       match toolCallsTracker (fst (streamExchange reads)) !! index with
       | Some toolCall =>
           tr_arguments toolCall
           = client_arguments index (snd (streamExchange reads))
       | None => client_arguments index (snd (streamExchange reads)) = ""
       end)
  ∧ (∀ now state data index,
       tool_start_index data ≠ Some index →
       tracked (fst (processFrame now state data)) index
       = tracked state index
         +:+ client_arguments index (snd (processFrame now state data)))
  ∧ (∀ now state data index,
       tool_start_index data = Some index →
       tr_arguments
         <$> toolCallsTracker (fst (processFrame now state data)) !! index
       = Some ""
       ∧ client_arguments index (snd (processFrame now state data)) = "")
  ∧ (∀ reads now data later index,
       tool_start_index data = Some index →
       index ∉ started_indices (frames_read later) →
       let opened := fst (streamExchange (reads ++ [(now, [Some data])])) in
       tr_arguments
         <$> toolCallsTracker
               (fst (streamExchange (reads ++ [(now, [Some data])] ++ later)))
             !! index
       = Some (client_arguments index (snd (processChunks opened later)))).
Proof.
  split; [apply resolve_partial_json_extends|].
  split; [apply processFrame_tracked|].
  split; [|split; [|split]].
  - intros reads index Hnd. unfold streamExchange. rewrite processChunks_frames.
    pose proof (processFrames_tracked (frames_read reads) createConverterState
                  index Hnd (λ j _, lookup_empty j)) as H.
    unfold tracked in H. simpl in H.
    by destruct (toolCallsTracker _ !! index).
  - intros now state data index Hne. apply processFrame_tracked_at. done.
  - apply processFrame_opens.
  - intros reads now data later index Ho Hnot. cbv zeta.
    unfold streamExchange.
    rewrite !processChunks_frames, !frames_read_app, app_assoc.
    rewrite (processFrames_app _ (frames_read reads ++ _) (frames_read later)).
    cbn [fst].
    pose proof (processFrames_tracked_since (frames_read later)
                  (fst (processFrames createConverterState
                          (frames_read reads ++ frames_read [(now, [Some data])])))
                  index Hnot) as H.
    rewrite processFrames_app in H. cbn [fst snd] in H.
    rewrite processFrames_app. cbn [fst snd].
    change (frames_read [(now, [Some data])]) with [(now, data)] in *.
    cbn [processFrames] in *.
    destruct (processFrame_opens now
                (fst (processFrames createConverterState (frames_read reads)))
                data index Ho) as [Hopen _].
    destruct (processFrame now _ data) as [state1 r1]. cbn [fst snd] in *.
    unfold tracked in H.
    destruct (toolCallsTracker state1 !! index) as [t1|] eqn:E1; [|done].
    simpl in Hopen, H. injection Hopen as Hopen. rewrite Hopen in H.
    destruct (processFrames_keeps_tracker (frames_read later) state1 index t1 E1)
      as (t2 & E2 & _).
    rewrite E2 in *. simpl in *. by rewrite H.
Qed.

Lemma tracked_arguments_are_emitted_witness :
  match toolCallsTracker (fst (streamExchange sample_reads)) !! 0 with
  | Some toolCall =>
      tr_arguments toolCall = client_arguments 0 (snd (streamExchange sample_reads))
  | None => client_arguments 0 (snd (streamExchange sample_reads)) = ""
  end
  ∧ tr_arguments
      <$> toolCallsTracker
            (fst (streamExchange
                    (sample_reads ++ [(2, [Some (tool_start_frame 0 "t2" "lookup")])]
                     ++ [(3, [Some (json_delta_frame 0 "gh")])])))
          !! 0
    = Some "gh".
Proof.
  split.
  - apply (proj1 (proj2 (proj2 tracked_arguments_are_emitted)) sample_reads 0).
    assert (started_indices (frames_read sample_reads) = [0]) as -> by reflexivity.
    apply NoDup_singleton.
  - apply (proj2 (proj2 (proj2 (proj2 (proj2 tracked_arguments_are_emitted))))
             sample_reads 2 (tool_start_frame 0 "t2" "lookup")
             [(3, [Some (json_delta_frame 0 "gh")])] 0);
      [reflexivity|].
    assert (started_indices (frames_read [(3, [Some (json_delta_frame 0 "gh")])])
            = []) as -> by reflexivity.
    apply not_elem_of_nil.
Defined.

(** The sample exchange, run: the client received abcdef, as tracked. *)
Example sample_reads_run :
  tr_arguments <$> toolCallsTracker (fst (streamExchange sample_reads)) !! 0
  = Some "abcdef"
  ∧ tool_arguments_emitted 0 (snd (streamExchange sample_reads))
    = [""; "ab"; "cd"; "ef"].
Proof. split; reflexivity. Qed.

(** Why each index is to be opened once: a second [content_block_start]
    for a tracked index overwrites its accumulator, while the client keeps
    what it received. *)
Example restart_resets_accumulator :
  tr_arguments <$> toolCallsTracker (fst (streamExchange restarted_reads)) !! 0
  = Some ""
  ∧ client_arguments 0 (snd (streamExchange restarted_reads)) = "abcdef".
Proof. split; reflexivity. Qed.

(** C9 as stated fails when an index is opened a second time: the
    second [content_block_start] empties the stored arguments while the
    client keeps the abcdef it received, and after one more fragment the
    accumulator holds gh where the client has rebuilt abcdefgh. *)
Lemma reopened_index_forgets_arguments :
  started_indices (frames_read reopened_reads) = [0; 0]
  ∧ tr_arguments <$> toolCallsTracker (fst (streamExchange restarted_reads)) !! 0
    = Some ""
  ∧ client_arguments 0 (snd (streamExchange restarted_reads)) = "abcdef"
  ∧ tr_arguments <$> toolCallsTracker (fst (streamExchange reopened_reads)) !! 0
    = Some "gh"
  ∧ client_arguments 0 (snd (streamExchange reopened_reads)) = "abcdefgh".
Proof. repeat split. Qed.

(** ** The counters over an exchange *)

Lemma processFrame_counters (now : Z) (state : ConverterState)
    (data : AnthropicStreamEvent) :
  let m := metricsData state in
  let m' := metricsData (fst (processFrame now state data)) in
  let counted f := if skipped data then 0 else f data in
  input_tokens m' = input_tokens m + counted frame_input_tokens
  ∧ output_tokens m' = output_tokens m + counted frame_output_tokens.
Proof.
  simpl. destruct (skipped data) eqn:Hs.
  - unfold processFrame. rewrite Hs. simpl. lia.
  - destruct (processFrame_absorbs now state data Hs) as (H1 & H2 & _).
    simpl in *. by rewrite H1, H2.
Qed.

Lemma processFrames_counters (state : ConverterState)
    (frames : list (Z * AnthropicStreamEvent)) :
  let m := metricsData state in
  let m' := metricsData (fst (processFrames state frames)) in
  let absorbed := List.filter (λ data, negb (skipped data)) (snd <$> frames) in
  input_tokens m' = input_tokens m + sum_of frame_input_tokens absorbed
  ∧ output_tokens m' = output_tokens m + sum_of frame_output_tokens absorbed.
Proof.
  revert state. induction frames as [|[now data] frames IH]; intros state.
  - simpl. unfold sum_of. simpl. lia.
  - simpl. pose proof (processFrame_counters now state data) as H.
    destruct (processFrame now state data) as [state1 r1]. simpl in H.
    specialize (IH state1). simpl in IH.
    destruct (processFrames state1 frames) as [state2 r2]. simpl in *.
    destruct IH as [-> ->]. destruct H as [-> ->].
    unfold sum_of.
    destruct (skipped data); simpl;
      change (list_fmap (Z * AnthropicStreamEvent)%type AnthropicStreamEvent
                snd frames) with (snd <$> frames);
      lia.
Qed.

(** Over an exchange, the counters hold the sums over the frames that are
    not of a dropped kind. *)
Lemma exchange_counters (reads : list (Z * list (option AnthropicStreamEvent))) :
  input_tokens (metricsData (fst (streamExchange reads)))
  = sum_of frame_input_tokens (absorbed_frames reads)
  ∧ output_tokens (metricsData (fst (streamExchange reads)))
    = sum_of frame_output_tokens (absorbed_frames reads).
Proof.
  unfold streamExchange, absorbed_frames. rewrite processChunks_frames.
  destruct (processFrames_counters createConverterState (frames_read reads))
    as [-> ->].
  done.
Qed.

Lemma sum_of_app (f : AnthropicStreamEvent → Z)
    (l1 l2 : list AnthropicStreamEvent) :
  sum_of f (l1 ++ l2) = sum_of f l1 + sum_of f l2.
Proof. unfold sum_of. induction l1 as [|data l1 IH]; simpl; lia. Qed.

Lemma absorbed_frames_app
    (r1 r2 : list (Z * list (option AnthropicStreamEvent))) :
  absorbed_frames (r1 ++ r2) = absorbed_frames r1 ++ absorbed_frames r2.
Proof.
  unfold absorbed_frames. by rewrite frames_read_app, fmap_app, List.filter_app.
Qed.

(** The sum over the frames that are not dropped is the sum over all the
    frames when the dropped ones carry nothing. *)
Lemma sum_of_absorbed (f : AnthropicStreamEvent → Z)
    (frames : list AnthropicStreamEvent) :
  Forall (λ data, skipped data = true → f data = 0) frames →
  sum_of f (List.filter (λ data, negb (skipped data)) frames) = sum_of f frames.
Proof.
  unfold sum_of. induction 1 as [|data frames H _ IH]; [done|].
  simpl. destruct (skipped data); simpl; [rewrite H by done|]; lia.
Qed.

(** C4: over every exchange, the aggregated [input_tokens] and
    [output_tokens] are the sums of the values carried by the frames of
    the exchange that are not of a dropped kind ([ping],
    [content_block_stop], [content_block_start] of a text block): every
    such frame adds what it carries to the running totals, a frame that
    comes twice counting twice, and a frame of a dropped kind adds
    nothing.  The totals are the sums over every frame of the exchange
    when no dropped frame carries usage.  The values carried being counts
    (not negative), no counter decreases as the exchange goes on. *)
Theorem usage_additivity :
  (∀ reads,
     input_tokens (metricsData (fst (streamExchange reads)))
     = sum_of frame_input_tokens (absorbed_frames reads)
     ∧ output_tokens (metricsData (fst (streamExchange reads)))
       = sum_of frame_output_tokens (absorbed_frames reads))
  ∧ (∀ now state data,
       input_tokens (metricsData (fst (processFrame now state data)))
       = input_tokens (metricsData state)
         + (if skipped data then 0 else frame_input_tokens data)
       ∧ output_tokens (metricsData (fst (processFrame now state data)))
         = output_tokens (metricsData state)
           + (if skipped data then 0 else frame_output_tokens data))
  ∧ (∀ reads now data,
       skipped data = false →
       let twice := reads ++ [(now, [Some data; Some data])] in
       input_tokens (metricsData (fst (streamExchange twice)))
       = input_tokens (metricsData (fst (streamExchange reads)))
         + 2 * frame_input_tokens data
       ∧ output_tokens (metricsData (fst (streamExchange twice)))
         = output_tokens (metricsData (fst (streamExchange reads)))
           + 2 * frame_output_tokens data)
  ∧ (∀ reads,
       Forall (λ data, skipped data = true →
                 frame_input_tokens data = 0 ∧ frame_output_tokens data = 0)
         (snd <$> frames_read reads) →
       input_tokens (metricsData (fst (streamExchange reads)))
       = sum_of frame_input_tokens (snd <$> frames_read reads)
       ∧ output_tokens (metricsData (fst (streamExchange reads)))
         = sum_of frame_output_tokens (snd <$> frames_read reads))
  ∧ (∀ reads more,
       Forall frame_nonneg (absorbed_frames more) →
       input_tokens (metricsData (fst (streamExchange reads)))
       ≤ input_tokens (metricsData (fst (streamExchange (reads ++ more))))
       ∧ output_tokens (metricsData (fst (streamExchange reads)))
         ≤ output_tokens (metricsData (fst (streamExchange (reads ++ more))))).
Proof.
  split; [apply exchange_counters|].
  split; [intros now state data; apply (processFrame_counters now state data)|].
  split; [|split].
  - intros reads now data Hs. cbv zeta.
    destruct (exchange_counters (reads ++ [(now, [Some data; Some data])]))
      as [-> ->].
    destruct (exchange_counters reads) as [-> ->].
    rewrite absorbed_frames_app, !sum_of_app.
    unfold absorbed_frames, frames_read, sum_of. simpl. rewrite Hs. simpl. lia.
  - intros reads H.
    destruct (exchange_counters reads) as [-> ->]. unfold absorbed_frames.
    split; apply sum_of_absorbed; eapply Forall_impl; [exact H| |exact H|];
      simpl; intros data Hd Hs; by destruct (Hd Hs).
  - intros reads more H.
    destruct (exchange_counters (reads ++ more)) as [-> ->].
    destruct (exchange_counters reads) as [-> ->].
    rewrite absorbed_frames_app, !sum_of_app.
    pose proof (sum_of_nonneg _ H). lia.
Qed.

Lemma usage_additivity_witness :
  input_tokens (metricsData (fst (streamExchange [(0, [Some usage_frame])])))
  ≤ input_tokens
      (metricsData
         (fst (streamExchange ([(0, [Some usage_frame])] ++ dropped_usage_reads))))
  ∧ input_tokens (metricsData (fst (streamExchange [(0, [Some usage_frame])])))
    = sum_of frame_input_tokens (snd <$> frames_read [(0, [Some usage_frame])]).
Proof.
  split.
  - apply (proj2 (proj2 (proj2 (proj2 usage_additivity)))
             [(0, [Some usage_frame])] dropped_usage_reads).
    constructor; [|constructor]. cbv. intuition discriminate.
  - apply (proj1 (proj2 (proj2 (proj2 usage_additivity)))
             [(0, [Some usage_frame])]).
    constructor; [|constructor]. discriminate.
Defined.

(** C4 as stated fails on a frame of a dropped kind that carries usage:
    over the exchange of a [ping] carrying 5 and 7 and a [message_delta]
    carrying 3 and 4, the frames sum to 8 and 11 while the counters end at
    3 and 4.  And a number below zero in a usage field makes a counter
    decrease: the additions are not guarded. *)
Lemma dropped_usage_is_not_summed :
  sum_of frame_input_tokens (snd <$> frames_read dropped_usage_reads) = 8
  ∧ sum_of frame_output_tokens (snd <$> frames_read dropped_usage_reads) = 11
  ∧ input_tokens (metricsData (fst (streamExchange dropped_usage_reads))) = 3
  ∧ output_tokens (metricsData (fst (streamExchange dropped_usage_reads))) = 4
  ∧ input_tokens (metricsData (fst (streamExchange [(0, [Some usage_frame])]))) = 3
  ∧ input_tokens
      (metricsData
         (fst (streamExchange
                 [(0, [Some usage_frame]); (1, [Some negative_usage_frame])])))
    = 1.
Proof. repeat split. Qed.

(** * Further properties of the converter *)

(** ** The id of the chunks *)

Lemma updateMetrics_openAIId (m : MetricsData) (data : AnthropicStreamEvent) :
  openAIId (updateMetrics m data) = openAIId m.
Proof.
  unfold updateMetrics. cbv zeta.
  assert (∀ m, openAIId (absorb_message_start m data) = openAIId m) as H1
    by (intros; unfold absorb_message_start; by repeat case_match).
  assert (∀ m, openAIId (absorb_model m data) = openAIId m) as H2
    by (intros; unfold absorb_model; by repeat case_match).
  assert (∀ m, openAIId (absorb_stop_reason m data) = openAIId m) as H3
    by (intros; unfold absorb_stop_reason; by repeat case_match).
  assert (∀ m, openAIId (absorb_delta_stop_reason m data) = openAIId m) as H4
    by (intros; unfold absorb_delta_stop_reason; by repeat case_match).
  assert (∀ m, openAIId (absorb_usage m data) = openAIId m) as H5
    by (intros; unfold absorb_usage; by repeat case_match).
  assert (∀ m, openAIId (absorb_message_usage m data) = openAIId m) as H6
    by (intros; unfold absorb_message_usage; by repeat case_match).
  assert (∀ m, openAIId (absorb_message_stop_reason m data) = openAIId m) as H7
    by (intros; unfold absorb_message_stop_reason; by repeat case_match).
  by rewrite H7, H6, H5, H4, H3, H2, H1.
Qed.

Lemma chunk_id_known (now : Z) (state : ConverterState) (id : string) :
  openAIId (metricsData state) = Some id → id ≠ "" → chunk_id now state = id.
Proof.
  intros H Hne%truthy_true. unfold chunk_id, JS.opt_or, JS.str_or.
  by rewrite H, Hne.
Qed.

(** A frame that is no [message_start] keeps the id, and what it emits
    carries it. *)
Lemma transformToOpenAI_id (now : Z) (state : ConverterState)
    (data : AnthropicStreamEvent) (id : string) :
  message_start_of data = None →
  openAIId (metricsData state) = Some id → id ≠ "" →
  openAIId (metricsData (fst (transformToOpenAI now state data))) = Some id
  ∧ Forall (result_has_id id) (result_of (snd (transformToOpenAI now state data))).
Proof.
  intros Hm Hid Hne. unfold transformToOpenAI. rewrite Hm.
  pose proof (λ st H, chunk_id_known now st id H Hne) as Hc.
  repeat case_match; simpl; (split; [done|]); repeat constructor; simpl;
    by apply Hc.
Qed.

Lemma skipped_not_message_start (data : AnthropicStreamEvent) :
  skipped data = true → message_start_of data = None.
Proof.
  unfold skipped, message_start_of. intros H.
  destruct (String.eqb (ev_type data) "message_start") eqn:E; [|done].
  apply String.eqb_eq in E. by rewrite E in H.
Qed.

Lemma processFrame_id (now : Z) (state : ConverterState)
    (data : AnthropicStreamEvent) (id : string) :
  message_start_of data = None →
  openAIId (metricsData state) = Some id → id ≠ "" →
  openAIId (metricsData (fst (processFrame now state data))) = Some id
  ∧ Forall (result_has_id id) (snd (processFrame now state data)).
Proof.
  intros Hm Hid Hne. destruct (skipped data) eqn:Hs.
  - unfold processFrame. rewrite Hs. by split.
  - rewrite (processFrame_unfold now state data Hs). simpl.
    destruct (transformToOpenAI_id now
                (set_metricsData state (updateMetrics (metricsData state) data))
                data id Hm) as [H1 H2]; [|done|].
    { simpl. by rewrite updateMetrics_openAIId. }
    split; [done|]. apply Forall_app. split; [done|].
    destruct (String.eqb _ _); [|constructor].
    apply Forall_app. split; [|by repeat constructor].
    unfold createUsageChunk. case_match; simpl; [constructor|].
    repeat constructor. simpl. by apply chunk_id_known.
Qed.

Lemma processFrames_id (state : ConverterState)
    (frames : list (Z * AnthropicStreamEvent)) (id : string) :
  Forall (λ frame, message_start_of (snd frame) = None) frames →
  openAIId (metricsData state) = Some id → id ≠ "" →
  openAIId (metricsData (fst (processFrames state frames))) = Some id
  ∧ Forall (result_has_id id) (snd (processFrames state frames)).
Proof.
  intros Hall. revert state.
  induction Hall as [|[now data] frames Hm _ IH]; intros state Hid Hne;
    [by split|].
  simpl in *. destruct (processFrame_id now state data id Hm Hid Hne) as [H1 H2].
  destruct (processFrame now state data) as [state1 r1]. simpl in *.
  destruct (IH state1 H1 Hne) as [H3 H4].
  destruct (processFrames state1 frames) as [state2 r2]. simpl in *.
  split; [done|]. by apply Forall_app.
Qed.

Lemma message_start_of_Some (data : AnthropicStreamEvent)
    (message : AnthropicMessage) :
  ev_type data = "message_start" → ev_message data = Some message →
  message_start_of data = Some message ∧ skipped data = false.
Proof.
  intros Ht Hm. unfold message_start_of, skipped. by rewrite Ht, Hm.
Qed.

(** The role announcement. *)
Lemma processFrame_message_start (now : Z) (state : ConverterState)
    (data : AnthropicStreamEvent) (message : AnthropicMessage) :
  ev_type data = "message_start" → ev_message data = Some message →
  let id := "chatcmpl-" +:+ JS.replace (msg_id message) "msg_" "" in
  processFrame now state data =
    (set_metricsData state
       (set_openAIId (updateMetrics (metricsData state) data) id),
     [chunk (mkChunk id "chat.completion.chunk" (now / 1000) (msg_model message)
               [mkStreamChoice 0 (mkChunkDelta (Some "assistant") (Some "") None)
                  None]
               None)]).
Proof.
  intros Ht Hm. simpl.
  destruct (message_start_of_Some data message Ht Hm) as [H1 Hs].
  rewrite (processFrame_unfold now state data Hs). simpl.
  unfold transformToOpenAI. rewrite H1, Ht. done.
Qed.

(** X1: once a [message_start] frame has been processed, every chunk of
    the exchange, its own included, carries the id made of the upstream
    message id, up to the next [message_start]. *)
Theorem chunk_ids_follow_message_start (state : ConverterState)
    (reads : list (Z * list (option AnthropicStreamEvent)))
    (now : Z) (data : AnthropicStreamEvent) (message : AnthropicMessage)
    (frames : list (Z * AnthropicStreamEvent)) :
  frames_read reads = (now, data) :: frames →
  ev_type data = "message_start" → ev_message data = Some message →
  Forall (λ frame, message_start_of (snd frame) = None) frames →
  let id := "chatcmpl-" +:+ JS.replace (msg_id message) "msg_" "" in
  Forall (result_has_id id) (snd (processChunks state reads))
  ∧ openAIId (metricsData (fst (processChunks state reads))) = Some id.
Proof.
  intros Hr Ht Hm Hall. simpl. rewrite processChunks_frames, Hr. simpl.
  rewrite (processFrame_message_start now state data message Ht Hm).
  destruct (processFrames_id
              (set_metricsData state
                 (set_openAIId (updateMetrics (metricsData state) data)
                    ("chatcmpl-" +:+ JS.replace (msg_id message) "msg_" "")))
              frames ("chatcmpl-" +:+ JS.replace (msg_id message) "msg_" "")
              Hall eq_refl) as [H1 H2]; [done|].
  destruct (processFrames _ frames) as [state2 r2]. simpl in *.
  split; [|done]. by constructor.
Qed.

Lemma chunk_ids_follow_message_start_witness :
  Forall (result_has_id "chatcmpl-01")
    (snd (processChunks createConverterState
            [(5, [Some (message_start_frame "msg_01" "claude")]);
             (6, [Some (text_delta_frame "Hi"); Some message_stop_frame])]))
  ∧ openAIId
      (metricsData
         (fst (processChunks createConverterState
                 [(5, [Some (message_start_frame "msg_01" "claude")]);
                  (6, [Some (text_delta_frame "Hi"); Some message_stop_frame])])))
    = Some "chatcmpl-01".
Proof.
  apply (chunk_ids_follow_message_start createConverterState
           [(5, [Some (message_start_frame "msg_01" "claude")]);
            (6, [Some (text_delta_frame "Hi"); Some message_stop_frame])]
           5 (message_start_frame "msg_01" "claude")
           (mkMessage "msg_01" "claude" None None)
           [(6, text_delta_frame "Hi"); (6, message_stop_frame)]);
    [reflexivity|reflexivity|reflexivity|].
  repeat constructor.
Defined.

(** ** The translation of the message id *)

Lemma replace_unfold (s pat rep : string) :
  JS.replace s pat rep =
    if JS.startsWith s pat then rep +:+ JS.substring s (String.length pat)
    else
      match s with
      | EmptyString => EmptyString
      | String c s' => String c (JS.replace s' pat rep)
      end.
Proof. by destruct s. Qed.

Lemma replace_prefix (pat x rep : string) :
  JS.replace (pat +:+ x) pat rep = rep +:+ x.
Proof. by rewrite replace_unfold, startsWith_app, substring_app. Qed.

Lemma replace_not_included (s pat rep : string) :
  JS.includes s pat = false → JS.replace s pat rep = s.
Proof.
  induction s as [|c s IH]; intros H; rewrite replace_unfold; simpl in H;
    apply orb_false_iff in H as [-> H]; [done|].
  by rewrite IH.
Qed.

(** X2: the id given to the client.  A [message_start] frame emits exactly
    one chunk, the role announcement (role assistant, empty content, the
    model of the message), whose id is [chatcmpl-] followed by the upstream
    id with its first [msg_] removed; the non-streaming response gets the
    same id from a present, non-empty upstream id, and one made of the
    clock otherwise.  So [msg_X] becomes [chatcmpl-X], and an id without
    [msg_] is kept whole. *)
Theorem message_id_translation :
  (∀ now state data message,
     ev_type data = "message_start" → ev_message data = Some message →
     snd (processFrame now state data) =
       [chunk (mkChunk ("chatcmpl-" +:+ JS.replace (msg_id message) "msg_" "")
                 "chat.completion.chunk" (now / 1000) (msg_model message)
                 [mkStreamChoice 0
                    (mkChunkDelta (Some "assistant") (Some "") None) None]
                 None)])
  ∧ (∀ JSON_stringify now r id,
       r_id r = Some id → id ≠ "" →
       or_id (convertNonStreamingResponse JSON_stringify now r)
       = "chatcmpl-" +:+ JS.replace id "msg_" "")
  ∧ (∀ JSON_stringify now r,
       JS.truthy_opt (r_id r) = false →
       or_id (convertNonStreamingResponse JSON_stringify now r)
       = "chatcmpl-" +:+ JS.replace (pretty now) "msg_" "")
  ∧ (∀ x, JS.replace ("msg_" +:+ x) "msg_" "" = x)
  ∧ (∀ id, JS.includes id "msg_" = false → JS.replace id "msg_" "" = id).
Proof.
  split; [|split; [|split; [|split]]].
  - intros now state data message Ht Hm.
    by rewrite (processFrame_message_start now state data message Ht Hm).
  - intros S now r id Hid Hne%truthy_true.
    rewrite convertNonStreamingResponse_eq. simpl.
    unfold JS.opt_or, JS.str_or. by rewrite Hid, Hne.
  - intros S now r Hf. rewrite convertNonStreamingResponse_eq. simpl.
    unfold JS.opt_or, JS.str_or. destruct (r_id r) as [id|]; [|done].
    simpl in Hf. by rewrite Hf.
  - intros x. apply (replace_prefix "msg_" x "").
  - intros id. apply replace_not_included.
Qed.

Lemma message_id_translation_witness :
  or_id (convertNonStreamingResponse no_stringify 0 lookup_response)
  = "chatcmpl-1"
  ∧ JS.replace "req_7" "msg_" "" = "req_7".
Proof.
  split.
  - rewrite (proj1 (proj2 message_id_translation) no_stringify 0
               lookup_response "msg_1"); [reflexivity|reflexivity|discriminate].
  - apply (proj2 (proj2 (proj2 (proj2 message_id_translation)))). reflexivity.
Defined.

(** ** Frames by kind *)

Lemma known_kind_false (data : AnthropicStreamEvent) :
  known_kind (ev_type data) = false →
  message_start_of data = None ∧ tool_start_of data = None
  ∧ partial_json_of data = None ∧ text_of data = None
  ∧ delta_stop_reason_of data = None
  ∧ String.eqb (ev_type data) "message_stop" = false.
Proof.
  unfold known_kind. rewrite !orb_false_iff. intros ((((H1 & H2) & H3) & H4) & H5).
  unfold message_start_of, tool_start_of, partial_json_of, text_of,
    delta_stop_reason_of.
  by rewrite H1, H2, H3, H4, H5.
Qed.

(** X9: a frame of a kind the converter does not know (an upstream
    [error] event, say), and a [message_start] frame without message, emit
    nothing and leave the accumulators as they are. *)
Theorem unknown_frames_emit_nothing (now : Z) (state : ConverterState)
    (data : AnthropicStreamEvent) :
  known_kind (ev_type data) = false
  ∨ (ev_type data = "message_start" ∧ ev_message data = None) →
  snd (processFrame now state data) = []
  ∧ toolCallsTracker (fst (processFrame now state data)) = toolCallsTracker state.
Proof.
  intros H.
  assert (message_start_of data = None ∧ tool_start_of data = None
          ∧ partial_json_of data = None ∧ text_of data = None
          ∧ delta_stop_reason_of data = None
          ∧ String.eqb (ev_type data) "message_stop" = false)
    as (H1 & H2 & H3 & H4 & H5 & H6).
  { destruct H as [H|[Ht Hm]]; [by apply known_kind_false|].
    unfold message_start_of, tool_start_of, partial_json_of, text_of,
      delta_stop_reason_of.
    by rewrite Ht, Hm. }
  destruct (skipped data) eqn:Hs.
  - unfold processFrame. by rewrite Hs.
  - rewrite (processFrame_unfold now state data Hs). simpl.
    unfold transformToOpenAI. by rewrite H1, H2, H3, H4, H5, H6.
Qed.

Lemma unknown_frames_emit_nothing_witness :
  snd (processFrame 0 createConverterState
         (mkEvent "error" None None None None None None None)) = []
  ∧ toolCallsTracker
      (fst (processFrame 0 createConverterState
              (mkEvent "error" None None None None None None None)))
    = toolCallsTracker createConverterState.
Proof.
  apply (unknown_frames_emit_nothing 0 createConverterState
           (mkEvent "error" None None None None None None None)).
  left. reflexivity.
Defined.

(** ** Text content *)

Lemma client_content_app (r1 r2 : list ProcessResult) :
  client_content (r1 ++ r2) = client_content r1 +:+ client_content r2.
Proof.
  unfold client_content. rewrite fmap_app.
  induction (_ <$> r1) as [|a l IH]; [done|].
  simpl. by rewrite IH, string_app_assoc.
Qed.

Lemma client_content_chunk (id object model : string) (created index : Z)
    (delta : ChunkDelta) (finish : option string) (usage : option OpenAIUsage) :
  client_content
    [chunk (mkChunk id object created model [mkStreamChoice index delta finish]
              usage)]
  = default "" (cd_content delta).
Proof.
  unfold client_content, chunk_content. cbn. by rewrite !string_app_nil_r.
Qed.

Lemma client_content_usage (now : Z) (state : ConverterState) :
  client_content (result_of (createUsageChunk now state)) = "".
Proof.
  unfold createUsageChunk. case_match; [done|].
  unfold stream_chunk. simpl. by rewrite client_content_chunk.
Qed.

Lemma transformToOpenAI_content (now : Z) (state : ConverterState)
    (data : AnthropicStreamEvent) :
  client_content (result_of (snd (transformToOpenAI now state data)))
  = frame_text data.
Proof.
  unfold transformToOpenAI, frame_text, message_start_of, tool_start_of,
    partial_json_of, text_of, delta_stop_reason_of, stream_chunk.
  destruct (String.eqb (ev_type data) "content_block_delta") eqn:E.
  - apply String.eqb_eq in E. rewrite E. simpl.
    destruct (ev_delta data) as [d|]; simpl; [|done].
    destruct (d_partial_json d) as [f|]; simpl.
    + destruct (JS.truthy f); simpl.
      * destruct (toolCallsTracker state !! _); [|done].
        destruct (resolve_partial_json _ _). simpl.
        by rewrite client_content_chunk.
      * destruct (d_text d) as [t|]; simpl; [|done].
        destruct t; simpl; [done|]. by rewrite client_content_chunk.
    + destruct (d_text d) as [t|]; simpl; [|done].
      destruct t; simpl; [done|]. by rewrite client_content_chunk.
  - repeat case_match; simpl; rewrite ?client_content_chunk; try done.
Qed.

Lemma skipped_no_text (data : AnthropicStreamEvent) :
  skipped data = true → frame_text data = "".
Proof.
  unfold skipped, frame_text. intros H.
  destruct (String.eqb (ev_type data) "content_block_delta") eqn:E; [|done].
  apply String.eqb_eq in E. by rewrite E in H.
Qed.

Lemma processFrame_content (now : Z) (state : ConverterState)
    (data : AnthropicStreamEvent) :
  client_content (snd (processFrame now state data)) = frame_text data.
Proof.
  destruct (skipped data) eqn:Hs.
  - rewrite skipped_no_text by done. unfold processFrame. by rewrite Hs.
  - rewrite (processFrame_unfold now state data Hs). simpl.
    rewrite client_content_app, transformToOpenAI_content.
    destruct (String.eqb _ _); [|by rewrite string_app_nil_r].
    by rewrite client_content_app, client_content_usage, string_app_nil_r.
Qed.

Lemma processFrames_content (state : ConverterState)
    (frames : list (Z * AnthropicStreamEvent)) :
  client_content (snd (processFrames state frames))
  = foldr String.app "" ((λ frame, frame_text (snd frame)) <$> frames).
Proof.
  revert state. induction frames as [|[now data] frames IH]; intros state;
    [done|].
  simpl. pose proof (processFrame_content now state data) as H.
  destruct (processFrame now state data) as [state1 r1].
  specialize (IH state1). destruct (processFrames state1 frames) as [state2 r2].
  simpl in *. by rewrite client_content_app, H, IH.
Qed.

(** X3: the content a client rebuilds from the chunks of an exchange is
    the text of the upstream text deltas, joined in order of arrival:
    nothing is added, lost or reordered, and no other frame contributes. *)
Theorem text_passes_through
    (reads : list (Z * list (option AnthropicStreamEvent))) :
  client_content (snd (streamExchange reads))
  = foldr String.app "" ((λ frame, frame_text (snd frame)) <$> frames_read reads).
Proof.
  unfold streamExchange. rewrite processChunks_frames.
  apply processFrames_content.
Qed.

(** ** Cumulative snapshots *)

Lemma tool_arguments_emitted_app (index : Z) (r1 r2 : list ProcessResult) :
  tool_arguments_emitted index (r1 ++ r2)
  = tool_arguments_emitted index r1 ++ tool_arguments_emitted index r2.
Proof. unfold tool_arguments_emitted. by rewrite bind_app. Qed.

Lemma tool_arguments_emitted_tool_chunk (now : Z) (state : ConverterState)
    (index : Z) (id type name : option string) (a : string) :
  tool_arguments_emitted index
    [chunk (stream_chunk now state
              (mkChunkDelta None None
                 (Some [mkToolCallDelta index id type
                          (Some (mkFunctionDelta name (Some a)))]))
              None None)]
  = [a].
Proof.
  unfold tool_arguments_emitted, chunk_tool_arguments, stream_chunk.
  cbn. by rewrite bool_decide_eq_true_2.
Qed.

Lemma chunk_tool_arguments_tool_chunk (now : Z) (state : ConverterState)
    (index : Z) (id type name : option string) (a : string) :
  chunk_tool_arguments index
    (stream_chunk now state
       (mkChunkDelta None None
          (Some [mkToolCallDelta index id type
                   (Some (mkFunctionDelta name (Some a)))]))
       None None)
  = [a].
Proof.
  unfold chunk_tool_arguments, stream_chunk.
  cbn. by rewrite bool_decide_eq_true_2.
Qed.

Lemma string_app_nonempty (b e : string) : b ≠ "" → b +:+ e ≠ "".
Proof. by destruct b. Qed.

(** A fragment for a tracked slot, as a frame made by [json_delta_frame]. *)
Lemma processFrame_json_delta (now : Z) (state : ConverterState) (index : Z)
    (f : string) (toolCall : ToolCallTracker) :
  f ≠ "" → toolCallsTracker state !! index = Some toolCall →
  let r := resolve_partial_json (tr_arguments toolCall) f in
  let state' :=
    mkState
      (<[index := mkTracker (tr_id toolCall) (tr_name toolCall) (snd r)]>
         (toolCallsTracker state))
      (metricsData state) in
  processFrame now state (json_delta_frame index f) =
    (state',
     [chunk (stream_chunk now state'
               (mkChunkDelta None None
                  (Some [mkToolCallDelta index None None
                           (Some (mkFunctionDelta None (Some (fst r))))]))
               None None)]).
Proof.
  intros Hne Hl. cbv zeta.
  rewrite processFrame_content_block_delta by done. cbv zeta.
  assert (partial_json_of (json_delta_frame index f) = Some f) as Hp.
  { apply truthy_true in Hne. unfold partial_json_of. simpl. by rewrite Hne. }
  rewrite (transform_partial_json now
             (set_metricsData state
                (updateMetrics (metricsData state) (json_delta_frame index f)))
             (json_delta_frame index f) f toolCall eq_refl Hp Hl).
  reflexivity.
Qed.

Lemma snapshots_run (now : Z) (index : Z) (es : list string) :
  ∀ (state : ConverterState) (toolCall : ToolCallTracker),
    toolCallsTracker state !! index = Some toolCall →
    tr_arguments toolCall ≠ "" →
    let run :=
      processChunk now state
        ((λ f, Some (json_delta_frame index f))
           <$> snapshots (tr_arguments toolCall) es) in
    tool_arguments_emitted index (snd run) = es
    ∧ tr_arguments <$> toolCallsTracker (fst run) !! index
      = Some (tr_arguments toolCall +:+ foldr String.app "" es).
Proof.
  induction es as [|e es IH]; intros state toolCall Hl Hb.
  - simpl. rewrite Hl. simpl. by rewrite string_app_nil_r.
  - cbn [snapshots fmap list_fmap processChunk].
    rewrite (processFrame_json_delta now state index _ toolCall
               (string_app_nonempty _ e Hb) Hl).
    rewrite resolve_partial_json_cumulative by done. cbn [fst snd].
    match goal with
    | |- context [processChunk now ?st _] =>
        destruct (IH st (mkTracker (tr_id toolCall) (tr_name toolCall)
                           (tr_arguments toolCall +:+ e)))
          as [H1 H2];
          [apply lookup_insert_eq|by apply string_app_nonempty|]
    end.
    simpl in H1, H2.
    match goal with
    | |- context [processChunk now ?st ?ls] =>
        destruct (processChunk now st ls) as [state2 r2]
    end.
    simpl in *. split.
    + by rewrite chunk_tool_arguments_tool_chunk, H1.
    + by rewrite H2, string_app_assoc.
Qed.

(** X4: cumulative mode.  When the arguments of a tool call arrive as
    successive snapshots, a first non-empty text [s] and then [s] extended
    by [e1], by [e1 e2], and so on, the client receives [s], [e1], [e2],
    ... and the accumulator ends with the last snapshot. *)
Theorem cumulative_snapshots_emit_extensions (now : Z) (state : ConverterState)
    (index : Z) (toolCall : ToolCallTracker) (s : string) (es : list string) :
  toolCallsTracker state !! index = Some toolCall →
  tr_arguments toolCall = "" → s ≠ "" →
  let run :=
    processChunk now state
      ((λ f, Some (json_delta_frame index f)) <$> (s :: snapshots s es)) in
  tool_arguments_emitted index (snd run) = s :: es
  ∧ tr_arguments <$> toolCallsTracker (fst run) !! index
    = Some (s +:+ foldr String.app "" es)
  ∧ last (s :: snapshots s es) = Some (s +:+ foldr String.app "" es).
Proof.
  intros Hl Hb Hs. cbn [fmap list_fmap processChunk].
  rewrite (processFrame_json_delta now state index s toolCall Hs Hl).
  rewrite resolve_partial_json_fragment by (left; done).
  rewrite Hb, string_nil_app. cbn [fst snd].
  match goal with
  | |- context [processChunk now ?st _] =>
      destruct (snapshots_run now index es st
                  (mkTracker (tr_id toolCall) (tr_name toolCall) s))
        as [H1 H2]; [apply lookup_insert_eq|done|]
  end.
  simpl in H1, H2.
  match goal with
  | |- context [processChunk now ?st ?ls] =>
      destruct (processChunk now st ls) as [state2 r2]
  end.
  simpl in *. split; [|split; [done|]].
  - by rewrite chunk_tool_arguments_tool_chunk, H1.
  - clear. revert s. induction es as [|e es IH]; intros s.
    + simpl. by rewrite string_app_nil_r.
    + cbn [snapshots foldr]. rewrite last_cons_cons, IH.
      by rewrite string_app_assoc.
Qed.

Lemma cumulative_snapshots_emit_extensions_witness :
  tool_arguments_emitted 0
    (snd (processChunk 0
            (fst (processFrame 0 createConverterState
                    (tool_start_frame 0 "t1" "lookup")))
            ((λ f, Some (json_delta_frame 0 f))
               <$> ("{" :: snapshots "{" ["a"; ""; "}"]))))
  = ["{"; "a"; ""; "}"].
Proof.
  apply (cumulative_snapshots_emit_extensions 0
           (fst (processFrame 0 createConverterState
                   (tool_start_frame 0 "t1" "lookup")))
           0 (mkTracker "t1" "lookup" "") "{" ["a"; ""; "}"]);
    [reflexivity|reflexivity|discriminate].
Defined.

(** ** The usage chunk of an exchange *)

Lemma processFrame_message_stop (now : Z) (state : ConverterState)
    (data : AnthropicStreamEvent) :
  ev_type data = "message_stop" →
  let state' := set_metricsData state (updateMetrics (metricsData state) data) in
  processFrame now state data
  = (state', result_of (createUsageChunk now state') ++ [done]).
Proof.
  intros Ht. simpl.
  destruct (transformToOpenAI_message_stop now
              (set_metricsData state (updateMetrics (metricsData state) data))
              data Ht) as [Hs Htr].
  rewrite (processFrame_unfold now state data Hs). simpl.
  by rewrite Htr, Ht.
Qed.

(** X5: when an exchange ends on a [message_stop] frame, what that frame
    emits is appended to what was emitted before: the terminal signal
    alone when the input and output tokens of all the frames absorbed in
    the exchange (this one included) sum to zero, and otherwise a usage
    chunk reporting exactly those two sums and their total, followed by
    the terminal signal. *)
Theorem final_usage_reports_sums
    (reads : list (Z * list (option AnthropicStreamEvent))) (now : Z)
    (data : AnthropicStreamEvent) :
  ev_type data = "message_stop" →
  let all := reads ++ [(now, [Some data])] in
  let inputs := sum_of frame_input_tokens (absorbed_frames all) in
  let outputs := sum_of frame_output_tokens (absorbed_frames all) in
  ∃ tail,
    snd (streamExchange all) = snd (streamExchange reads) ++ tail
    ∧ ((inputs = 0 ∧ outputs = 0 ∧ tail = [done])
       ∨ (¬ (inputs = 0 ∧ outputs = 0)
          ∧ ∃ c, tail = [chunk c; done]
                 ∧ ch_usage c
                   = Some (mkOpenAIUsage inputs outputs (inputs + outputs))
                 ∧ sc_delta <$> ch_choices c = [mkChunkDelta None None None]
                 ∧ sc_finish_reason <$> ch_choices c = [None])).
Proof.
  intros Ht. cbv zeta.
  destruct (exchange_counters (reads ++ [(now, [Some data])])) as [HI HO].
  rewrite <- HI, <- HO. clear HI HO.
  unfold streamExchange. rewrite !processChunks_frames, frames_read_app.
  rewrite processFrames_app.
  destruct (processFrames createConverterState (frames_read reads))
    as [state1 r1].
  cbn [fst snd frames_read mbind list_bind omap list_omap fmap list_fmap app
       processFrames id].
  rewrite (processFrame_message_stop now state1 data Ht).
  cbn [fst snd]. rewrite app_nil_r.
  eexists. split; [reflexivity|].
  unfold createUsageChunk.
  set (m := metricsData
              (set_metricsData state1 (updateMetrics (metricsData state1) data))).
  destruct ((input_tokens m =? 0) && (output_tokens m =? 0)) eqn:E.
  - apply andb_true_iff in E as [E1%Z.eqb_eq E2%Z.eqb_eq]. by left.
  - right. split.
    + intros [E1 E2]. by rewrite E1, E2 in E.
    + eexists. split; [reflexivity|done].
Qed.

Lemma final_usage_reports_sums_witness :
  ∃ tail,
    snd (streamExchange ([(0, [Some usage_frame])] ++ [(1, [Some message_stop_frame])]))
    = snd (streamExchange [(0, [Some usage_frame])]) ++ tail
    ∧ ((3 = 0 ∧ 4 = 0 ∧ tail = [done])
       ∨ (¬ (3 = 0 ∧ 4 = 0)
          ∧ ∃ c, tail = [chunk c; done]
                 ∧ ch_usage c = Some (mkOpenAIUsage 3 4 (3 + 4))
                 ∧ sc_delta <$> ch_choices c = [mkChunkDelta None None None]
                 ∧ sc_finish_reason <$> ch_choices c = [None])).
Proof.
  exact (final_usage_reports_sums [(0, [Some usage_frame])] 1 message_stop_frame
           eq_refl).
Defined.

(** ** How the upstream text is cut into chunks *)

(** Only the frames and the clock they are read at matter to the loop,
    not how the decoded lines are grouped nor the lines that are dropped. *)
Lemma processChunks_same_frames (state : ConverterState)
    (reads1 reads2 : list (Z * list (option AnthropicStreamEvent))) :
  frames_read reads1 = frames_read reads2 →
  processChunks state reads1 = processChunks state reads2.
Proof. intros H. by rewrite !processChunks_frames, H. Qed.

Lemma processChunk_app (now : Z) (state : ConverterState)
    (lines1 lines2 : list (option AnthropicStreamEvent)) :
  processChunk now state (lines1 ++ lines2) =
    (fst (processChunk now (fst (processChunk now state lines1)) lines2),
     snd (processChunk now state lines1)
     ++ snd (processChunk now (fst (processChunk now state lines1)) lines2)).
Proof.
  by rewrite !processChunk_frames, omap_app, fmap_app, processFrames_app.
Qed.

Lemma split_pieces (s : string) (sep : Ascii.ascii) : JS.split s sep ≠ [].
Proof.
  destruct s as [|c s]; simpl; [done|].
  destruct (Ascii.eqb c sep); [done|]. by destruct (JS.split s sep).
Qed.

(** Splitting a text that holds a separator: the pieces before it, then
    the pieces after it. *)
Lemma split_app (a b : string) (sep : Ascii.ascii) :
  JS.split (a +:+ String sep b) sep = JS.split a sep ++ JS.split b sep.
Proof.
  induction a as [|c a IH].
  - rewrite string_nil_app. simpl. by rewrite Ascii.eqb_refl.
  - rewrite string_cons_app. simpl. rewrite IH.
    destruct (Ascii.eqb c sep); [done|].
    pose proof (split_pieces a sep). by destruct (JS.split a sep).
Qed.

Lemma includes_unit_cons (c d : Ascii.ascii) (s : string) :
  JS.includes (String d s) (String c "")
  = Ascii.eqb c d || JS.includes s (String c "").
Proof. simpl. by destruct (Ascii.eqb c d). Qed.

Lemma includes_unit_app (a b : string) (c : Ascii.ascii) :
  JS.includes a (String c "") = false →
  JS.includes b (String c "") = false →
  JS.includes (a +:+ b) (String c "") = false.
Proof.
  intros Ha Hb. induction a as [|d a IH].
  - by rewrite string_nil_app.
  - rewrite string_cons_app. rewrite includes_unit_cons in *.
    apply orb_false_iff in Ha as [-> Ha]. simpl. by apply IH.
Qed.

(** A text without separator is one piece. *)
Lemma split_no_sep (s : string) (sep : Ascii.ascii) :
  JS.includes s (String sep "") = false → JS.split s sep = [s].
Proof.
  induction s as [|c s IH]; [done|]. intros H.
  rewrite includes_unit_cons in H. apply orb_false_iff in H as [Hc H].
  simpl. rewrite Ascii.eqb_sym, Hc, (IH H). done.
Qed.

Section LinesFacts.

Variable JSON_parse : string → option AnthropicStreamEvent.

Local Abbreviation decode := (decode_line JSON_parse).
Local Abbreviation lines_of := (chunk_lines JSON_parse).
Local Abbreviation on_text := (processChunk_text JSON_parse).
Local Abbreviation on_read := (read_lines JSON_parse).

Lemma chunk_lines_app (a b : string) :
  lines_of (a +:+ String line_feed b) = lines_of a ++ lines_of b.
Proof. unfold chunk_lines. by rewrite split_app, fmap_app. Qed.

Lemma chunk_lines_nil : lines_of "" = [None].
Proof. done. Qed.

Lemma chunk_lines_one (line : string) :
  JS.includes line (String line_feed "") = false →
  lines_of line = [decode line].
Proof. intros H. unfold chunk_lines. by rewrite split_no_sep. Qed.

Lemma decode_line_rejected (line : string) :
  JSON_parse (JS.replace_prefix (JS.trim line) "data: " "") = None →
  decode line = None.
Proof. intros H. unfold decode_line. cbv zeta. rewrite H. by repeat case_match. Qed.

Lemma decode_line_no_data (line : string) :
  JS.startsWith (JS.trim line) "data: " = false → decode line = None.
Proof. intros H. unfold decode_line. cbv zeta. rewrite H. by repeat case_match. Qed.

Lemma processChunk_text_app (now : Z) (state : ConverterState) (a b : string) :
  on_text now state (a +:+ String line_feed b) =
    (fst (on_text now (fst (on_text now state a)) b),
     snd (on_text now state a) ++ snd (on_text now (fst (on_text now state a)) b)).
Proof. unfold processChunk_text. by rewrite chunk_lines_app, processChunk_app. Qed.

Lemma processChunk_text_line_end (now : Z) (state : ConverterState) (a : string) :
  on_text now state (a +:+ String line_feed "") = on_text now state a.
Proof.
  unfold processChunk_text.
  rewrite chunk_lines_app, chunk_lines_nil, processChunk_app.
  destruct (processChunk now state (lines_of a)) as [state1 r1]. simpl.
  by rewrite app_nil_r.
Qed.

Lemma processChunks_line_reads (now : Z) (state : ConverterState)
    (texts : list string) :
  processChunks state (on_read <$> line_reads now texts)
  = on_text now state (joined_lines texts).
Proof.
  revert state. induction texts as [|text texts IH]; intros state; [done|].
  cbn [line_reads joined_lines foldr fmap list_fmap processChunks on_read fst snd].
  fold (line_reads now texts). fold (joined_lines texts).
  change (processChunk now state (lines_of (text +:+ String line_feed "")))
    with (on_text now state (text +:+ String line_feed "")).
  rewrite processChunk_text_line_end, processChunk_text_app.
  destruct (on_text now state text) as [state1 r1]. cbn [fst snd].
  change (list_fmap _ _ on_read (line_reads now texts))
    with (on_read <$> line_reads now texts).
  rewrite IH. by destruct (on_text now state1 (joined_lines texts)).
Qed.

(** X6: a chunk of upstream text is cut into lines at the line feeds and
    every line is decoded by itself, nothing being kept from one read to
    the next.  So a cut at a line end does no harm: [processChunk] on a
    text made of two parts joined by a line feed is the call on the first
    part followed by the call on the second, and reads that each end on a
    line feed give the state and the results of one read of the texts put
    together (the clock being the same).  A cut inside a [data: ] line
    loses its frame: when the head is rejected by [JSON.parse] and the
    tail is no [data: ] line, the two reads leave the state as it was and
    emit nothing, where the line read in one piece is processed as the
    frame it decodes to. *)
Theorem line_cuts_are_harmless_record_cuts_lose_the_frame :
  (∀ now state a b,
     on_text now state (a +:+ String line_feed b) =
       (fst (on_text now (fst (on_text now state a)) b),
        snd (on_text now state a)
        ++ snd (on_text now (fst (on_text now state a)) b)))
  ∧ (∀ now state a b,
       processChunks state
         (on_read <$> [(now, a +:+ String line_feed ""); (now, b)])
       = on_text now state (a +:+ String line_feed b))
  ∧ (∀ now state texts,
       processChunks state (on_read <$> line_reads now texts)
       = on_text now state (joined_lines texts))
  ∧ (∀ now state head tail data,
       JS.includes head (String line_feed "") = false →
       JS.includes tail (String line_feed "") = false →
       decode (head +:+ tail) = Some data →
       JSON_parse (JS.replace_prefix (JS.trim head) "data: " "") = None →
       JS.startsWith (JS.trim tail) "data: " = false →
       on_text now state (head +:+ tail) = processFrame now state data
       ∧ processChunks state (on_read <$> [(now, head); (now, tail)])
         = (state, [])).
Proof.
  split; [apply processChunk_text_app|].
  split; [|split; [apply processChunks_line_reads|]].
  - intros now state a b.
    cbn [fmap list_fmap processChunks on_read fst snd].
    change (processChunk now state (lines_of (a +:+ String line_feed "")))
      with (on_text now state (a +:+ String line_feed "")).
    rewrite processChunk_text_line_end, processChunk_text_app.
    destruct (on_text now state a) as [state1 r1]. cbn [fst snd].
    change (processChunk now state1 (lines_of b)) with (on_text now state1 b).
    destruct (on_text now state1 b) as [state2 r2]. by rewrite app_nil_r.
  - intros now state head tail data Hh Ht Hd Hrej Hno. split.
    + unfold processChunk_text.
      rewrite chunk_lines_one by (by apply includes_unit_app).
      rewrite Hd. simpl. destruct (processFrame now state data).
      by rewrite app_nil_r.
    + cbn [fmap list_fmap processChunks on_read fst snd].
      rewrite !chunk_lines_one by done.
      by rewrite (decode_line_rejected head Hrej), (decode_line_no_data tail Hno).
Qed.

End LinesFacts.

Lemma line_cuts_are_harmless_record_cuts_lose_the_frame_witness :
  processChunk_text parse_message_stop 0 createConverterState
    (record_head +:+ record_tail)
  = processFrame 0 createConverterState message_stop_frame
  ∧ processChunks createConverterState
      (read_lines parse_message_stop <$> [(0, record_head); (0, record_tail)])
    = (createConverterState, []).
Proof.
  apply (proj2 (proj2 (proj2
           (line_cuts_are_harmless_record_cuts_lose_the_frame parse_message_stop)))
           0 createConverterState record_head record_tail message_stop_frame);
    reflexivity.
Defined.

(** The record of the example, read whole and read in two halves. *)
Example record_cut_run :
  record_head +:+ record_tail = "data: " +:+ message_stop_text
  ∧ snd (streamExchange_text parse_message_stop
           [(0, record_head +:+ record_tail +:+ String line_feed "")])
    = [done]
  ∧ snd (streamExchange_text parse_message_stop
           [(0, record_head); (0, record_tail +:+ String line_feed "")])
    = [].
Proof. repeat split. Qed.

(** ** The accumulators *)

Lemma tool_start_of_Some (data : AnthropicStreamEvent)
    (content_block : AnthropicContentBlock) :
  ev_type data = "content_block_start" →
  ev_content_block data = Some content_block →
  cb_type content_block = "tool_use" →
  message_start_of data = None ∧ tool_start_of data = Some content_block
  ∧ skipped data = false.
Proof.
  intros Ht Hc Hk. unfold message_start_of, tool_start_of, skipped.
  by rewrite Ht, Hc, Hk.
Qed.

(** X8: a [content_block_start] frame of a [tool_use] block emits exactly
    one chunk, which introduces the slot at the index of the block (0 when
    absent) with the id and name of the block, type function and empty
    arguments; it creates the accumulator of that index with empty
    arguments, discarding whatever was tracked there, and touches no other
    accumulator. *)
Theorem tool_start_opens_slot (now : Z) (state : ConverterState)
    (data : AnthropicStreamEvent) (content_block : AnthropicContentBlock) :
  ev_type data = "content_block_start" →
  ev_content_block data = Some content_block →
  cb_type content_block = "tool_use" →
  let index := JS.nullish0 (ev_index data) in
  let state' := fst (processFrame now state data) in
  snd (processFrame now state data) =
    [chunk (mkChunk (chunk_id now state') "chat.completion.chunk" (now / 1000)
              (chunk_model state')
              [mkStreamChoice 0
                 (mkChunkDelta None None
                    (Some [mkToolCallDelta index (cb_id content_block)
                             (Some "function")
                             (Some (mkFunctionDelta (cb_name content_block)
                                      (Some "")))]))
                 None]
              None)]
  ∧ toolCallsTracker state' !! index
    = Some (mkTracker (default "" (cb_id content_block))
              (default "" (cb_name content_block)) "")
  ∧ (∀ j, j ≠ index →
          toolCallsTracker state' !! j = toolCallsTracker state !! j).
Proof.
  intros Ht Hc Hk. cbv zeta.
  destruct (tool_start_of_Some data content_block Ht Hc Hk) as (H1 & H2 & Hs).
  rewrite (processFrame_unfold now state data Hs). cbv zeta.
  unfold transformToOpenAI. rewrite H1, H2, Ht. cbn [fst snd result_of].
  rewrite app_nil_r. split; [done|]. simpl. split.
  - apply lookup_insert_eq.
  - intros j Hj. by rewrite lookup_insert_ne.
Qed.

Lemma tool_start_opens_slot_witness :
  toolCallsTracker
    (fst (processFrame 2 (fst (streamExchange sample_reads))
            (tool_start_frame 0 "t2" "search")))
  !! 0
  = Some (mkTracker "t2" "search" "").
Proof.
  apply (tool_start_opens_slot 2 (fst (streamExchange sample_reads))
           (tool_start_frame 0 "t2" "search")
           (mkBlock "tool_use" (Some "t2") (Some "search") None None));
    reflexivity.
Defined.

(** X7: an accumulator is never removed: once an index has one, it has
    one for the rest of the exchange, whatever frames follow; and its id
    and name stay what they are as long as no [content_block_start] opens
    a tool call at that index again. *)
Theorem accumulators_persist (state : ConverterState)
    (reads : list (Z * list (option AnthropicStreamEvent))) (index : Z)
    (t : ToolCallTracker) :
  toolCallsTracker state !! index = Some t →
  ∃ t', toolCallsTracker (fst (processChunks state reads)) !! index = Some t'
        ∧ (index ∉ started_indices (frames_read reads) →
           tr_id t' = tr_id t ∧ tr_name t' = tr_name t).
Proof.
  intros Hl. rewrite processChunks_frames.
  by apply processFrames_keeps_tracker.
Qed.

Lemma accumulators_persist_witness :
  ∃ t', toolCallsTracker
          (fst (processChunks
                  (fst (processFrame 0 createConverterState
                          (tool_start_frame 0 "t1" "lookup")))
                  [(1, [Some (json_delta_frame 0 "ab"); Some message_stop_frame])]))
        !! 0 = Some t'
        ∧ (0 ∉ started_indices
                 (frames_read
                    [(1, [Some (json_delta_frame 0 "ab"); Some message_stop_frame])])
           → tr_id t' = "t1" ∧ tr_name t' = "lookup").
Proof.
  apply (accumulators_persist
           (fst (processFrame 0 createConverterState
                   (tool_start_frame 0 "t1" "lookup")))
           [(1, [Some (json_delta_frame 0 "ab"); Some message_stop_frame])]
           0 (mkTracker "t1" "lookup" "")).
  reflexivity.
Defined.

(** * The request handler *)

(** ** Substrings and splitting *)

Lemma includes_unfold (s p : string) :
  JS.includes s p =
    JS.startsWith s p
    || match s with
       | EmptyString => false
       | String _ s' => JS.includes s' p
       end.
Proof. by destruct s. Qed.

Lemma includes_iff (s p : string) :
  JS.includes s p = true ↔ ∃ a b, s = a +:+ p +:+ b.
Proof.
  split.
  - induction s as [|c s IH]; rewrite includes_unfold; intros H;
      apply orb_true_iff in H as [H|H].
    + apply startsWith_iff in H as [e ->]. by exists "", e.
    + done.
    + apply startsWith_iff in H as [e ->]. by exists "", e.
    + destruct (IH H) as (a & b & ->). by exists (String c a), b.
  - intros (a & b & ->). induction a as [|c a IH]; rewrite includes_unfold.
    + rewrite string_nil_app, startsWith_app. done.
    + rewrite string_cons_app, IH. by rewrite orb_true_r.
Qed.

Lemma includes_false_cons (c : Ascii.ascii) (s p : string) :
  JS.includes (String c s) p = false →
  JS.startsWith (String c s) p = false ∧ JS.includes s p = false.
Proof. rewrite includes_unfold. by intros ?%orb_false_iff. Qed.

Lemma starts_with_space (c : Ascii.ascii) (s : string) :
  JS.startsWith (String c s) " " = Ascii.eqb c Ascii.Space.
Proof.
  change (JS.startsWith (String c s) " ")
    with (if Ascii.eqb Ascii.Space c then true else false).
  rewrite (Ascii.eqb_sym Ascii.Space c). by destruct (Ascii.eqb c Ascii.Space).
Qed.

(** A string without space is one piece. *)
Lemma split_space_free (s : string) :
  JS.includes s " " = false → JS.split s Ascii.Space = [s].
Proof.
  induction s as [|c s IH]; [done|].
  intros [H1 H2]%includes_false_cons. rewrite starts_with_space in H1.
  simpl. by rewrite H1, IH.
Qed.

(** The first space ends the first piece. *)
Lemma split_at_space (a rest : string) :
  JS.includes a " " = false →
  JS.split (a +:+ " " +:+ rest) Ascii.Space = a :: JS.split rest Ascii.Space.
Proof.
  induction a as [|c a IH].
  - intros _. done.
  - intros [H1 H2]%includes_false_cons. rewrite starts_with_space in H1.
    rewrite string_cons_app. simpl. by rewrite H1, IH.
Qed.

Lemma split_nonempty (s : string) : JS.split s Ascii.Space ≠ [].
Proof.
  induction s as [|c s IH]; [done|]. simpl.
  destruct (Ascii.eqb c Ascii.Space); [done|].
  by destruct (JS.split s Ascii.Space).
Qed.

(** ** The API key *)

Lemma apiKey_second_piece (scheme rest : string) :
  JS.includes scheme " " = false →
  apiKey (Some (scheme +:+ " " +:+ rest)) = head (JS.split rest Ascii.Space).
Proof.
  intros H. unfold apiKey. simpl. rewrite split_at_space by done.
  by destruct (JS.split rest Ascii.Space).
Qed.

(** X12: the API-key check of [messagesFn] looks at the second
    space-separated piece of the [authorization] header and at nothing
    else.  A request without the header, with a header that has no space,
    or with an empty second piece (two spaces after the scheme) is never
    rejected, whatever the configured key; a header made of a scheme, a
    space and a key is rejected exactly when the key differs from
    [API_KEY] (always, when [API_KEY] is not set), and what follows a
    further space is ignored. *)
Theorem api_key_check (API_KEY : option string) :
  apiKeyRejected None API_KEY = false
  ∧ (∀ header,
       JS.includes header " " = false →
       apiKeyRejected (Some header) API_KEY = false)
  ∧ (∀ scheme rest,
       JS.includes scheme " " = false →
       apiKeyRejected (Some (scheme +:+ " " +:+ " " +:+ rest)) API_KEY = false)
  ∧ (∀ scheme key,
       JS.includes scheme " " = false → JS.includes key " " = false →
       key ≠ "" →
       (apiKeyRejected (Some (scheme +:+ " " +:+ key)) API_KEY = true
        ↔ API_KEY ≠ Some key)
       ∧ ∀ more,
           apiKeyRejected (Some (scheme +:+ " " +:+ key +:+ " " +:+ more)) API_KEY
           = apiKeyRejected (Some (scheme +:+ " " +:+ key)) API_KEY).
Proof.
  split; [done|split; [|split]].
  - intros header H. unfold apiKeyRejected, apiKey. simpl.
    by rewrite split_space_free.
  - intros scheme rest H. unfold apiKeyRejected.
    rewrite apiKey_second_piece by done.
    change (JS.split (" " +:+ rest) Ascii.Space)
      with (JS.split ("" +:+ " " +:+ rest) Ascii.Space).
    by rewrite (split_at_space "" rest).
  - intros scheme key Hs Hk Hne. apply truthy_true in Hne.
    assert (apiKeyRejected (Some (scheme +:+ " " +:+ key)) API_KEY
            = negb (bool_decide (Some key = API_KEY))) as E.
    { unfold apiKeyRejected. rewrite apiKey_second_piece by done.
      rewrite split_space_free by done. simpl. by rewrite Hne. }
    split.
    + rewrite E, negb_true_iff, bool_decide_eq_false. split; congruence.
    + intros more. rewrite E. unfold apiKeyRejected.
      rewrite apiKey_second_piece by done.
      rewrite split_at_space by done. simpl. by rewrite Hne.
Qed.

Lemma api_key_check_witness :
  apiKeyRejected (Some "wrong-key") (Some "secret") = false
  ∧ (apiKeyRejected (Some "Bearer wrong-key") (Some "secret") = true
     ↔ Some "secret" ≠ Some "wrong-key").
Proof.
  split.
  - apply (proj1 (proj2 (api_key_check (Some "secret"))) "wrong-key").
    reflexivity.
  - apply (proj1 (proj2 (proj2 (proj2 (api_key_check (Some "secret"))))
                   "Bearer" "wrong-key" eq_refl eq_refl ltac:(discriminate))).
Defined.

(** ** The key-check probe *)

Lemma get_None (v : JS.json) (key : string) : JS.get v key = None ↔ v = JS.JNull.
Proof. by destruct v. Qed.

Lemma is_string_true (v : option JS.json) (s : string) :
  JS.is_string v s = true ↔ v = Some (JS.JStr s).
Proof.
  destruct v as [[| | |t| |]|]; simpl; try (split; by intros).
  rewrite String.eqb_eq. split; congruence.
Qed.

Lemma some_content_is_spec (messages : list JS.json) (s : string) :
  Forall (λ m, m ≠ JS.JNull) messages →
  ∃ b, some_content_is messages s = Some b
       ∧ (b = true ↔
          ∃ m, m ∈ messages ∧ JS.get m "content" = Some (Some (JS.JStr s))).
Proof.
  induction 1 as [|m messages Hm _ IH]; simpl.
  - exists false. split; [done|]. split; [done|].
    intros (m & Hin & _). by apply elem_of_nil in Hin.
  - destruct (JS.get m "content") as [content|] eqn:E;
      [|by apply get_None in E].
    destruct (JS.is_string content s) eqn:Es.
    + exists true. split; [done|]. split; [|done]. intros _.
      exists m. split; [left|]. apply is_string_true in Es. by rewrite Es in E.
    + destruct IH as (b & -> & Hb). exists b. split; [done|]. rewrite Hb.
      split.
      * intros (m' & Hin & Hc). exists m'. split; [by right|done].
      * intros (m' & Hin & Hc). apply elem_of_cons in Hin as [->|Hin].
        -- rewrite E in Hc. simplify_eq. simpl in Es.
           by rewrite String.eqb_refl in Es.
        -- by exists m'.
Qed.

(** X11: [isCursorKeyCheck] on a body whose messages are not [null]
    returns, and says yes exactly when the model name has [gpt-4o]
    somewhere in it or some message has exactly the probe text as its
    content; so a request for any model is taken for the probe when one of
    its messages is that text, and a request whose model name has no
    [gpt-4o] in it and that has no such message never is. *)
Theorem key_check_characterised (body : AnthropicRequestBody) :
  (∀ messages, b_messages body = Some messages →
               Forall (λ m, m ≠ JS.JNull) messages) →
  ∃ b, isCursorKeyCheck body = Some b
       ∧ (b = true ↔
          (∃ model a c, b_model body = Some model ∧ model = a +:+ "gpt-4o" +:+ c)
          ∨ (∃ messages m,
               b_messages body = Some messages ∧ m ∈ messages
               ∧ JS.get m "content" = Some (Some (JS.JStr key_check_prompt)))).
Proof.
  intros Hnn. unfold isCursorKeyCheck.
  destruct (match b_model body with
            | Some model => JS.includes model "gpt-4o"
            | None => false
            end) eqn:Em.
  - exists true. split; [done|]. split; [|done]. intros _. left.
    destruct (b_model body) as [model|]; [|done].
    apply includes_iff in Em as (a & c & ->). by eauto.
  - assert (¬ ∃ model a c,
              b_model body = Some model ∧ model = a +:+ "gpt-4o" +:+ c) as Hno.
    { intros (model & a & c & Hm & ->). rewrite Hm in Em.
      assert (JS.includes (a +:+ "gpt-4o" +:+ c) "gpt-4o" = true)
        by (apply includes_iff; eauto).
      congruence. }
    destruct (b_messages body) as [messages|] eqn:Emsg.
    + destruct (some_content_is_spec messages key_check_prompt (Hnn _ eq_refl))
        as (b & -> & Hb).
      exists b. split; [done|]. rewrite Hb. split.
      * intros (m & Hin & Hc). right. by eauto.
      * intros [H|(messages' & m & [= <-] & Hin & Hc)]; [done|]. by eauto.
    + exists false. split; [done|]. split; [done|].
      intros [H|(messages' & m & [=] & _)]. done.
Qed.

Lemma key_check_characterised_witness :
  ∃ b, isCursorKeyCheck sample_body = Some b
       ∧ (b = true ↔
          (∃ model a c,
             b_model sample_body = Some model ∧ model = a +:+ "gpt-4o" +:+ c)
          ∨ (∃ messages m,
               b_messages sample_body = Some messages ∧ m ∈ messages
               ∧ JS.get m "content" = Some (Some (JS.JStr key_check_prompt)))).
Proof.
  apply (key_check_characterised sample_body).
  intros messages [= <-]. repeat constructor; discriminate.
Defined.

(** ** The system prompt *)

Lemma system_roles_spec (messages : list JS.json) (flags : list bool) :
  system_roles messages = Some flags →
  flags = is_system <$> messages ∧ Forall (λ m, m ≠ JS.JNull) messages.
Proof.
  revert flags. induction messages as [|m messages IH]; intros flags H.
  - simpl in H. by simplify_eq.
  - simpl in H.
    destruct (JS.get m "role") as [role|] eqn:E; [|done].
    destruct (system_roles messages) as [flags'|]; [|done].
    destruct (IH flags' eq_refl) as [-> Hnn]. simplify_eq. split.
    + rewrite fmap_cons. f_equal. unfold is_system. by rewrite E.
    + constructor; [|done]. intros ->. done.
Qed.

Lemma system_roles_total (messages : list JS.json) :
  Forall (λ m, m ≠ JS.JNull) messages →
  system_roles messages = Some (is_system <$> messages).
Proof.
  induction 1 as [|m messages Hm _ IH]; [done|].
  rewrite fmap_cons. simpl. rewrite IH. unfold is_system.
  destruct (JS.get m "role") eqn:E; [done|]. by apply get_None in E.
Qed.

Lemma select_filter {A : Type} (f : A → bool) (keep : bool) (l : list A) :
  select keep (f <$> l) l = List.filter (λ x, Bool.eqb (f x) keep) l.
Proof.
  induction l as [|x l IH]; [done|]. rewrite fmap_cons.
  cbn [select List.filter]. destruct (Bool.eqb (f x) keep); by rewrite IH.
Qed.

Lemma filter_ext_bool {A : Type} (f g : A → bool) (l : list A) :
  (∀ x, f x = g x) → List.filter f l = List.filter g l.
Proof.
  intros H. induction l as [|x l IH]; [done|]. simpl. by rewrite H, IH.
Qed.

Lemma includes_prompt :
  JS.includes claude_code_prompt claude_code_prompt = true.
Proof. apply includes_iff. exists "", "". by rewrite string_app_nil_r. Qed.

(** [injectSystemPrompt] by cases. *)
Lemma injectSystemPrompt_inv (body body' : AnthropicRequestBody) (t : bool) :
  injectSystemPrompt body = Some (body', t) →
  (t = false ∧ body' = body)
  ∨ (t = true
     ∧ lacks_prompt (b_system body) = Some true
     ∧ ∃ messages model,
         b_messages body = Some messages ∧ b_model body = Some model
         ∧ Forall (λ m, m ≠ JS.JNull) messages
         ∧ b_messages body' = Some (List.filter (λ m, negb (is_system m)) messages)
         ∧ b_system body'
           = Some (prompt_block :: default [] (b_system body)
                   ++ (system_block_of <$> List.filter is_system messages))
         ∧ b_model body' = b_model body ∧ b_stream body' = b_stream body
         ∧ b_metadata body' = b_metadata body
         ∧ b_other body'
           = if JS.includes model "sonnet" then
               <["max_tokens" := JS.JNum 64000]>
                 (if JS.includes model "opus" then
                    <["max_tokens" := JS.JNum 32000]> (b_other body)
                  else b_other body)
             else if JS.includes model "opus" then
               <["max_tokens" := JS.JNum 32000]> (b_other body)
             else b_other body).
Proof.
  unfold injectSystemPrompt.
  destruct (lacks_prompt (b_system body)) as [[|]|] eqn:El; [| |done].
  2: { intros [= <- <-]. by left. }
  destruct (b_messages body) as [messages|] eqn:Em.
  2: { intros [= <- <-]. by left. }
  destruct (system_roles messages) as [flags|] eqn:Er; [|done].
  destruct (system_roles_spec messages flags Er) as [-> Hnn].
  simpl. destruct (b_model body) as [model|] eqn:Emodel; [|done].
  intros [= <- <-]. right. split; [done|]. split; [done|].
  exists messages, model. rewrite !select_filter.
  rewrite (filter_ext_bool (λ x, Bool.eqb (is_system x) false)
             (λ m, negb (is_system m)))
    by (intros x; by destruct (is_system x)).
  rewrite (filter_ext_bool (λ x, Bool.eqb (is_system x) true) is_system)
    by (intros x; by destruct (is_system x)).
  destruct (JS.includes model "opus"), (JS.includes model "sonnet"); simpl;
    by rewrite ?Emodel.
Qed.

(** X13: when a request is transformed, no message is lost: the messages
    whose role is [system] leave [messages], in which the others stay in
    order, and become text blocks of [system], in order, placed after the
    Claude Code prompt and the blocks that were there; the text of such a
    block is the content of the message (the empty string when that is
    absent or falsy).  The model, [stream] and [metadata] are untouched. *)
Theorem system_messages_move_to_system (body body' : AnthropicRequestBody) :
  injectSystemPrompt body = Some (body', true) →
  ∃ messages,
    b_messages body = Some messages
    ∧ b_messages body' = Some (List.filter (λ m, negb (is_system m)) messages)
    ∧ b_system body'
      = Some (prompt_block :: default [] (b_system body)
              ++ (system_block_of <$> List.filter is_system messages))
    ∧ (length (default [] (b_system body')) + length (default [] (b_messages body'))
       = 1 + length (default [] (b_system body)) + length messages)%nat
    ∧ b_model body' = b_model body ∧ b_stream body' = b_stream body
    ∧ b_metadata body' = b_metadata body.
Proof.
  intros H. apply injectSystemPrompt_inv in H as [[? _]|(_ & _ & H)]; [done|].
  destruct H as (messages & model & Hm & _ & _ & Hm' & Hs' & H1 & H2 & H3 & _).
  exists messages. rewrite Hm', Hs'. repeat split; try done.
  simpl. rewrite length_app, length_fmap.
  clear. induction messages as [|m messages IH]; simpl; [lia|].
  destruct (is_system m); simpl; lia.
Qed.

Lemma system_messages_move_to_system_witness :
  ∃ messages,
    b_messages sample_body = Some messages
    ∧ b_messages (set_max_tokens
                    (set_system (set_messages sample_body [user_message "Hello"])
                       [prompt_block; mkSystemBlock "text" (JS.JStr "Be brief.") []])
                    64000)
      = Some (List.filter (λ m, negb (is_system m)) messages).
Proof.
  destruct (system_messages_move_to_system sample_body
              (set_max_tokens
                 (set_system (set_messages sample_body [user_message "Hello"])
                    [prompt_block; mkSystemBlock "text" (JS.JStr "Be brief.") []])
                 64000) eq_refl) as (messages & H1 & H2 & _).
  by exists messages.
Defined.

(** X14: the injection happens once.  A body that has been through it, or
    that came with the Claude Code prompt in the text of its first system
    block, is left as it is and is not marked for transformation. *)
Theorem system_prompt_injected_once (body body' : AnthropicRequestBody) (t : bool) :
  injectSystemPrompt body = Some (body', t) →
  injectSystemPrompt body' = Some (body', false).
Proof.
  intros H. pose proof H as H'.
  apply injectSystemPrompt_inv in H as [[-> ->]|(-> & _ & H)]; [done|].
  destruct H as (messages & model & _ & _ & _ & _ & Hs' & _).
  unfold injectSystemPrompt. rewrite Hs'.
  unfold lacks_prompt, prompt_block. cbn [sb_text].
  by rewrite includes_prompt.
Qed.

Lemma system_prompt_injected_once_witness :
  injectSystemPrompt
    (set_max_tokens
       (set_system (set_messages sample_body [user_message "Hello"])
          [prompt_block; mkSystemBlock "text" (JS.JStr "Be brief.") []])
       64000)
  = Some (set_max_tokens
            (set_system (set_messages sample_body [user_message "Hello"])
               [prompt_block; mkSystemBlock "text" (JS.JStr "Be brief.") []])
            64000,
          false).
Proof.
  apply (system_prompt_injected_once sample_body _ true). reflexivity.
Defined.

(** X15: the token limit of a transformed request depends on the model
    name alone: 64000 when it has [sonnet] in it, 32000 when it has [opus]
    and no [sonnet], and the limit the client sent (or none) otherwise; no
    other key is touched.  A request that is not transformed keeps every
    key. *)
Theorem max_tokens_by_model (body body' : AnthropicRequestBody) (t : bool) :
  injectSystemPrompt body = Some (body', t) →
  (t = false → b_other body' = b_other body)
  ∧ (t = true →
     ∃ model,
       b_model body = Some model
       ∧ b_other body' !! "max_tokens"
         = (if JS.includes model "sonnet" then Some (JS.JNum 64000)
            else if JS.includes model "opus" then Some (JS.JNum 32000)
            else b_other body !! "max_tokens")
       ∧ ∀ key, key ≠ "max_tokens" → b_other body' !! key = b_other body !! key).
Proof.
  intros H. apply injectSystemPrompt_inv in H as [[-> ->]|(-> & _ & H)].
  - split; [done|]. by intros.
  - split; [done|]. intros _.
    destruct H as (messages & model & _ & Hm & _ & _ & _ & _ & _ & _ & Ho).
    exists model. split; [done|]. rewrite Ho.
    destruct (JS.includes model "sonnet"), (JS.includes model "opus");
      rewrite ?lookup_insert_eq; (split; [done|]); intros key Hk;
      by rewrite ?lookup_insert_ne.
Qed.

Lemma max_tokens_by_model_witness :
  ∃ model,
    b_model sample_body = Some model
    ∧ b_other
        (set_max_tokens
           (set_system (set_messages sample_body [user_message "Hello"])
              [prompt_block; mkSystemBlock "text" (JS.JStr "Be brief.") []])
           64000)
      !! "max_tokens"
      = (if JS.includes model "sonnet" then Some (JS.JNum 64000)
         else if JS.includes model "opus" then Some (JS.JNum 32000)
         else b_other sample_body !! "max_tokens").
Proof.
  destruct (proj2 (max_tokens_by_model sample_body
                     (set_max_tokens
                        (set_system
                           (set_messages sample_body [user_message "Hello"])
                           [prompt_block;
                            mkSystemBlock "text" (JS.JStr "Be brief.") []])
                        64000) true eq_refl) eq_refl)
    as (model & H1 & H2 & _).
  by exists model.
Defined.

(** ** The request, up to the upstream call *)

Lemma lookup_foldl_delete (keys : list string) (other : gmap string JS.json)
    (key : string) :
  foldl (λ other key, delete key other) other keys !! key
  = if bool_decide (key ∈ keys) then None else other !! key.
Proof.
  revert other. induction keys as [|k keys IH]; intros other; [done|].
  simpl. rewrite IH. destruct (decide (k = key)) as [->|Hne].
  - rewrite lookup_delete_eq, (bool_decide_eq_true_2 (key ∈ key :: keys));
      [|left]. by case_bool_decide.
  - rewrite lookup_delete_ne by done.
    destruct (decide (key ∈ keys)) as [Hin|Hnin].
    + rewrite !bool_decide_eq_true_2; [done|by right|done].
    + rewrite !bool_decide_eq_false_2; [done| |done].
      intros [?|?]%elem_of_cons; congruence.
Qed.

Lemma lookup_strip (body : AnthropicRequestBody) (key : string) :
  b_other (stripOpenAIParams body) !! key
  = if bool_decide (key ∈ openai_params) then None else b_other body !! key.
Proof. apply lookup_foldl_delete. Qed.

Lemma filter_not_system (messages : list JS.json) :
  Forall (λ m, is_system m = false)
    (List.filter (λ m, negb (is_system m)) messages).
Proof.
  induction messages as [|m messages IH]; simpl; [constructor|].
  destruct (is_system m) eqn:E; simpl; [done|]. by constructor.
Qed.

Lemma withDefaults_fields (body : AnthropicRequestBody) :
  b_system (withDefaults true body) = Some (default [] (b_system body))
  ∧ b_messages (withDefaults true body) = b_messages body
  ∧ b_metadata (withDefaults true body)
    = Some (JS.json_or (b_metadata body) (JS.JObj []))
  ∧ b_other (withDefaults true body) = b_other body.
Proof.
  unfold withDefaults, JS.json_or.
  destruct (b_metadata body) as [metadata|] eqn:Em;
    [destruct (JS.json_truthy metadata) eqn:Et|];
    destruct (b_system body) as [system|] eqn:Es; simpl;
    rewrite ?Es, ?Em; simpl; rewrite ?Es, ?Em, ?Et; done.
Qed.

Lemma json_or_truthy (o : option JS.json) (d : JS.json) :
  JS.json_truthy d = true → JS.json_truthy (JS.json_or o d) = true.
Proof.
  intros Hd. unfold JS.json_or. destruct o as [v|]; [|done].
  by destruct (JS.json_truthy v) eqn:E.
Qed.

(** X16: the order of the checks of [messagesFn].  A request whose API
    key is rejected is answered with that rejection whatever its body;
    one that passes and is the key-check probe gets the canned answer
    without any OAuth token being needed; the missing-token answer is
    given only to a request that passed the key check, is not the probe
    and whose body went through the injection without error; and the
    upstream call is made only with a non-empty token. *)
Theorem preflight_order (authorization : option string)
    (body : AnthropicRequestBody) (API_KEY oauthToken : option string) :
  let result := messagesFn_preflight authorization body API_KEY oauthToken in
  (apiKeyRejected authorization API_KEY = true → result = Some rejected_api_key)
  ∧ (apiKeyRejected authorization API_KEY = false →
     isCursorKeyCheck body = Some true → result = Some key_check_bypass)
  ∧ (result = Some rejected_no_token →
     apiKeyRejected authorization API_KEY = false
     ∧ isCursorKeyCheck body = Some false
     ∧ is_Some (injectSystemPrompt (stripOpenAIParams body))
     ∧ JS.truthy_opt oauthToken = false)
  ∧ (∀ body' isStreaming t,
       result = Some (upstream body' isStreaming t) →
       apiKeyRejected authorization API_KEY = false
       ∧ isCursorKeyCheck body = Some false
       ∧ ∃ token, oauthToken = Some token ∧ token ≠ "").
Proof.
  cbv zeta. unfold messagesFn_preflight.
  change (isCursorKeyCheck (stripOpenAIParams body)) with (isCursorKeyCheck body).
  destruct (apiKeyRejected authorization API_KEY).
  { repeat split; intros; done. }
  destruct (isCursorKeyCheck body) as [[|]|].
  1,3: repeat split; intros; done.
  destruct (injectSystemPrompt (stripOpenAIParams body)) as [[body1 t1]|].
  2: repeat split; intros; done.
  destruct (JS.truthy_opt oauthToken) eqn:Et.
  - split; [done|]. split; [done|]. split; [done|].
    intros body' isStreaming t _. split; [done|]. split; [done|].
    destruct oauthToken as [token|]; [|done]. exists token.
    split; [done|]. by apply truthy_true.
  - split; [done|]. split; [done|]. split; [|done].
    intros _. repeat split; by eauto.
Qed.

Lemma preflight_order_witness :
  messagesFn_preflight (Some "Bearer wrong") sample_body (Some "secret") None
  = Some rejected_api_key.
Proof.
  apply (proj1 (preflight_order (Some "Bearer wrong") sample_body (Some "secret")
                  None)).
  reflexivity.
Defined.

(** X17: what is sent upstream.  The body of the upstream call never has
    one of the eleven OpenAI-only parameters, and has every other key of
    the request, [max_tokens] apart, as the client sent it; it streams
    exactly when the request had [stream] set to [true].  When the
    request is transformed, its [system] starts with the Claude Code
    prompt, its [metadata] is present, and none of its messages has the
    role [system]; when it is not, the body is the request without the
    eleven parameters. *)
Theorem upstream_body (authorization : option string)
    (body : AnthropicRequestBody) (API_KEY oauthToken : option string)
    (body' : AnthropicRequestBody) (isStreaming t : bool) :
  messagesFn_preflight authorization body API_KEY oauthToken
  = Some (upstream body' isStreaming t) →
  isStreaming = JS.is_true (b_stream body)
  ∧ Forall (λ key, b_other body' !! key = None) openai_params
  ∧ (∀ key, key ∉ openai_params → key ≠ "max_tokens" →
            b_other body' !! key = b_other body !! key)
  ∧ (t = true →
     (∃ rest, b_system body' = Some (prompt_block :: rest))
     ∧ (∃ metadata, b_metadata body' = Some metadata
                    ∧ JS.json_truthy metadata = true)
     ∧ ∃ messages, b_messages body' = Some messages
                   ∧ Forall (λ m, is_system m = false) messages)
  ∧ (t = false → body' = stripOpenAIParams body).
Proof.
  unfold messagesFn_preflight.
  destruct (apiKeyRejected authorization API_KEY); [done|].
  destruct (isCursorKeyCheck _) as [[|]|]; [done| |done].
  destruct (injectSystemPrompt (stripOpenAIParams body)) as [[body1 t1]|] eqn:Ei;
    [|done].
  destruct (JS.truthy_opt oauthToken); [|done].
  intros [= <- <- <-]. split; [done|].
  assert (b_other (withDefaults t1 body1) = b_other body1) as Ho.
  { unfold withDefaults. by repeat case_match. }
  rewrite Ho.
  apply injectSystemPrompt_inv in Ei as [[-> ->]|(-> & _ & H)].
  - split; [|split; [|split; [done|done]]].
    + apply Forall_forall. intros key Hin. rewrite lookup_strip.
      by rewrite bool_decide_eq_true_2.
    + intros key Hnin _. rewrite lookup_strip.
      by rewrite bool_decide_eq_false_2.
  - destruct H as (messages & model & Hm & Hmodel & _ & Hm' & Hs' & _ & _ & Hmeta
                   & Hother).
    assert (∀ key, key ≠ "max_tokens" →
                   b_other body1 !! key = b_other (stripOpenAIParams body) !! key)
      as Hsame.
    { intros key Hk. rewrite Hother.
      destruct (JS.includes model "sonnet"), (JS.includes model "opus");
        by rewrite ?lookup_insert_ne. }
    split; [|split; [|split; [|done]]].
    + apply Forall_forall. intros key Hin. rewrite Hsame, lookup_strip.
      * by rewrite bool_decide_eq_true_2.
      * intros ->. revert Hin. unfold openai_params.
        rewrite !elem_of_cons, elem_of_nil. intuition discriminate.
    + intros key Hnin Hk. rewrite Hsame, lookup_strip by done.
      by rewrite bool_decide_eq_false_2.
    + intros _.
      destruct (withDefaults_fields body1) as (W1 & W2 & W3 & _).
      rewrite W1, W2, W3, Hs', Hm'. simpl. split; [by eauto|]. split.
      * eexists. split; [done|]. by apply json_or_truthy.
      * eexists. split; [done|]. apply filter_not_system.
Qed.

Lemma upstream_body_witness :
  Forall (λ key,
            b_other
              (set_metadata
                 (set_max_tokens
                    (set_system
                       (set_messages (stripOpenAIParams sample_body)
                          [user_message "Hello"])
                       [prompt_block;
                        mkSystemBlock "text" (JS.JStr "Be brief.") []])
                    64000)
                 (JS.JObj []))
            !! key = None)
    openai_params.
Proof.
  apply (upstream_body None sample_body None (Some "token")
           (set_metadata
              (set_max_tokens
                 (set_system
                    (set_messages (stripOpenAIParams sample_body)
                       [user_message "Hello"])
                    [prompt_block; mkSystemBlock "text" (JS.JStr "Be brief.") []])
                 64000)
              (JS.JObj []))
           true true).
  reflexivity.
Defined.

(** * Further properties of the non-streaming conversion *)

Lemma filter_filter_bool {A : Type} (f g : A → bool) (l : list A) :
  (∀ x, f x = true → g x = true) →
  List.filter f (List.filter g l) = List.filter f l.
Proof.
  intros H. induction l as [|x l IH]; [done|]. simpl.
  destruct (g x) eqn:Eg; simpl.
  - by rewrite IH.
  - destruct (f x) eqn:Ef; [|done]. apply H in Ef. congruence.
Qed.

(** X10: the non-streaming response is made of the texts of the text
    blocks and of the collectable tool blocks alone.  Blocks of any other
    kind, and tool blocks without id or name, can be removed without
    changing it, an absent content is an empty one, and two responses
    with the same header fields, the same joined text and the same
    collectable blocks convert to the same response, however the blocks
    are interleaved. *)
Theorem other_blocks_are_ignored (JSON_stringify : JS.json → string) (now : Z)
    (r : AnthropicResponse) :
  convertNonStreamingResponse JSON_stringify now r
  = convertNonStreamingResponse JSON_stringify now
      (with_content r
         (List.filter (λ block, is_text_block block || collectable block)
            (default [] (r_content r))))
  ∧ (∀ blocks,
       joined_text blocks = joined_text (default [] (r_content r)) →
       List.filter collectable blocks
       = List.filter collectable (default [] (r_content r)) →
       convertNonStreamingResponse JSON_stringify now (with_content r blocks)
       = convertNonStreamingResponse JSON_stringify now r).
Proof.
  assert (∀ blocks,
            joined_text blocks = joined_text (default [] (r_content r)) →
            List.filter collectable blocks
            = List.filter collectable (default [] (r_content r)) →
            convertNonStreamingResponse JSON_stringify now (with_content r blocks)
            = convertNonStreamingResponse JSON_stringify now r) as H.
  { intros blocks Ht Hc. rewrite !convertNonStreamingResponse_eq. simpl.
    by rewrite Ht, Hc. }
  split; [|done]. symmetry. apply H.
  - unfold joined_text. rewrite filter_filter_bool; [done|].
    intros x Hx. by rewrite Hx.
  - rewrite filter_filter_bool; [done|]. intros x Hx. by rewrite Hx, orb_true_r.
Qed.

Lemma other_blocks_are_ignored_witness :
  convertNonStreamingResponse no_stringify 0
    (with_content mixed_response
       [mkBlock "tool_use" (Some "t1") (Some "lookup") None (Some lookup_input);
        mkBlock "text" None None (Some "Looking up.") None])
  = convertNonStreamingResponse no_stringify 0 mixed_response.
Proof.
  apply (proj2 (other_blocks_are_ignored no_stringify 0 mixed_response));
    reflexivity.
Defined.

(** * The OAuth token manager *)

(** X19: a refreshed token is stored and served.  When the token endpoint
    answers and Redis takes the write, [refreshToken] returns the new
    access token, and every later [getAccessToken] that can read Redis,
    made before the new expiry time, returns that token and leaves the
    store as it is, whatever the token endpoint would answer then. *)
Theorem refreshed_token_is_served (env : AuthEnv) (store : AuthStore)
    (credentials : OAuthCredentials) (data : TokenResponse) :
  token_endpoint env = Some data → set_fails env = false →
  let store' := fst (refreshToken env store credentials) in
  snd (refreshToken env store credentials) = Some (access_token data)
  ∧ ∀ env',
      get_fails env' = false → 0 ≤ now_checked env' →
      now_checked env' < now_refreshed env + expires_in data * 1000 →
      getAccessToken env' store' = (store', Some (access_token data)).
Proof.
  intros He Hs. unfold refreshToken. rewrite He, Hs. simpl. split; [done|].
  intros env' Hg H0 Hlt. unfold getAccessToken, auth_get. rewrite Hg. simpl.
  assert ((now_refreshed env + expires_in data * 1000 =? 0) = false) as ->
    by (apply Z.eqb_neq; lia).
  assert ((now_checked env' <? now_refreshed env + expires_in data * 1000) = true)
    as -> by (apply Z.ltb_lt; lia).
  done.
Qed.

Lemma refreshed_token_is_served_witness :
  snd (refreshToken
         (mkAuthEnv false false (Some (mkTokenResponse "new" "r2" 3600)) 10 11)
         None (mkCredentials "oauth" "r1" "old" 5))
  = Some "new"
  ∧ ∀ env',
      get_fails env' = false → 0 ≤ now_checked env' →
      now_checked env' < 11 + 3600 * 1000 →
      getAccessToken env'
        (fst (refreshToken
                (mkAuthEnv false false (Some (mkTokenResponse "new" "r2" 3600))
                   10 11)
                None (mkCredentials "oauth" "r1" "old" 5)))
      = (fst (refreshToken
                (mkAuthEnv false false (Some (mkTokenResponse "new" "r2" 3600))
                   10 11)
                None (mkCredentials "oauth" "r1" "old" 5)),
         Some "new").
Proof.
  exact (refreshed_token_is_served
           (mkAuthEnv false false (Some (mkTokenResponse "new" "r2" 3600)) 10 11)
           None (mkCredentials "oauth" "r1" "old" 5)
           (mkTokenResponse "new" "r2" 3600) eq_refl eq_refl).
Defined.

(** X20: where a token comes from.  [getAccessToken] returns a token only
    for stored credentials of type [oauth] that Redis could be read for:
    the stored access token, with the store untouched, when the expiry
    time is not zero and lies strictly after the clock; and otherwise the
    access token the token endpoint has just given, for credentials with
    a non-empty refresh token.  A call that returns no token leaves the
    store as it was. *)
Theorem access_token_sources (env : AuthEnv) (store : AuthStore) :
  (∀ token,
     snd (getAccessToken env store) = Some token →
     get_fails env = false
     ∧ ∃ credentials,
         store = Some credentials ∧ oc_type credentials = "oauth"
         ∧ ((oc_expires credentials ≠ 0
             ∧ now_checked env < oc_expires credentials
             ∧ token = oc_access credentials
             ∧ fst (getAccessToken env store) = store)
            ∨ ((oc_expires credentials = 0
                ∨ oc_expires credentials ≤ now_checked env)
               ∧ oc_refresh credentials ≠ ""
               ∧ set_fails env = false
               ∧ ∃ data, token_endpoint env = Some data
                         ∧ token = access_token data)))
  ∧ (snd (getAccessToken env store) = None →
     fst (getAccessToken env store) = store).
Proof.
  unfold getAccessToken, auth_get, refreshToken.
  destruct (get_fails env); [by split|].
  destruct store as [credentials|]; [|by split].
  destruct (String.eqb_spec (oc_type credentials) "oauth") as [Ht|Ht]; simpl;
    [|by split].
  destruct (oc_expires credentials =? 0) eqn:E0; simpl.
  - apply Z.eqb_eq in E0.
    destruct (JS.truthy (oc_refresh credentials)) eqn:Er; [|by split].
    apply truthy_true in Er.
    destruct (token_endpoint env) as [data|]; [|by split].
    destruct (set_fails env); [by split|]. simpl. split; [|done].
    intros token [= <-]. split; [done|]. exists credentials.
    repeat split; try done. right. repeat split; by eauto.
  - apply Z.eqb_neq in E0.
    destruct (now_checked env <? oc_expires credentials) eqn:El; simpl.
    + apply Z.ltb_lt in El. split; [|done]. intros token [= <-].
      split; [done|]. exists credentials. repeat split; try done. by left.
    + apply Z.ltb_ge in El.
      destruct (JS.truthy (oc_refresh credentials)) eqn:Er; [|by split].
      apply truthy_true in Er.
      destruct (token_endpoint env) as [data|]; [|by split].
      destruct (set_fails env); [by split|]. simpl. split; [|done].
      intros token [= <-]. split; [done|]. exists credentials.
      repeat split; try done. right. repeat split; by eauto.
Qed.

Lemma access_token_sources_witness :
  fst (getAccessToken (mkAuthEnv false false None 10 11)
         (Some (mkCredentials "oauth" "r1" "old" 10)))
  = Some (mkCredentials "oauth" "r1" "old" 10).
Proof.
  apply (proj2 (access_token_sources (mkAuthEnv false false None 10 11)
                  (Some (mkCredentials "oauth" "r1" "old" 10)))).
  reflexivity.
Defined.

(** * The OAuth callback *)

Lemma starts_with_unit (d sep : Ascii.ascii) (s : string) :
  JS.startsWith (String d s) (String sep "") = Ascii.eqb d sep.
Proof.
  change (JS.startsWith (String d s) (String sep ""))
    with (if Ascii.eqb sep d then true else false).
  rewrite (Ascii.eqb_sym sep d). by destruct (Ascii.eqb d sep).
Qed.

Lemma split_sep_free (s : string) (sep : Ascii.ascii) :
  JS.includes s (String sep "") = false → JS.split s sep = [s].
Proof.
  induction s as [|c s IH]; [done|].
  intros [H1 H2]%includes_false_cons. rewrite starts_with_unit in H1.
  simpl. by rewrite H1, IH.
Qed.

Lemma split_at_sep (a rest : string) (sep : Ascii.ascii) :
  JS.includes a (String sep "") = false →
  JS.split (a +:+ String sep rest) sep = a :: JS.split rest sep.
Proof.
  induction a as [|c a IH].
  - intros _. rewrite string_nil_app. simpl. by rewrite Ascii.eqb_refl.
  - intros [H1 H2]%includes_false_cons. rewrite starts_with_unit in H1.
    rewrite string_cons_app. simpl. by rewrite H1, IH.
Qed.

(** X18: the code pasted at the OAuth callback.  A code of the form
    [C#V], with no [#] in [C] nor in [V] and [V] not empty, is exchanged
    with code [C] and with [V] both as state and as code verifier; a
    further [#] and what follows it are dropped; a code without [#] is
    exchanged whole, with an empty state and an empty verifier; and a
    missing or empty code is not exchanged at all. *)
Theorem oauth_code_split (env_client_id : option string) :
  (∀ c v,
     JS.includes c "#" = false → JS.includes v "#" = false → v ≠ "" →
     oauth_callback_request env_client_id (Some (c +:+ "#" +:+ v))
     = Some (mkTokenRequest c v "authorization_code" (CLIENT_ID env_client_id)
               REDIRECT_URI v)
     ∧ ∀ more,
         oauth_callback_request env_client_id
           (Some (c +:+ "#" +:+ v +:+ "#" +:+ more))
         = oauth_callback_request env_client_id (Some (c +:+ "#" +:+ v)))
  ∧ (∀ c,
       JS.includes c "#" = false → c ≠ "" →
       oauth_callback_request env_client_id (Some c)
       = Some (mkTokenRequest c "" "authorization_code" (CLIENT_ID env_client_id)
                 REDIRECT_URI ""))
  ∧ oauth_callback_request env_client_id None = None
  ∧ oauth_callback_request env_client_id (Some "") = None.
Proof.
  split; [|split; [|done]].
  - intros c v Hc Hv Hne.
    assert (∀ rest, JS.truthy (c +:+ "#" +:+ rest) = true) as Htr
      by (intros; by destruct c).
    assert (oauth_callback_request env_client_id (Some (c +:+ "#" +:+ v))
            = Some (mkTokenRequest c v "authorization_code"
                      (CLIENT_ID env_client_id) REDIRECT_URI v)) as E.
    { unfold oauth_callback_request, exchangeCodeForTokens_request.
      rewrite Htr. cbv zeta.
      change (c +:+ "#" +:+ v) with (c +:+ String hash v).
      rewrite split_at_sep by done. rewrite split_sep_free by done.
      apply truthy_true in Hne. simpl. unfold JS.str_or. by rewrite Hne. }
    split; [done|]. intros more. rewrite E.
    unfold oauth_callback_request, exchangeCodeForTokens_request.
    rewrite Htr. cbv zeta.
    change (c +:+ "#" +:+ v +:+ "#" +:+ more)
      with (c +:+ String hash (v +:+ String hash more)).
    rewrite !split_at_sep by done.
    apply truthy_true in Hne. simpl. unfold JS.str_or. by rewrite Hne.
  - intros c Hc Hne. unfold oauth_callback_request, exchangeCodeForTokens_request.
    apply truthy_true in Hne. rewrite Hne. cbv zeta.
    rewrite split_sep_free by done. done.
Qed.

Lemma oauth_code_split_witness :
  oauth_callback_request None (Some "abc#xyz")
  = Some (mkTokenRequest "abc" "xyz" "authorization_code"
            "9d1c250a-e61b-44d9-88ed-5944d1962f5e" REDIRECT_URI "xyz").
Proof.
  apply (proj1 (proj1 (oauth_code_split None) "abc" "xyz" eq_refl eq_refl
                  ltac:(discriminate))).
Defined.

(** * Dropped frames and the size of the output *)

Lemma processFrames_skip (state : ConverterState)
    (frames : list (Z * AnthropicStreamEvent)) :
  processFrames state frames
  = processFrames state (List.filter (λ frame, negb (skipped (snd frame))) frames).
Proof.
  revert state. induction frames as [|[now data] frames IH]; intros state;
    [done|].
  simpl. destruct (skipped data) eqn:Hs; simpl.
  - unfold processFrame. rewrite Hs. rewrite IH.
    by destruct (processFrames state _).
  - destruct (processFrame now state data) as [state1 r1]. by rewrite IH.
Qed.

(** X21: frames of the dropped kinds ([ping], [content_block_stop],
    [content_block_start] of a text block) can be taken out of an
    exchange, wherever they are, without changing the final state nor
    anything that is emitted. *)
Theorem dropped_frames_are_no_ops (state : ConverterState)
    (reads reads' : list (Z * list (option AnthropicStreamEvent))) :
  frames_read reads'
  = List.filter (λ frame, negb (skipped (snd frame))) (frames_read reads) →
  processChunks state reads' = processChunks state reads.
Proof.
  intros H. rewrite !processChunks_frames, H. symmetry. apply processFrames_skip.
Qed.

Lemma dropped_frames_are_no_ops_witness :
  processChunks createConverterState [(4, [Some usage_frame])]
  = processChunks createConverterState
      [(4, [Some ping_with_usage; Some usage_frame]);
       (4, [Some (mkEvent "content_block_stop" None None None (Some 0) None None
                    None)])].
Proof.
  apply (dropped_frames_are_no_ops createConverterState
           [(4, [Some ping_with_usage; Some usage_frame]);
            (4, [Some (mkEvent "content_block_stop" None None None (Some 0) None
                         None None)])]
           [(4, [Some usage_frame])]).
  reflexivity.
Defined.

(** X22: one frame never floods the client.  A frame that is no
    [message_stop] emits at most one chunk and never the terminal signal;
    a [message_stop] frame emits at most one chunk, and then the terminal
    signal, last. *)
Theorem output_of_a_frame_is_bounded (now : Z) (state : ConverterState)
    (data : AnthropicStreamEvent) :
  (ev_type data ≠ "message_stop" →
   (length (snd (processFrame now state data)) ≤ 1)%nat
   ∧ done ∉ snd (processFrame now state data))
  ∧ (ev_type data = "message_stop" →
     (length (snd (processFrame now state data)) ≤ 2)%nat
     ∧ last (snd (processFrame now state data)) = Some done
     ∧ count_done (snd (processFrame now state data)) = 1%nat).
Proof.
  split.
  - intros Ht. apply String.eqb_neq in Ht.
    destruct (skipped data) eqn:Hs.
    + unfold processFrame. rewrite Hs. simpl. split; [lia|].
      apply not_elem_of_nil.
    + rewrite (processFrame_unfold now state data Hs). simpl. rewrite Ht.
      rewrite app_nil_r.
      destruct (snd (transformToOpenAI _ _ _)); simpl; split; try lia.
      * intros [?|?%elem_of_nil]%elem_of_cons; done.
      * apply not_elem_of_nil.
  - intros Ht. rewrite (processFrame_message_stop now state data Ht). simpl.
    destruct (createUsageChunk _ _); simpl; repeat split; lia.
Qed.

Lemma output_of_a_frame_is_bounded_witness :
  (length (snd (processFrame 0 createConverterState message_stop_frame)) ≤ 2)%nat
  ∧ last (snd (processFrame 0 createConverterState message_stop_frame)) = Some done
  ∧ count_done (snd (processFrame 0 createConverterState message_stop_frame))
    = 1%nat.
Proof.
  apply (proj2 (output_of_a_frame_is_bounded 0 createConverterState
                  message_stop_frame)).
  reflexivity.
Defined.
